(** * DocumentRAG: the flattening, index, search and query helpers

    A shallow embedding of the Python sources
    ([flatten_helper.py], [azure_vector_helper.py], [search_helper.py],
    [embedding_helper.py], [indexing_helper.py], [main.py],
    [user_query.py], [delete_index.py], [setup_index.py]) and the
    properties of their specification.

    Python values are the values [json.load] produces; text is a
    [string] holding the UTF-8 bytes of a Python [str]; a function that
    can raise returns a [result]. *)

From Stdlib Require Import ZArith String Ascii List Lia.
From stdpp Require Import base option list strings pretty gmap.

Set Warnings "-register-all".

Local Open Scope Z_scope.
Local Open Scope string_scope.

(** ** Exceptions and results *)

(** The exception classes the modelled code raises or lets through.
    Exceptions raised by the interpreter carry no message here; those
    the sources build carry the text the source gives them. *)
Inductive exn : Type :=
| TypeError
| AttributeError
| KeyError (key : string)
| OSFileNotFound (filename : string)
| FileNotFoundError (msg : string)
| JSONDecodeError (msg : string)
| ValueError (msg : string)
| HTTPError (msg : string)
| Exception (msg : string)
| ServiceError (msg : string).

Inductive result (A : Type) : Type :=
| Ok (a : A)
| Raise (e : exn).

Arguments Ok {A} a.
Arguments Raise {A} e.

Global Instance result_ret : MRet result := fun A a => Ok a.

Global Instance result_bind : MBind result := fun A B k r =>
  match r with
  | Ok a => k a
  | Raise e => Raise e
  end.

Definition is_ok {A : Type} (r : result A) : bool :=
  match r with Ok _ => true | Raise _ => false end.

(** [for_each f l] runs [f] on the elements of [l] from left to right
    and stops at the first exception, as a [for] loop that appends to a
    local list does. *)
Fixpoint for_each {A B : Type} (f : A -> result B) (l : list A) : result (list B) :=
  match l with
  | [] => Ok []
  | a :: l' => b ← f a; bs ← for_each f l'; Ok (b :: bs)
  end.

(** ** Python values *)

(** A float is carried by its [repr] text, which is what [str] and an
    f-string print for it.  A dictionary is the list of its items in
    insertion order; keys are text, as in every decoded JSON object. *)
Inductive pyval : Type :=
| PNone
| PBool (b : bool)
| PInt (z : Z)
| PFloat (repr : string)
| PStr (s : string)
| PList (l : list pyval)
| PDict (d : list (string * pyval)).

Definition dict : Type := list (string * pyval).

(** [d.get(key, default)] *)
Fixpoint dict_get (d : dict) (key : string) (default : pyval) : pyval :=
  match d with
  | [] => default
  | (k, v) :: d' => if String.eqb k key then v else dict_get d' key default
  end.

(** [d[key] = v]: replaces the value in place, or appends a new item. *)
Fixpoint dict_set (d : dict) (key : string) (v : pyval) : dict :=
  match d with
  | [] => [(key, v)]
  | (k, v0) :: d' =>
      if String.eqb k key then (k, v) :: d' else (k, v0) :: dict_set d' key v
  end.

(** [key in d] *)
Definition dict_has (d : dict) (key : string) : bool :=
  existsb (fun kv => String.eqb (fst kv) key) d.

(** [str.join] on a list of text. *)
Definition join (sep : string) (l : list string) : string := String.concat sep l.

(** [needle in hay] on text. *)
Fixpoint str_contains (needle hay : string) : bool :=
  String.prefix needle hay ||
  match hay with
  | EmptyString => false
  | String _ hay' => str_contains needle hay'
  end.

(** [s.endswith(suffix)] *)
Fixpoint endswith (s suffix : string) : bool :=
  String.eqb s suffix ||
  match s with
  | EmptyString => false
  | String _ s' => endswith s' suffix
  end.

(** Truth value of a value: [bool(v)], [if v], [not v]. *)
Definition truthy (v : pyval) : bool :=
  match v with
  | PNone => false
  | PBool b => b
  | PInt z => negb (Z.eqb z 0)
  | PFloat r => negb (String.eqb r "0.0" || String.eqb r "-0.0")
  | PStr s => negb (String.eqb s EmptyString)
  | PList l => match l with [] => false | _ => true end
  | PDict d => match d with [] => false | _ => true end
  end.

(** [v == "text"] for a string literal on the right. *)
Definition eq_str (v : pyval) (s : string) : bool :=
  match v with
  | PStr t => String.eqb t s
  | _ => false
  end.

(** The newline character, and text made of one character. *)
Definition nl : string := String "010"%char EmptyString.

Definition str1 (c : ascii) : string := String c EmptyString.

(** [repr] of printable ASCII text: the quote is the apostrophe unless
    the text has an apostrophe and no double quote; backslash, the
    quote, newline, carriage return and tab are escaped.  Used to run
    the examples of this file. *)
Definition has_char (c : ascii) (s : string) : bool :=
  existsb (Ascii.eqb c) (list_ascii_of_string s).

Definition repr_char (quote : ascii) (c : ascii) : string :=
  if Ascii.eqb c "092"%char then String "092" (str1 "092")
  else if Ascii.eqb c quote then String "092" (str1 quote)
  else if Ascii.eqb c "010"%char then String "092" "n"
  else if Ascii.eqb c "013"%char then String "092" "r"
  else if Ascii.eqb c "009"%char then String "092" "t"
  else str1 c.

Definition ascii_repr (s : string) : string :=
  let quote :=
    if has_char "039"%char s && negb (has_char "034"%char s)
    then "034"%char else "039"%char in
  String quote
    (String.concat EmptyString (map (repr_char quote) (list_ascii_of_string s))
     +:+ str1 quote).

(** ** [flatten_helper.py] *)

Section Flatten.

(** [repr] of a Python [str] (quoting and escaping by the interpreter's
    Unicode tables) is taken as given. *)
Variable str_repr : string -> string.

(** [repr(v)] *)
Fixpoint py_repr (v : pyval) : string :=
  match v with
  | PNone => "None"
  | PBool true => "True"
  | PBool false => "False"
  | PInt z => pretty z
  | PFloat r => r
  | PStr s => str_repr s
  | PList l => "[" +:+ join ", " (map py_repr l) +:+ "]"
  | PDict d =>
      "{" +:+
      join ", " (map (fun kv : string * pyval => let (k, x) := kv in
                                str_repr k +:+ ": " +:+ py_repr x) d)
      +:+ "}"
  end.

(** [str(v)], which is also what an f-string field [{v}] prints. *)
Definition py_str (v : pyval) : string :=
  match v with
  | PStr s => s
  | _ => py_repr v
  end.

Definition flatten_checkbox_field (field_name : pyval) (value : bool) : string :=
  let status := if value then "Checked" else "Unchecked" in
  py_str field_name +:+ ": " +:+ status.

Definition flatten_text_field (field_name : pyval) (value : string) : string :=
  py_str field_name +:+ ": " +:+ value.

Definition flatten_number_field (field_name : pyval) (value : pyval) : string :=
  py_str field_name +:+ ": " +:+ py_str value.

Definition flatten_password_field (field_name : pyval) : string :=
  py_str field_name +:+ ": [REDACTED]".

Definition flatten_date_field (field_name : pyval) (value : string) : string :=
  py_str field_name +:+ ": " +:+ value.

(** [sep.join(items)] on values: every item has to be a [str]. *)
Fixpoint join_values_go (items : list pyval) : result (list string) :=
  match items with
  | [] => Ok []
  | PStr s :: items' => ss ← join_values_go items'; Ok (s :: ss)
  | _ :: _ => Raise TypeError
  end.

Definition join_values (sep : string) (items : list pyval) : result string :=
  ss ← join_values_go items; Ok (join sep ss).

Definition flatten_address_field (field_name : pyval) (address_value : dict)
  : result string :=
  let line1 := dict_get address_value "line1" (PStr EmptyString) in
  let line2 := dict_get address_value "line2" (PStr EmptyString) in
  let city := dict_get address_value "city" (PStr EmptyString) in
  let state := dict_get address_value "state" (PStr EmptyString) in
  let zip_code := dict_get address_value "zip" (PStr EmptyString) in
  let parts := [line1; line2; city; state; zip_code] in
  joined ← join_values ", " (List.filter truthy parts);
  Ok (py_str field_name +:+ ": " +:+ joined).

(** [", ".join(f"{k}={v}" for k, v in row.items())] *)
Definition row_content (row : dict) : string :=
  join ", " (map (fun kv => fst kv +:+ "=" +:+ py_str (snd kv)) row).

(** The loop of [flatten_table_field]: [i] is the number of the next
    row, [lines] the lines appended so far.  [row.items()] exists on a
    dictionary only. *)
Fixpoint table_rows (i : Z) (rows : list pyval) (lines : list string)
  : result (list string) :=
  match rows with
  | [] => Ok lines
  | PDict row :: rows' =>
      table_rows (i + 1) rows'
        (lines ++ ["  Row" +:+ pretty i +:+ ": [" +:+ row_content row +:+ "]"])%list
  | _ :: _ => Raise AttributeError
  end.

Definition flatten_table_field (field_name : pyval) (rows : list pyval)
  : result string :=
  lines ← table_rows 1 rows [py_str field_name +:+ ":"];
  Ok (join nl lines).

Definition flatten_signature_field (field_name : pyval) (value : dict) : string :=
  let ts := dict_get value "timestamp" (PStr EmptyString) in
  let file_ref := dict_get value "fileRef" (PStr EmptyString) in
  let text := py_str field_name +:+ ": Signature provided" in
  let text := if truthy ts then text +:+ " at " +:+ py_str ts else text in
  let text := if truthy file_ref then text +:+ ", file: " +:+ py_str file_ref else text in
  text.

Definition is_none (v : pyval) : bool :=
  match v with PNone => true | _ => false end.

Definition flatten_location_field (field_name : pyval) (value : dict) : string :=
  let lat := dict_get value "lat" PNone in
  let lon := dict_get value "lon" PNone in
  if negb (is_none lat) && negb (is_none lon)
  then py_str field_name +:+ ": (Lat=" +:+ py_str lat +:+ ", Lon=" +:+ py_str lon +:+ ")"
  else py_str field_name +:+ ": [Location data]".

Definition flatten_field (field_data : dict) : result string :=
  let field_type := dict_get field_data "fieldType" PNone in
  let field_name := dict_get field_data "fieldName" (PStr "UnknownField") in
  let value := dict_get field_data "value" PNone in
  if eq_str field_type "checkbox" then
    Ok (flatten_checkbox_field field_name (truthy value))
  else if eq_str field_type "text" then
    Ok (flatten_text_field field_name (py_str value))
  else if eq_str field_type "number" then
    Ok (flatten_number_field field_name value)
  else if eq_str field_type "password" then
    Ok (flatten_password_field field_name)
  else if eq_str field_type "date" then
    Ok (flatten_date_field field_name (py_str value))
  else if eq_str field_type "address" then
    match value with
    | PDict d => flatten_address_field field_name d
    | _ => Ok (py_str field_name +:+ ": [Invalid address data]")
    end
  else if eq_str field_type "table" then
    match value with
    | PList rows => flatten_table_field field_name rows
    | _ => Ok (py_str field_name +:+ ": [Invalid table data]")
    end
  else if eq_str field_type "signature" then
    match value with
    | PDict d => Ok (flatten_signature_field field_name d)
    | _ => Ok (py_str field_name +:+ ": [Signature provided]")
    end
  else if eq_str field_type "location" then
    match value with
    | PDict d => Ok (flatten_location_field field_name d)
    | _ => Ok (py_str field_name +:+ ": [Location data]")
    end
  else
    Ok (py_str field_name +:+ ": " +:+ py_str value).

(** [for x in v]: a list gives its elements, a dictionary its keys, text
    its characters; the other values are not iterable. *)
Definition py_iter (v : pyval) : result (list pyval) :=
  match v with
  | PList l => Ok l
  | PDict d => Ok (map (fun kv => PStr (fst kv)) d)
  | PStr s => Ok (map (fun c => PStr (str1 c)) (list_ascii_of_string s))
  | _ => Raise TypeError
  end.

(** [flatten_field(field_entry)] for an entry of any type: [.get]
    exists on a dictionary only. *)
Definition flatten_entry (field_entry : pyval) : result string :=
  match field_entry with
  | PDict d => flatten_field d
  | _ => Raise AttributeError
  end.

Definition submission_header (submission_doc : dict) : list string :=
  let submission_id := dict_get submission_doc "_id" (PStr EmptyString) in
  let folder_id := dict_get submission_doc "folder_id" (PStr EmptyString) in
  let document_id := dict_get submission_doc "document_id" (PStr EmptyString) in
  let user_id := dict_get submission_doc "user_id" (PStr EmptyString) in
  let timestamp := dict_get submission_doc "timestamp" (PStr EmptyString) in
  [ "Submission (Result ID: " +:+ py_str submission_id +:+ ")";
    "For Document: " +:+ py_str document_id +:+ " in Folder: "
      +:+ py_str folder_id +:+ ".";
    "Owned by user: " +:+ py_str user_id +:+ ".";
    "Timestamp: " +:+ py_str timestamp +:+ "." ].

Definition flatten_submission (submission_doc : dict) : result string :=
  let lines := submission_header submission_doc in
  let field_values := dict_get submission_doc "fieldValues" (PList []) in
  let lines := (lines ++ ["Field Values:"])%list in
  entries ← py_iter field_values;
  texts ← for_each flatten_entry entries;
  Ok (join nl (lines ++ map (fun t => "  " +:+ t) texts)%list).

End Flatten.

(** ** The process and the services it talks to *)

Inductive level : Type := INFO | WARNING | ERROR.

(** What a run can change: the files on disk, the log and the lines
    printed.

    The log is a file too: every module that logs starts with
    [logging.basicConfig(filename='RAG/....log', filemode='a', ...)], so
    each record is appended to the log file of the process, behind a
    time stamp.  That file is kept here as [log], the records appended
    to it in order, without the time stamps, and not under [files]:
    [files] holds the other files, and a statement about [files] says
    nothing about the log file. *)
Record world : Type := World {
  files : gmap string string;
  log : list (level * string);
  stdout : list string
}.

(** A computation that reads and changes the [world] and returns or
    raises. *)
Definition io (A : Type) : Type := world -> result A * world.

Global Instance io_ret : MRet io := fun A a w => (Ok a, w).

Global Instance io_bind : MBind io := fun A B k m w =>
  match m w with
  | (Ok a, w') => k a w'
  | (Raise e, w') => (Raise e, w')
  end.

Definition raise {A : Type} (e : exn) : io A := fun w => (Raise e, w).

Definition lift {A : Type} (r : result A) : io A := fun w => (r, w).

(** [try: m  except Exception as e: h e] *)
Definition try_except {A : Type} (m : io A) (h : exn -> io A) : io A := fun w =>
  match m w with
  | (Ok a, w') => (Ok a, w')
  | (Raise e, w') => h e w'
  end.

(** [logging.info(msg)], [logging.warning(msg)], [logging.error(msg)]:
    one more record at the end of the log file. *)
Definition logging (l : level) (msg : string) : io unit := fun w =>
  (Ok tt, World (files w) (log w ++ [(l, msg)]) (stdout w)).

Definition print (msg : string) : io unit := fun w =>
  (Ok tt, World (files w) (log w) (stdout w ++ [msg])).

(** [open(path, "r").read()] *)
Definition read_file (path : string) : io string := fun w =>
  match files w !! path with
  | Some content => (Ok content, w)
  | None => (Raise (OSFileNotFound path), w)
  end.

(** [open(path, "w").write(content)]: the file is created or replaced.
    Every path can be written here: a directory that is missing, a
    file that may not be written and a full disk are outside the
    model, and so is text that UTF-8 cannot encode. *)
Definition write_file (path content : string) : io unit := fun w =>
  (Ok tt, World (<[path := content]> (files w)) (log w) (stdout w)).

(** [os.path.exists(path)] *)
Definition path_exists (path : string) : io bool := fun w =>
  (Ok (bool_decide (is_Some (files w !! path))), w).

(** An HTTP exchange as [requests] shows it. *)
Record http_request : Type := Request {
  req_method : string;
  req_url : string;
  req_headers : list (string * string);
  req_json : option pyval
}.

Record response : Type := Response {
  status_code : Z;
  reason : string;
  text : string
}.

(** The outside of the process: the environment variables (after
    [load_dotenv]), the search service behind [requests], and the two
    OpenAI calls, each reduced to the part of the reply the code reads:
    [embedding_create engine text] is
    [openai.Embedding.create(...)["data"][0]["embedding"]], and
    [chat_create engine messages] is
    [openai.ChatCompletion.create(...).choices[0].message['content']].
    A service is the function from a call to its reply: the model keeps
    no record of the calls made, so it tells what a run does with the
    replies, not which requests left the process. *)
Record services : Type := Services {
  getenv : string -> option string;
  http_send : http_request -> result response;
  embedding_create : string -> string -> result pyval;
  chat_create : string -> list pyval -> result pyval
}.

(** [os.getenv(name, default)] *)
Definition getenv_default (srv : services) (name default : string) : string :=
  match getenv srv name with
  | Some v => v
  | None => default
  end.

(** [d[key]] on a dictionary, and [v[key]] on any value with a text key. *)
Fixpoint dict_lookup (d : dict) (key : string) : option pyval :=
  match d with
  | [] => None
  | (k, v) :: d' => if String.eqb k key then Some v else dict_lookup d' key
  end.

Definition subscript (v : pyval) (key : string) : result pyval :=
  match v with
  | PDict d =>
      match dict_lookup d key with
      | Some x => Ok x
      | None => Raise (KeyError key)
      end
  | _ => Raise TypeError
  end.

(** [v.get(key, default)] on any value. *)
Definition get_method (v : pyval) (key : string) (default : pyval) : result pyval :=
  match v with
  | PDict d => Ok (dict_get d key default)
  | _ => Raise AttributeError
  end.

(** [len(v)]; the length of text counts code points, that is the bytes
    that do not continue a UTF-8 sequence. *)
Definition is_continuation (c : ascii) : bool :=
  let n := nat_of_ascii c in (128 <=? n)%nat && (n <? 192)%nat.

Definition py_len (v : pyval) : result Z :=
  match v with
  | PStr s =>
      Ok (Z.of_nat (length (List.filter (fun c => negb (is_continuation c))
                                        (list_ascii_of_string s))))
  | PList l => Ok (Z.of_nat (length l))
  | PDict d => Ok (Z.of_nat (length d))
  | _ => Raise TypeError
  end.

(** [l.append(x)] *)
Definition append_method (l : pyval) (x : pyval) : result pyval :=
  match l with
  | PList xs => Ok (PList (xs ++ [x]))
  | _ => Raise AttributeError
  end.

Section Runtime.

(** Taken from the interpreter and its libraries: [repr] of a [str];
    [str(e)] for an exception the interpreter or a library raised;
    [json.loads], which raises on malformed text; [json.dumps] with
    [ensure_ascii=False, indent=4]; and [str.strip]. *)
Variable str_repr : string -> string.
Variable exn_text : exn -> string.
Variable json_loads : string -> result pyval.
Variable json_dumps : pyval -> string.
Variable str_strip : string -> string.

(** [str(e)]: the message for an exception the sources build. *)
Definition exn_str (e : exn) : string :=
  match e with
  | FileNotFoundError msg => msg
  | ValueError msg => msg
  | Exception msg => msg
  | _ => exn_text e
  end.

Definition truthy_env (v : option string) : bool :=
  match v with
  | Some s => truthy (PStr s)
  | None => false
  end.

(** *** [azure_vector_helper.py] *)

Record AzureSearchRESTHelper : Type := AzureHelper {
  az_endpoint : string;
  az_api_key : string;
  az_index_name : string;
  az_api_version : string;
  az_index_definition_file : string;
  az_index_definition : pyval
}.

Definition index_url (self : AzureSearchRESTHelper) : string :=
  az_endpoint self +:+ "/indexes/" +:+ az_index_name self
  +:+ "?api-version=" +:+ az_api_version self.

(** [response.json().get("error", {}).get("message", fallback)] inside
    [try ... except json.JSONDecodeError: fallback]. *)
Definition error_message_of (resp : response) (fallback : string) : result pyval :=
  match json_loads (text resp) with
  | Ok body =>
      err ← get_method body "error" (PDict []);
      get_method err "message" (PStr fallback)
  | Raise (JSONDecodeError _) => Ok (PStr fallback)
  | Raise e => Raise e
  end.

Definition create_or_update_index (srv : services) (self : AzureSearchRESTHelper)
  : io unit :=
  let url := index_url self in
  let headers := [("Content-Type", "application/json"); ("api-key", az_api_key self)] in
  resp ← lift (http_send srv (Request "PUT" url headers (Some (az_index_definition self))));
  if (status_code resp =? 200)%Z || (status_code resp =? 201)%Z then
    logging INFO ("Index '" +:+ az_index_name self +:+ "' created/updated successfully.");;
    print ("Index '" +:+ az_index_name self +:+ "' created/updated successfully.")
  else
    error_message ← lift (error_message_of resp (text resp));
    let msg := "Failed to create/update index '" +:+ az_index_name self +:+ "': "
               +:+ py_str str_repr error_message in
    logging ERROR msg;;
    raise (Exception msg).

Definition delete_index (srv : services) (self : AzureSearchRESTHelper) : io unit :=
  let url := index_url self in
  let headers := [("api-key", az_api_key self)] in
  resp ← lift (http_send srv (Request "DELETE" url headers None));
  if (status_code resp =? 204)%Z then
    logging INFO ("Index '" +:+ az_index_name self +:+ "' deleted successfully.");;
    print ("Index '" +:+ az_index_name self +:+ "' deleted successfully.")
  else if (status_code resp =? 404)%Z then
    logging WARNING ("Index '" +:+ az_index_name self +:+ "' does not exist.");;
    print ("Index '" +:+ az_index_name self +:+ "' does not exist.")
  else
    error_message ← lift (error_message_of resp (text resp));
    let msg := "Failed to delete index '" +:+ az_index_name self +:+ "': "
               +:+ py_str str_repr error_message in
    logging ERROR msg;;
    raise (Exception msg).

(** *** [search_helper.py] *)

Record SearchHelper : Type := SearchHelperOf {
  sh_endpoint : string;
  sh_api_key : string;
  sh_index_name : string;
  sh_api_version : string
}.

Definition SearchHelper_init (srv : services) : io SearchHelper :=
  let endpoint := getenv srv "ACS_ENDPOINT" in
  let api_key := getenv srv "ACS_API_KEY" in
  let index_name := getenv_default srv "ACS_INDEX_NAME" "knowledge-index" in
  let api_version := getenv_default srv "ACS_API_VERSION" "2024-07-01" in
  match endpoint, api_key with
  | Some e, Some k =>
      if truthy (PStr e) && truthy (PStr k) && truthy (PStr index_name) then
        logging INFO "Initialized SearchHelper.";;
        mret (SearchHelperOf e k index_name api_version)
      else
        let error_msg := "Azure Cognitive Search configuration is incomplete. Please check your .env file." in
        logging ERROR error_msg;; raise (ValueError error_msg)
  | _, _ =>
      let error_msg := "Azure Cognitive Search configuration is incomplete. Please check your .env file." in
      logging ERROR error_msg;; raise (ValueError error_msg)
  end.

(** The request body of [vector_search], built before the request is
    sent. *)
Definition search_body (embedding : pyval) (top_k : Z) (user_id : option string) : dict :=
  let body :=
    [ ("search", PStr "*");
      ("vectorQueries",
        PList [ PDict [ ("kind", PStr "vector");
                        ("vector", embedding);
                        ("fields", PStr "contentVector");
                        ("k", PInt top_k);
                        ("exhaustive", PBool false) ] ]);
      ("select", PStr "id, userId, folderId, documentId, type, content, metadata");
      ("top", PInt top_k) ] in
  if truthy_env user_id then
    dict_set body "filter"
      (PStr ("userId eq '" +:+ default EmptyString user_id +:+ "'"))
  else body.

(** [response.raise_for_status()] and the text of the error it raises. *)
Definition raise_for_status (url : string) (resp : response) : result unit :=
  let st := status_code resp in
  if (400 <=? st)%Z && (st <? 500)%Z then
    Raise (HTTPError (pretty st +:+ " Client Error: " +:+ reason resp
                      +:+ " for url: " +:+ url))
  else if (500 <=? st)%Z && (st <? 600)%Z then
    Raise (HTTPError (pretty st +:+ " Server Error: " +:+ reason resp
                      +:+ " for url: " +:+ url))
  else Ok tt.

Definition vector_search (srv : services) (self : SearchHelper)
    (embedding : pyval) (top_k : Z) (user_id : option string) : io pyval :=
  let url := sh_endpoint self +:+ "/indexes('" +:+ sh_index_name self
             +:+ "')/docs/search.post.search?api-version=" +:+ sh_api_version self in
  let headers := [("Content-Type", "application/json"); ("api-key", sh_api_key self)] in
  let body := search_body embedding top_k user_id in
  match http_send srv (Request "POST" url headers (Some (PDict body))) with
  | Raise e =>
      logging ERROR ("Error during vector search: " +:+ exn_str e);; raise e
  | Ok resp =>
      let attempt :=
        _ ← raise_for_status url resp;
        results ← json_loads (text resp);
        value ← get_method results "value" (PList []);
        n ← py_len value;
        Ok (results, n) in
      match attempt with
      | Ok (results, n) =>
          logging INFO ("Vector search successful. Retrieved " +:+ pretty n
                        +:+ " documents.");;
          mret results
      | Raise (HTTPError http_err) =>
          error_message ← lift (error_message_of resp http_err);
          let msg := "HTTP error during vector search: "
                     +:+ py_str str_repr error_message in
          logging ERROR msg;;
          raise (Exception msg)
      | Raise e =>
          logging ERROR ("Error during vector search: " +:+ exn_str e);; raise e
      end
  end.

(** *** [embedding_helper.py] *)

Record EmbeddingHelper : Type := EmbeddingHelperOf {
  eh_api_base : string;
  eh_api_version : string;
  eh_api_key : string;
  eh_engine : string
}.

Definition EmbeddingHelper_init (srv : services) : io EmbeddingHelper :=
  let api_base := getenv srv "AZURE_OPENAI_ENDPOINT" in
  let api_version := getenv_default srv "AZURE_OPENAI_API_VERSION" "2023-03-15-preview" in
  let api_key := getenv srv "AZURE_OPENAI_API_KEY" in
  let engine := getenv_default srv "AZURE_OPENAI_ENGINE" "text-embedding-ada-002" in
  match api_base, api_key with
  | Some b, Some k =>
      if truthy (PStr b) && truthy (PStr k) && truthy (PStr engine) then
        mret (EmbeddingHelperOf b api_version k engine)
      else
        raise (ValueError "Azure OpenAI configuration is incomplete. Please check your local.env file.")
  | _, _ =>
      raise (ValueError "Azure OpenAI configuration is incomplete. Please check your local.env file.")
  end.

Definition get_embedding (srv : services) (self : EmbeddingHelper) (text : string)
  : io pyval :=
  try_except (lift (embedding_create srv (eh_engine self) text))
    (fun e => print ("Error generating embedding: " +:+ exn_str e);; raise e).

(** *** [main.py] *)

Definition load_submission (file_path : string) : io pyval :=
  try_except
    (content ← read_file file_path;
     submission ← lift (json_loads content);
     logging INFO ("Loaded submission from '" +:+ file_path +:+ "'.");;
     mret submission)
    (fun e =>
       match e with
       | OSFileNotFound _ | FileNotFoundError _ =>
           logging ERROR ("Submission file '" +:+ file_path +:+ "' not found.");;
           raise e
       | JSONDecodeError _ =>
           logging ERROR ("Error decoding JSON from '" +:+ file_path +:+ "': "
                          +:+ exn_str e);;
           raise e
       | _ => raise e
       end).

(** *** [user_query.py] *)

Definition CONVERSATION_HISTORY_FILE : string := "RAG/conversation_history.json".

Definition load_env : io unit :=
  logging INFO "Loaded environment variables.".

Definition load_conversation_history : io pyval :=
  try_except
    (present ← path_exists CONVERSATION_HISTORY_FILE;
     if (present : bool) then
       content ← read_file CONVERSATION_HISTORY_FILE;
       history ← lift (json_loads content);
       logging INFO ("Loaded conversation history from '"
                     +:+ CONVERSATION_HISTORY_FILE +:+ "'.");;
       mret history
     else
       logging INFO "No conversation history file found. Starting fresh.";;
       mret (PList []))
    (fun e =>
       logging ERROR ("Error loading conversation history: " +:+ exn_str e);;
       mret (PList [])).

Definition save_conversation_history (history : pyval) : io unit :=
  try_except
    (write_file CONVERSATION_HISTORY_FILE (json_dumps history);;
     logging INFO ("Conversation history saved to '"
                   +:+ CONVERSATION_HISTORY_FILE +:+ "'."))
    (fun e =>
       logging ERROR ("Error saving conversation history: " +:+ exn_str e)).

Definition get_user_query (file_path : string) : io string :=
  try_except
    (content ← read_file file_path;
     let query := str_strip content in
     logging INFO ("User query loaded from '" +:+ file_path +:+ "': " +:+ query);;
     print query;;
     mret query)
    (fun e =>
       match e with
       | OSFileNotFound _ | FileNotFoundError _ =>
           logging ERROR ("Query file '" +:+ file_path +:+ "' not found.");;
           raise (FileNotFoundError ("Query file '" +:+ file_path +:+ "' not found."))
       | _ =>
           logging ERROR ("Error reading query from '" +:+ file_path +:+ "': "
                          +:+ exn_str e);;
           raise e
       end).

Definition message (role content : string) : pyval :=
  PDict [("role", PStr role); ("content", PStr content)].

Definition system_message : string :=
  "You are an AI assistant that helps answer questions based on provided documents. "
  +:+ "Use the information from the documents and the recent conversation history to answer.".

(** [v.strip()] *)
Definition strip_method (v : pyval) : result string :=
  match v with
  | PStr s => Ok (str_strip s)
  | _ => Raise AttributeError
  end.

(** [[head] + v] *)
Definition list_concat (head : pyval) (v : pyval) : result (list pyval) :=
  match v with
  | PList xs => Ok (head :: xs)
  | _ => Raise TypeError
  end.

(** The steps of [process_results_with_openai_chat] after the user
    query has been appended, up to the stripped answer. *)
Definition chat_answer (srv : services) (results : pyval)
    (conversation_history : pyval) : result string :=
  docs ← py_iter results;
  contents ← for_each (fun doc => subscript doc "content") docs;
  context ← join_values (nl +:+ nl) contents;
  messages ← list_concat (message "system" system_message) conversation_history;
  let messages :=
    (messages ++ [message "system" ("Documents:" +:+ nl +:+ context)])%list in
  content ← chat_create srv (getenv_default srv "OPENAI_CHAT_MODEL" "gpt-4") messages;
  strip_method content.

Definition chat_failed (e : exn) (conversation_history : pyval)
  : io (string * pyval) :=
  logging ERROR ("Error generating response with OpenAI Chat Completion: "
                 +:+ exn_str e);;
  print (exn_str e);;
  mret ("I'm sorry, I couldn't generate a response at this time.",
        conversation_history).

(** The caller's list is changed in place: the result pairs the answer
    with the list as the caller sees it afterwards. *)
Definition process_results_with_openai_chat (srv : services) (results : pyval)
    (user_query : string) (conversation_history : pyval) : io (string * pyval) :=
  match append_method conversation_history (message "user" user_query) with
  | Raise e => chat_failed e conversation_history
  | Ok history1 =>
      match chat_answer srv results history1 with
      | Raise e => chat_failed e history1
      | Ok answer =>
          match append_method history1 (message "assistant" answer) with
          | Raise e => chat_failed e history1
          | Ok history2 =>
              logging INFO "Generated response using OpenAI Chat Completion.";;
              mret (answer, history2)
          end
      end
  end.

(** The loop of [main] that prints the retrieved documents. *)
Fixpoint display_documents (idx : Z) (docs : list pyval) : io unit :=
  match docs with
  | [] => mret tt
  | doc :: docs' =>
      print (nl +:+ "Document " +:+ pretty idx +:+ ":");;
      id ← lift (subscript doc "id");
      print ("ID: " +:+ py_str str_repr id);;
      type ← lift (subscript doc "type");
      print ("Type: " +:+ py_str str_repr type);;
      content ← lift (subscript doc "content");
      print ("Content: " +:+ py_str str_repr content);;
      metadata ← lift (subscript doc "metadata");
      print ("Metadata: " +:+ py_str str_repr metadata);;
      display_documents (idx + 1) docs'
  end.

(** Runs [m] and hands its outcome, returned or raised, to the caller:
    the shape of a [try] whose handler ends the function. *)
Definition attempt {A : Type} (m : io A) : io (result A) := fun w =>
  let (r, w') := m w in (Ok r, w').

Definition main (srv : services) : io unit :=
  load_env;;
  embedder ← EmbeddingHelper_init srv;
  searcher ← SearchHelper_init srv;
  conversation_history ← load_conversation_history;
  loaded ← attempt (get_user_query "RAG/query.txt");
  match loaded with
  | Raise e => print ("Error loading user query: " +:+ exn_str e)
  | Ok user_query =>
  embedded ← attempt (get_embedding srv embedder user_query);
  match embedded with
  | Raise e =>
      logging ERROR ("Failed to generate embedding: " +:+ exn_str e);;
      print "Error generating embedding. Please try again later."
  | Ok embedding =>
  let user_id := getenv_default srv "CURRENT_USER_ID" "userXYZ" in
  searched ← attempt
    (search_results ← vector_search srv searcher embedding 5 (Some user_id);
     lift (get_method search_results "value" (PList [])));
  match searched with
  | Raise e =>
      logging ERROR ("Vector search failed: " +:+ exn_str e);;
      print ("Error performing search: " +:+ exn_str e)
  | Ok documents =>
  if negb (truthy documents) then print "No relevant documents found."
  else
    print (nl +:+ "Top Relevant Documents:");;
    docs ← lift (py_iter documents);
    display_documents 1 docs;;
    history ← try_except
      (answered ← process_results_with_openai_chat srv documents user_query
                    conversation_history;
       print (nl +:+ "Answer:" +:+ nl +:+ fst answered);;
       mret (snd answered))
      (fun e =>
         logging ERROR ("Failed to generate answer with OpenAI Chat Completion: "
                        +:+ exn_str e);;
         print "Error generating answer. Please try again later.";;
         mret conversation_history);
    save_conversation_history history
  end end end.

(** *** [azure_vector_helper.py]: the constructor *)

(** [AzureSearchRESTHelper(env_file, index_definition_file)] *)
Definition AzureSearchRESTHelper_init (srv : services)
    (index_definition_file : string) : io AzureSearchRESTHelper :=
  let endpoint := getenv srv "ACS_ENDPOINT" in
  let api_key := getenv srv "ACS_API_KEY" in
  let index_name := getenv_default srv "ACS_INDEX_NAME" "knowledge-index" in
  let api_version := "2024-07-01" in
  if negb (truthy_env endpoint && truthy_env api_key) then
    let error_msg := "Azure Cognitive Search configuration is incomplete. Please check your local.env file." in
    logging ERROR error_msg;; raise (ValueError error_msg)
  else
    try_except
      (content ← read_file index_definition_file;
       index_definition ← lift (json_loads content);
       logging INFO ("Loaded index definition from '" +:+ index_definition_file
                     +:+ "'.");;
       mret (AzureHelper (default EmptyString endpoint)
               (default EmptyString api_key) index_name api_version
               index_definition_file index_definition))
      (fun e =>
         match e with
         | OSFileNotFound _ | FileNotFoundError _ =>
             let error_msg := "Index definition file '" +:+ index_definition_file
                              +:+ "' not found." in
             logging ERROR error_msg;; raise (FileNotFoundError error_msg)
         | JSONDecodeError _ =>
             let error_msg := "Error decoding JSON from '"
                              +:+ index_definition_file +:+ "': " +:+ exn_str e in
             logging ERROR error_msg;; raise (ValueError error_msg)
         | _ => raise e
         end).

(** *** [delete_index.py] and [setup_index.py] *)

Definition delete_existing_index (srv : services) : io unit :=
  try_except
    (index_helper ← AzureSearchRESTHelper_init srv "index_definition.json";
     delete_index srv index_helper)
    (fun e => print ("Error deleting index: " +:+ exn_str e)).

(** [main] of [setup_index.py] *)
Definition setup_index_main (srv : services) : io unit :=
  try_except
    (azure_search_helper ←
       AzureSearchRESTHelper_init srv "RAG/index_definition.json";
     create_or_update_index srv azure_search_helper;;
     print "Index created or updated successfully.")
    (fun e => print ("Error creating/updating index: " +:+ exn_str e)).

(** *** [indexing_helper.py] *)

Record IndexingHelper : Type := IndexingHelperOf {
  ih_endpoint : string;
  ih_api_key : string;
  ih_index_name : string;
  ih_api_version : string
}.

Definition IndexingHelper_init (srv : services) : io IndexingHelper :=
  let endpoint := getenv srv "ACS_ENDPOINT" in
  let api_key := getenv srv "ACS_API_KEY" in
  let index_name := getenv srv "ACS_INDEX_NAME" in
  let api_version := "2024-07-01" in
  if negb (truthy_env endpoint && truthy_env api_key && truthy_env index_name) then
    raise (ValueError "Azure Cognitive Search configuration is incomplete. Please check your .env file.")
  else
    mret (IndexingHelperOf (default EmptyString endpoint)
            (default EmptyString api_key) (default EmptyString index_name)
            api_version).

(** The exceptions of [requests.exceptions.RequestException]: the
    [HTTPError] of [raise_for_status] and the errors of the transport,
    which [http_send] raises as [ServiceError]. *)
Definition is_request_exception (e : exn) : bool :=
  match e with
  | HTTPError _ | ServiceError _ => true
  | _ => false
  end.

Definition index_url_of (self : IndexingHelper) : string :=
  ih_endpoint self +:+ "/indexes/" +:+ ih_index_name self
  +:+ "/docs/index?api-version=" +:+ ih_api_version self.

Definition index_document (srv : services) (self : IndexingHelper)
    (doc_id user_id folder_id document_id : pyval) (doc_type content_text : string)
    (embedding_vector : pyval) (metadata : string) : io unit :=
  let url := index_url_of self in
  let headers := [("Content-Type", "application/json"); ("api-key", ih_api_key self)] in
  let search_doc :=
    [ ("@search.action", PStr "upload");
      ("id", doc_id);
      ("userId", user_id);
      ("folderId", folder_id);
      ("documentId", document_id);
      ("type", PStr doc_type);
      ("content", PStr content_text);
      ("contentVector", embedding_vector);
      ("metadata", PStr metadata) ] in
  let payload := [("value", PList [PDict search_doc])] in
  try_except
    (resp ← lift (http_send srv (Request "POST" url headers (Some (PDict payload))));
     lift (raise_for_status url resp);;
     print ("Successfully indexed document ID: " +:+ py_str str_repr doc_id))
    (fun e =>
       if is_request_exception e then
         print ("Failed to index document ID: " +:+ py_str str_repr doc_id
                +:+ ". Error: " +:+ exn_str e);;
         raise e
       else raise e).

(** *** [main.py]: the entry point *)

Definition SUBMISSION_FILE : string := "RAG/submission.json".

(** [flatten_submission(submission)] for a decoded file of any type:
    [.get] exists on a dictionary only. *)
Definition flatten_loaded (submission : pyval) : result string :=
  match submission with
  | PDict d => flatten_submission str_repr d
  | _ => Raise AttributeError
  end.

(** Step 3 of [main]: the embedding of the flattened text. *)
Definition embed_summary (srv : services) (text_summary : string) : io pyval :=
  embedder ← EmbeddingHelper_init srv;
  embedding_vector ← get_embedding srv embedder text_summary;
  n ← lift (py_len embedding_vector);
  logging INFO ("Generated embedding vector of length: " +:+ pretty n);;
  print ("Generated embedding vector of length: " +:+ pretty n);;
  mret embedding_vector.

(** Step 4 of [main]: the upload of the document. *)
Definition index_submission (srv : services) (submission : pyval)
    (text_summary : string) (embedding_vector : pyval) : io unit :=
  indexing_helper ← IndexingHelper_init srv;
  doc_id ← lift (get_method submission "_id" PNone);
  user_id ← lift (get_method submission "user_id" PNone);
  folder_id ← lift (get_method submission "folder_id" PNone);
  document_id ← lift (get_method submission "document_id" PNone);
  let doc_type := "result" in
  if negb (truthy doc_id && truthy user_id && truthy folder_id
           && truthy document_id) then
    logging ERROR "Missing one or more required fields: '_id', 'user_id', 'folder_id', 'document_id'.";;
    print "Missing one or more required fields: '_id', 'user_id', 'folder_id', 'document_id'.";;
    raise (ValueError "Incomplete submission data.")
  else
    let metadata := EmptyString in
    index_document srv indexing_helper doc_id user_id folder_id document_id
      doc_type text_summary embedding_vector metadata;;
    logging INFO ("Successfully indexed document ID: " +:+ py_str str_repr doc_id);;
    print ("Successfully indexed document ID: " +:+ py_str str_repr doc_id).

(** [main] of [main.py] *)
Definition submission_main (srv : services) : io unit :=
  loaded ← attempt (load_submission SUBMISSION_FILE);
  match loaded with
  | Raise e =>
      logging ERROR ("Error loading submission: " +:+ exn_str e);;
      print ("Error loading submission: " +:+ exn_str e)
  | Ok submission =>
  match flatten_loaded submission with
  | Raise e =>
      logging ERROR ("Error flattening submission: " +:+ exn_str e);;
      print ("Error flattening submission: " +:+ exn_str e)
  | Ok text_summary =>
  logging INFO "Flattened Submission:";;
  logging INFO text_summary;;
  print "Flattened Submission:";;
  print text_summary;;
  print "----";;
  embedded ← attempt (embed_summary srv text_summary);
  match embedded with
  | Raise e =>
      logging ERROR ("Error generating embedding: " +:+ exn_str e);;
      print ("Error generating embedding: " +:+ exn_str e)
  | Ok embedding_vector =>
  try_except
    (index_submission srv submission text_summary embedding_vector)
    (fun e =>
       logging ERROR ("Error indexing document: " +:+ exn_str e);;
       print ("Error indexing document: " +:+ exn_str e))
  end end end.

End Runtime.

(** ** Stand-ins for the interpreter, used to run the examples *)

(** The theorems below hold for every [repr], [strip] and JSON reader
    and writer, but for the round trip of the conversation history,
    which is proved for the reader and the writer of this section.  The
    examples are run with the ones of this section: they follow Python
    on ASCII text, and on JSON without [\u] escapes above [007f] and
    without fractions or exponents; the writer leaves the bytes of
    text that is not ASCII as they are, as [ensure_ascii=False] does. *)

Definition is_space (c : ascii) : bool :=
  let n := nat_of_ascii c in
  (n =? 32)%nat || ((9 <=? n)%nat && (n <=? 13)%nat)
  || ((28 <=? n)%nat && (n <=? 31)%nat).

Fixpoint lstrip (cs : list ascii) : list ascii :=
  match cs with
  | c :: cs' => if is_space c then lstrip cs' else cs
  | [] => []
  end.

Definition ascii_strip (s : string) : string :=
  string_of_list_ascii (rev (lstrip (rev (lstrip (list_ascii_of_string s))))).

Definition plain_exn_text (e : exn) : string :=
  match e with
  | TypeError => "unsupported operand"
  | AttributeError => "object has no such attribute"
  | KeyError key => ascii_repr key
  | OSFileNotFound filename =>
      "[Errno 2] No such file or directory: " +:+ ascii_repr filename
  | FileNotFoundError msg | JSONDecodeError msg | ValueError msg
  | HTTPError msg | Exception msg | ServiceError msg => msg
  end.

(** The text of a [TypeError] depends on where it is raised; an example
    that prints one gives its text. *)
Definition exn_text_with (type_error : string) (e : exn) : string :=
  match e with
  | TypeError => type_error
  | _ => plain_exn_text e
  end.

(** Writing JSON as [json.dumps(v, ensure_ascii=False, indent=4)] does. *)
Definition hex_digit (n : nat) : ascii :=
  ascii_of_nat (if (n <? 10)%nat then 48 + n else 87 + n).

Definition json_char (c : ascii) : string :=
  let n := nat_of_ascii c in
  if (n =? 34)%nat then String "092" (str1 "034")
  else if (n =? 92)%nat then String "092" (str1 "092")
  else if (n =? 8)%nat then String "092" "b"
  else if (n =? 12)%nat then String "092" "f"
  else if (n =? 10)%nat then String "092" "n"
  else if (n =? 13)%nat then String "092" "r"
  else if (n =? 9)%nat then String "092" "t"
  else if (n <? 32)%nat then
    String "092" (String "u" (String "0" (String "0"
      (String (hex_digit (n / 16)) (str1 (hex_digit (n mod 16)))))))
  else str1 c.

Definition json_string (s : string) : string :=
  String "034"
    (String.concat EmptyString (map json_char (list_ascii_of_string s))
     +:+ str1 "034").

Fixpoint indent (depth : nat) : string :=
  match depth with
  | O => EmptyString
  | S d => "    " +:+ indent d
  end.

Fixpoint dumps_at (depth : nat) (v : pyval) : string :=
  match v with
  | PNone => "null"
  | PBool true => "true"
  | PBool false => "false"
  | PInt z => pretty z
  | PFloat r => r
  | PStr s => json_string s
  | PList [] => "[]"
  | PList l =>
      "[" +:+ nl +:+ indent (S depth)
      +:+ join ("," +:+ nl +:+ indent (S depth)) (map (dumps_at (S depth)) l)
      +:+ nl +:+ indent depth +:+ "]"
  | PDict [] => "{}"
  | PDict d =>
      "{" +:+ nl +:+ indent (S depth)
      +:+ join ("," +:+ nl +:+ indent (S depth))
            (map (fun kv : string * pyval => let (k, x) := kv in
                    json_string k +:+ ": " +:+ dumps_at (S depth) x) d)
      +:+ nl +:+ indent depth +:+ "}"
  end.

Definition plain_json_dumps (v : pyval) : string := dumps_at 0 v.

(** Reading JSON. *)
Definition is_json_space (c : ascii) : bool :=
  let n := nat_of_ascii c in
  (n =? 32)%nat || (n =? 9)%nat || (n =? 10)%nat || (n =? 13)%nat.

Fixpoint skip_space (cs : list ascii) : list ascii :=
  match cs with
  | c :: cs' => if is_json_space c then skip_space cs' else cs
  | [] => []
  end.

Definition hex_value (c : ascii) : option nat :=
  let n := nat_of_ascii c in
  if (48 <=? n)%nat && (n <=? 57)%nat then Some (n - 48)%nat
  else if (97 <=? n)%nat && (n <=? 102)%nat then Some (n - 87)%nat
  else if (65 <=? n)%nat && (n <=? 70)%nat then Some (n - 55)%nat
  else None.

Definition unescape (c : ascii) : option ascii :=
  let n := nat_of_ascii c in
  if (n =? 34)%nat || (n =? 92)%nat || (n =? 47)%nat then Some c
  else if (n =? 98)%nat then Some "008"%char
  else if (n =? 102)%nat then Some "012"%char
  else if (n =? 110)%nat then Some "010"%char
  else if (n =? 114)%nat then Some "013"%char
  else if (n =? 116)%nat then Some "009"%char
  else None.

(** The rest of a string literal after its opening quote: the text read
    (reversed in [acc]) and what follows the closing quote. *)
Fixpoint read_string (cs : list ascii) (acc : list ascii)
  : option (string * list ascii) :=
  match cs with
  | [] => None
  | c :: cs' =>
      if Ascii.eqb c "034" then Some (string_of_list_ascii (rev acc), cs')
      else if Ascii.eqb c "092" then
        match cs' with
        | e :: cs'' =>
            if Ascii.eqb e "u" then
              match cs'' with
              | a :: b :: h :: l :: rest =>
                  match hex_value a, hex_value b, hex_value h, hex_value l with
                  | Some 0%nat, Some 0%nat, Some x, Some y =>
                      if (x <? 8)%nat
                      then read_string rest (ascii_of_nat (16 * x + y) :: acc)
                      else None
                  | _, _, _, _ => None
                  end
              | _ => None
              end
            else
              match unescape e with
              | Some x => read_string cs'' (x :: acc)
              | None => None
              end
        | [] => None
        end
      else if (nat_of_ascii c <? 32)%nat then None
      else read_string cs' (c :: acc)
  end.

Definition is_digit (c : ascii) : bool :=
  let n := nat_of_ascii c in (48 <=? n)%nat && (n <=? 57)%nat.

Fixpoint read_digits (cs : list ascii) (acc : Z) : Z * list ascii :=
  match cs with
  | c :: cs' =>
      if is_digit c
      then read_digits cs' (10 * acc + Z.of_nat (nat_of_ascii c - 48))
      else (acc, cs)
  | [] => (acc, [])
  end.

Definition starts_digit (cs : list ascii) : bool :=
  match cs with
  | c :: _ => is_digit c
  | [] => false
  end.

Definition starts_fraction (cs : list ascii) : bool :=
  match cs with
  | c :: _ => Ascii.eqb c "." || Ascii.eqb c "e" || Ascii.eqb c "E"
  | [] => false
  end.

Definition read_number (negative : bool) (cs : list ascii)
  : option (pyval * list ascii) :=
  if starts_digit cs then
    let (n, rest) := read_digits cs 0 in
    if starts_fraction rest then None
    else Some (PInt (if negative then - n else n), rest)
  else None.

(** The dictionary of the pair [(k, v)] followed by the pairs of [d]: a
    later pair with the same key gives the value, the first one the
    place. *)
Definition dict_first (k : string) (v : pyval) (d : dict) : dict :=
  (k, dict_get d k v) :: List.filter (fun kv => negb (String.eqb (fst kv) k)) d.

Definition keyword (word : string) (cs : list ascii) : option (list ascii) :=
  let w := list_ascii_of_string word in
  if bool_decide (take (length w) cs = w) then Some (drop (length w) cs) else None.

Fixpoint read_value (fuel : nat) (cs : list ascii) : option (pyval * list ascii) :=
  match fuel with
  | O => None
  | S fuel' =>
      match skip_space cs with
      | [] => None
      | c :: rest =>
          if Ascii.eqb c "034" then
            match read_string rest [] with
            | Some (s, rest') => Some (PStr s, rest')
            | None => None
            end
          else if Ascii.eqb c "[" then
            match skip_space rest with
            | c' :: rest' =>
                if Ascii.eqb c' "]" then Some (PList [], rest')
                else match read_items fuel' rest with
                     | Some (l, rest'') => Some (PList l, rest'')
                     | None => None
                     end
            | [] => None
            end
          else if Ascii.eqb c "{" then
            match skip_space rest with
            | c' :: rest' =>
                if Ascii.eqb c' "}" then Some (PDict [], rest')
                else match read_members fuel' rest with
                     | Some (d, rest'') => Some (PDict d, rest'')
                     | None => None
                     end
            | [] => None
            end
          else if Ascii.eqb c "-" then read_number true rest
          else if is_digit c then read_number false (c :: rest)
          else
            match keyword "null" (c :: rest), keyword "true" (c :: rest),
                  keyword "false" (c :: rest) with
            | Some r, _, _ => Some (PNone, r)
            | _, Some r, _ => Some (PBool true, r)
            | _, _, Some r => Some (PBool false, r)
            | _, _, _ => None
            end
      end
  end
with read_items (fuel : nat) (cs : list ascii) : option (list pyval * list ascii) :=
  match fuel with
  | O => None
  | S fuel' =>
      match read_value fuel' cs with
      | Some (v, rest) =>
          match skip_space rest with
          | c :: rest' =>
              if Ascii.eqb c "]" then Some ([v], rest')
              else if Ascii.eqb c "," then
                match read_items fuel' rest' with
                | Some (l, rest'') => Some (v :: l, rest'')
                | None => None
                end
              else None
          | [] => None
          end
      | None => None
      end
  end
with read_members (fuel : nat) (cs : list ascii) : option (dict * list ascii) :=
  match fuel with
  | O => None
  | S fuel' =>
      match skip_space cs with
      | q :: rest =>
          if Ascii.eqb q "034" then
            match read_string rest [] with
            | Some (k, rest1) =>
                match skip_space rest1 with
                | colon :: rest2 =>
                    if Ascii.eqb colon ":" then
                      match read_value fuel' rest2 with
                      | Some (v, rest3) =>
                          match skip_space rest3 with
                          | c :: rest4 =>
                              if Ascii.eqb c "}" then Some ([(k, v)], rest4)
                              else if Ascii.eqb c "," then
                                match read_members fuel' rest4 with
                                | Some (d, rest5) => Some (dict_first k v d, rest5)
                                | None => None
                                end
                              else None
                          | [] => None
                          end
                      | None => None
                      end
                    else None
                | [] => None
                end
            | None => None
            end
          else None
      | [] => None
      end
  end.

Definition plain_json_loads (s : string) : result pyval :=
  let cs := list_ascii_of_string s in
  match read_value (2 * length cs + 2) cs with
  | Some (v, rest) =>
      match skip_space rest with
      | [] => Ok v
      | _ :: _ => Raise (JSONDecodeError "Extra data")
      end
  | None => Raise (JSONDecodeError "Expecting value")
  end.

(** The process of the examples: its environment, a query file, an
    index helper, and services that answer every call the same way. *)
Definition example_env : list (string * string) :=
  [ ("AZURE_OPENAI_ENDPOINT", "https://openai.example");
    ("AZURE_OPENAI_API_KEY", "key-1");
    ("ACS_ENDPOINT", "https://search.example");
    ("ACS_API_KEY", "key-2");
    ("CURRENT_USER_ID", "userXYZ") ].

Fixpoint assoc (l : list (string * string)) (name : string) : option string :=
  match l with
  | [] => None
  | (k, v) :: l' => if String.eqb k name then Some v else assoc l' name
  end.

Definition example_services (reply : response) (embedding chat : result pyval)
  : services :=
  Services (assoc example_env) (fun _ => Ok reply)
    (fun _ _ => embedding) (fun _ _ => chat).

Definition example_world : world :=
  World {[ "RAG/query.txt" := "What did Alice order?" +:+ nl ]} [] [].

Definition example_index : AzureSearchRESTHelper :=
  AzureHelper "https://search.example" "key-2" "knowledge-index" "2024-07-01"
    "index_definition.json" (PDict []).

(** A search reply with one document, and an embedding. *)
Definition one_document : response :=
  Response 200 "OK"
    (plain_json_dumps
       (PDict [("value",
          PList [PDict [("id", PStr "result123"); ("type", PStr "result");
                        ("content", PStr "Alice ordered markers.");
                        ("metadata", PStr EmptyString)]])])).

Definition example_embedding : pyval := PList [PFloat "0.25"; PFloat "-0.5"].

(** A submission file, and an environment that also names the index. *)
Definition example_fields : list pyval :=
  [ PDict [("fieldType", PStr "text"); ("fieldName", PStr "FirstName");
           ("value", PStr "Alice")];
    PDict [("fieldType", PStr "checkbox"); ("fieldName", PStr "NewsletterOpt");
           ("value", PBool true)] ].

Definition example_submission (doc_id : pyval) : dict :=
  [ ("_id", doc_id); ("user_id", PStr "userXYZ");
    ("folder_id", PStr "folderABC"); ("document_id", PStr "doc789");
    ("timestamp", PStr "2025-04-15T10:00:00Z");
    ("fieldValues", PList example_fields) ].

Definition example_summary (shown_id : string) : string :=
  join nl
    [ "Submission (Result ID: " +:+ shown_id +:+ ")";
      "For Document: doc789 in Folder: folderABC.";
      "Owned by user: userXYZ.";
      "Timestamp: 2025-04-15T10:00:00Z.";
      "Field Values:";
      "  FirstName: Alice";
      "  NewsletterOpt: Checked" ].

Definition submission_world (d : dict) : world :=
  World {[ "RAG/submission.json" := plain_json_dumps (PDict d) ]} [] [].

Definition indexing_services (reply : result response) (embedding : result pyval)
  : services :=
  Services (assoc (("ACS_INDEX_NAME", "knowledge-index") :: example_env))
    (fun _ => reply) (fun _ _ => embedding) (fun _ _ => Ok PNone).

Definition example_indexer : IndexingHelper :=
  IndexingHelperOf "https://search.example" "key-2" "knowledge-index"
    "2024-07-01".

(** ** Vocabulary of the statements *)

Definition is_str (v : pyval) : bool :=
  match v with PStr _ => true | _ => false end.

Definition is_dict (v : pyval) : bool :=
  match v with PDict _ => true | _ => false end.

(** The components [flatten_address_field] joins. *)
Definition address_parts (address_value : dict) : list pyval :=
  map (fun key => dict_get address_value key (PStr EmptyString))
      ["line1"; "line2"; "city"; "state"; "zip"].

(** The field records [flatten_field] flattens without raising: an
    address whose components are text or falsy, a table whose rows are
    dictionaries, and every record of another type or of another shape
    of value. *)
Definition flattens (field_data : dict) : bool :=
  let field_type := dict_get field_data "fieldType" PNone in
  let value := dict_get field_data "value" PNone in
  if eq_str field_type "address" then
    match value with
    | PDict d => forallb (fun p => negb (truthy p) || is_str p) (address_parts d)
    | _ => true
    end
  else if eq_str field_type "table" then
    match value with
    | PList rows => forallb is_dict rows
    | _ => true
    end
  else true.

(** The name [flatten_field] prints: the [fieldName] of the record, or
    [UnknownField] when the record has none. *)
Definition shown_name (str_repr : string -> string) (field_data : dict) : string :=
  py_str str_repr (dict_get field_data "fieldName" (PStr "UnknownField")).

(** [returns m w a w']: run from [w], [m] returns [a] and leaves [w']. *)
Definition returns {A : Type} (m : io A) (w : world) (a : A) (w' : world) : Prop :=
  m w = (Ok a, w').

(** [m] leaves [files] as it is: it writes no file but the log file. *)
Definition keeps_files {A : Type} (m : io A) : Prop :=
  forall w : world, files (snd (m w)) = files w.

(** The request [delete_index] sends, and the one [vector_search] sends. *)
Definition delete_request (self : AzureSearchRESTHelper) : http_request :=
  Request "DELETE" (index_url self) [("api-key", az_api_key self)] None.

Definition search_request (self : SearchHelper) (embedding : pyval) (top_k : Z)
    (user_id : option string) : http_request :=
  Request "POST"
    (sh_endpoint self +:+ "/indexes('" +:+ sh_index_name self
     +:+ "')/docs/search.post.search?api-version=" +:+ sh_api_version self)
    [("Content-Type", "application/json"); ("api-key", sh_api_key self)]
    (Some (PDict (search_body embedding top_k user_id))).

(** The line [kind] with text [msg] is in the log. *)
Definition logged (w : world) (kind : level) (msg : string) : Prop :=
  In (kind, msg) (log w).

Definition is_list (v : pyval) : bool :=
  match v with PList _ => true | _ => false end.

Definition nonempty (s : string) : bool := negb (String.eqb s EmptyString).

(** [m] returns from every state. *)
Definition never_raises {A : Type} (m : io A) : Prop :=
  forall w : world, is_ok (fst (m w)) = true.

(** The files that [logging.basicConfig] names in the sources.  The
    root logger of a process writes to the one named by the first
    [basicConfig] the process runs. *)
Definition LOG_FILES : list string :=
  [ "RAG/azure_search_rest_helper.log"; "RAG/search_helper.log";
    "RAG/main.log"; "RAG/user_query.log" ].

Definition is_log_file (path : string) : bool :=
  existsb (String.eqb path) LOG_FILES.

(** [same_data w w']: every file that is not a log file holds in [w']
    what it holds in [w]. *)
Definition same_data (w w' : world) : Prop :=
  forall path : string,
    is_log_file path = false -> files w' !! path = files w !! path.

(** [m] only adds records at the end of the log. *)
Definition grows {A : Type} (m : io A) : Prop :=
  forall w : world, exists records : list (level * string),
    log (snd (m w)) = (log w ++ records)%list.

(** [m] changes no file but the log file, to which it appends. *)
Definition only_logs {A : Type} (m : io A) : Prop :=
  forall w : world,
    same_data w (snd (m w))
    /\ exists records : list (level * string),
         log (snd (m w)) = (log w ++ records)%list.

(** [m] leaves every file but the conversation history and the log
    file as it was. *)
Definition keeps_other_files {A : Type} (m : io A) : Prop :=
  forall (w : world) (path : string),
    path <> CONVERSATION_HISTORY_FILE ->
    is_log_file path = false ->
    files (snd (m w)) !! path = files w !! path.

(** ["\n" in s] *)
Fixpoint has_newline (s : string) : bool :=
  match s with
  | EmptyString => false
  | String c s' => Ascii.eqb c "010" || has_newline s'
  end.

(** [text.split("\n")]: the lines of [text]. *)
Fixpoint lines_of (text : string) : list string :=
  match text with
  | EmptyString => [EmptyString]
  | String c rest =>
      if Ascii.eqb c "010" then EmptyString :: lines_of rest
      else match lines_of rest with
           | line :: lines => String c line :: lines
           | [] => [String c EmptyString]
           end
  end.

(** The conversation history made of the given pairs of role and
    content, in their order. *)
Definition history_of (msgs : list (string * string)) : pyval :=
  PList (map (fun m => message (fst m) (snd m)) msgs).

(** What the JSON writer puts between two items of the outer list. *)
Definition item_sep : string := "," +:+ nl +:+ indent 1.

(** The statuses for which [raise_for_status] raises. *)
Definition is_error_status (st : Z) : bool := (400 <=? st)%Z && (st <? 600)%Z.

(** The request [create_or_update_index] sends, and the one
    [index_document] sends. *)
Definition create_request (self : AzureSearchRESTHelper) : http_request :=
  Request "PUT" (index_url self)
    [("Content-Type", "application/json"); ("api-key", az_api_key self)]
    (Some (az_index_definition self)).

Definition index_request (self : IndexingHelper)
    (doc_id user_id folder_id document_id : pyval) (doc_type content_text : string)
    (embedding_vector : pyval) (metadata : string) : http_request :=
  Request "POST" (index_url_of self)
    [("Content-Type", "application/json"); ("api-key", ih_api_key self)]
    (Some (PDict
       [("value",
          PList [PDict [ ("@search.action", PStr "upload");
                         ("id", doc_id);
                         ("userId", user_id);
                         ("folderId", folder_id);
                         ("documentId", document_id);
                         ("type", PStr doc_type);
                         ("content", PStr content_text);
                         ("contentVector", embedding_vector);
                         ("metadata", PStr metadata) ]])])).

(** [srv] with another search service and another chat service. *)
Definition with_network (srv : services)
    (send : http_request -> result response)
    (chat : string -> list pyval -> result pyval) : services :=
  Services (getenv srv) send (embedding_create srv) chat.

(** The state after [main] of [main.py] has logged and printed the
    flattened text. *)
Definition announced (text_summary : string) (w : world) : world :=
  World (files w)
    (log w ++ [(INFO, "Flattened Submission:"); (INFO, text_summary)])
    (stdout w ++ ["Flattened Submission:"; text_summary; "----"]).

(** The four identifiers a submission needs to be indexed. *)
Definition has_identifiers (d : dict) : bool :=
  truthy (dict_get d "_id" PNone) && truthy (dict_get d "user_id" PNone)
  && truthy (dict_get d "folder_id" PNone)
  && truthy (dict_get d "document_id" PNone).

(** ** Text and dictionaries *)

Lemma append_nil (b : string) : EmptyString +:+ b = b.
Proof. reflexivity. Qed.

Lemma append_cons (x : ascii) (a b : string) :
  String x a +:+ b = String x (a +:+ b).
Proof. reflexivity. Qed.

Ltac text_step := rewrite ?append_nil, ?append_cons; simpl.

Lemma append_assoc (a b c : string) : (a +:+ b) +:+ c = a +:+ (b +:+ c).
Proof. induction a as [|x a IH]; text_step; [reflexivity | now rewrite IH]. Qed.

Lemma length_append (a b : string) :
  String.length (a +:+ b) = (String.length a + String.length b)%nat.
Proof. induction a as [|x a IH]; text_step; [reflexivity | now rewrite IH]. Qed.

Lemma eqb_length_neq (a b : string) :
  String.length a <> String.length b -> String.eqb a b = false.
Proof. intros H. apply String.eqb_neq. intros ->. now apply H. Qed.

Lemma prefix_append (a b : string) : String.prefix a (a +:+ b) = true.
Proof.
  induction a as [|x a IH]; text_step.
  - now destruct b.
  - destruct (ascii_dec x x); [exact IH | congruence].
Qed.

Lemma str_contains_prefix (n hay : string) :
  String.prefix n hay = true -> str_contains n hay = true.
Proof. intros H. destruct hay; cbn [str_contains]; rewrite H; reflexivity. Qed.

Lemma str_contains_append (n a b : string) :
  str_contains n (a +:+ n +:+ b) = true.
Proof.
  induction a as [|x a IH]; text_step.
  - apply str_contains_prefix, prefix_append.
  - rewrite IH. apply orb_true_r.
Qed.

Lemma endswith_short (s suffix : string) :
  (String.length s < String.length suffix)%nat -> endswith s suffix = false.
Proof.
  induction s as [|x s IH]; cbn [endswith String.length]; intros H.
  - rewrite eqb_length_neq; [reflexivity | cbn [String.length]; lia].
  - rewrite eqb_length_neq by (cbn [String.length]; lia).
    apply IH. lia.
Qed.

(** Whether [a +:+ x] ends with a suffix as long as [x] is decided by
    [x] alone. *)
Lemma endswith_append (a x suffix : string) :
  String.length x = String.length suffix ->
  endswith (a +:+ x) suffix = String.eqb x suffix.
Proof.
  intros Hlen. induction a as [|c a IH]; rewrite ?append_nil, ?append_cons.
  - destruct x as [|c x]; cbn [endswith].
    + apply orb_false_r.
    + rewrite endswith_short by (cbn [String.length] in Hlen; lia).
      apply orb_false_r.
  - cbn [endswith]. rewrite IH, eqb_length_neq; [reflexivity|].
    cbn [String.length]. rewrite length_append. lia.
Qed.

Lemma dict_get_set (d : dict) (k k' : string) (v default : pyval) :
  dict_get (dict_set d k v) k' default
  = if String.eqb k k' then v else dict_get d k' default.
Proof.
  induction d as [|[k0 v0] d IH]; simpl.
  - reflexivity.
  - destruct (String.eqb_spec k0 k) as [->|Hk]; simpl.
    + destruct (String.eqb k k'); reflexivity.
    + rewrite IH. destruct (String.eqb_spec k0 k') as [->|Hk']; [|reflexivity].
      destruct (String.eqb_spec k k') as [->|_]; [congruence | reflexivity].
Qed.

Lemma eq_str_true (v : pyval) (s : string) : eq_str v s = true -> v = PStr s.
Proof.
  destruct v; simpl; try discriminate.
  intros H. apply String.eqb_eq in H. now subst.
Qed.

(** [for_each] returns exactly when every element does, with the
    results in the order of the elements. *)
Lemma for_each_Forall2 {A B : Type} (f : A -> result B) (l : list A) (bs : list B) :
  for_each f l = Ok bs <-> Forall2 (fun a b => f a = Ok b) l bs.
Proof.
  revert bs. induction l as [|a l IH]; intros bs; simpl.
  - split.
    + intros [= <-]. constructor.
    + intros H. inversion H. reflexivity.
  - split.
    + destruct (f a) as [b|e] eqn:Ea; simpl; [|discriminate].
      destruct (for_each f l) as [bs'|e] eqn:El; simpl; [|discriminate].
      intros [= <-]. constructor; [exact Ea | now apply IH].
    + intros H. inversion H as [|a' b l' bs' Hab Hrest]; subst.
      rewrite Hab. simpl. apply IH in Hrest. rewrite Hrest. reflexivity.
Qed.

Lemma for_each_raises {A B : Type} (f : A -> result B) (l : list A) (e : exn) :
  for_each f l = Raise e -> exists a, In a l /\ f a = Raise e.
Proof.
  induction l as [|a l IH]; simpl; [discriminate|].
  destruct (f a) as [b|e'] eqn:Ea; simpl.
  - destruct (for_each f l) as [bs|e'] eqn:El; simpl; [discriminate|].
    intros [= <-]. destruct IH as [a' [Hin Ha']]; [reflexivity|]. eauto.
  - intros [= <-]. eauto.
Qed.

(** ** Properties of [flatten_helper.py] *)

(** *** Lines of text *)

Lemma append_nil_r (a : string) : a +:+ EmptyString = a.
Proof. induction a as [|c a IH]; [reflexivity|]. now rewrite append_cons, IH. Qed.

Lemma has_newline_append (a b : string) :
  has_newline (a +:+ b) = has_newline a || has_newline b.
Proof.
  induction a as [|c a IH]; [reflexivity|].
  rewrite append_cons. cbn [has_newline]. now rewrite IH, orb_assoc.
Qed.

(** Text without a newline in front of [b] goes in front of the first
    line of [b]. *)
Lemma lines_of_append (a b : string) :
  has_newline a = false ->
  lines_of (a +:+ b)
  = match lines_of b with
    | line :: lines => (a +:+ line) :: lines
    | [] => [a]
    end.
Proof.
  induction a as [|c a IH]; intros Ha.
  - rewrite append_nil. destruct b as [|c b]; [reflexivity|].
    cbn [lines_of]. destruct (Ascii.eqb c "010"); [reflexivity|].
    destruct (lines_of b); reflexivity.
  - cbn [has_newline] in Ha. apply orb_false_iff in Ha as [Hc Ha].
    rewrite append_cons. cbn [lines_of]. rewrite Hc, (IH Ha).
    destruct (lines_of b); reflexivity.
Qed.

Lemma lines_of_plain (a : string) : has_newline a = false -> lines_of a = [a].
Proof.
  intros Ha. induction a as [|c a IH]; [reflexivity|].
  cbn [has_newline] in Ha. apply orb_false_iff in Ha as [Hc Ha].
  cbn [lines_of]. rewrite Hc, (IH Ha). reflexivity.
Qed.

(** Lines without newlines, joined by newlines, are the lines of the
    text. *)
Lemma lines_of_join (l : list string) :
  l <> [] -> Forall (fun s => has_newline s = false) l ->
  lines_of (join nl l) = l.
Proof.
  intros Hne Hall. induction Hall as [|a l Ha Hall IH]; [contradiction|].
  destruct l as [|b l].
  - cbn. now apply lines_of_plain.
  - change (join nl (a :: b :: l)) with (a +:+ nl +:+ join nl (b :: l)).
    rewrite (lines_of_append a _ Ha).
    change (nl +:+ join nl (b :: l)) with (String "010" (join nl (b :: l))).
    cbn [lines_of Ascii.eqb Bool.eqb]. rewrite IH by discriminate.
    now rewrite append_nil_r.
Qed.

(** The decimal text of a number has no newline. *)
Lemma pretty_N_char_digit (x : N) : Ascii.eqb (pretty_N_char x) "010" = false.
Proof. unfold pretty_N_char. repeat case_match; reflexivity. Qed.

Lemma has_newline_pretty_N_go (x : N) (s : string) :
  has_newline (pretty_N_go x s) = has_newline s.
Proof.
  revert s. induction (N.lt_wf_0 x) as [x _ IH]. intros s.
  destruct (decide (0 < x)%N) as [Hx|Hx].
  - rewrite pretty_N_go_step by done.
    rewrite IH by (apply N.div_lt; [done | reflexivity]).
    cbn [has_newline]. now rewrite pretty_N_char_digit.
  - assert (x = 0%N) as -> by lia. reflexivity.
Qed.

Lemma has_newline_pretty (z : Z) : has_newline (pretty z) = false.
Proof.
  assert (Hpos : forall p : positive, has_newline (pretty p) = false).
  { intros p. unfold pretty, pretty_positive, pretty, pretty_N.
    destruct (decide (N.pos p = 0%N)); [reflexivity|].
    apply has_newline_pretty_N_go. }
  destruct z as [|p|p]; [reflexivity | apply Hpos|].
  unfold pretty, pretty_Z. rewrite has_newline_append. cbn [has_newline orb].
  apply Hpos.
Qed.

Section FlattenProperties.

Variable str_repr : string -> string.

Lemma is_ok_bind {A B : Type} (r : result A) (k : A -> B) :
  is_ok (a ← r; Ok (k a)) = is_ok r.
Proof. destruct r; reflexivity. Qed.

Lemma join_values_go_ok (l : list pyval) :
  is_ok (join_values_go (List.filter truthy l))
  = forallb (fun p => negb (truthy p) || is_str p) l.
Proof.
  induction l as [|p l IH]; [reflexivity|].
  cbn [List.filter forallb].
  destruct (truthy p) eqn:Hp; cbn [negb orb].
  - destruct p; cbn [join_values_go is_str andb]; try reflexivity.
    rewrite is_ok_bind. exact IH.
  - exact IH.
Qed.

Lemma flatten_address_field_ok (field_name : pyval) (a : dict) :
  is_ok (flatten_address_field str_repr field_name a)
  = forallb (fun p => negb (truthy p) || is_str p) (address_parts a).
Proof.
  unfold flatten_address_field, join_values.
  rewrite is_ok_bind, is_ok_bind. apply join_values_go_ok.
Qed.

Lemma table_rows_ok (rows : list pyval) (i : Z) (lines : list string) :
  is_ok (table_rows str_repr i rows lines) = forallb is_dict rows.
Proof.
  revert i lines. induction rows as [|row rows IH]; intros i lines.
  - reflexivity.
  - destruct row; cbn [table_rows forallb is_dict andb]; try reflexivity.
    apply IH.
Qed.

Lemma flatten_table_field_ok (field_name : pyval) (rows : list pyval) :
  is_ok (flatten_table_field str_repr field_name rows) = forallb is_dict rows.
Proof.
  unfold flatten_table_field. rewrite is_ok_bind. apply table_rows_ok.
Qed.

(** The lines of a table whose rows are all dictionaries. *)
Lemma table_rows_dicts (rows : list dict) (i : Z) (lines : list string) :
  table_rows str_repr i (map PDict rows) lines
  = Ok (lines ++
        imap (fun j row => "  Row" +:+ pretty (i + Z.of_nat j) +:+ ": ["
                           +:+ row_content str_repr row +:+ "]") rows)%list.
Proof.
  revert i lines. induction rows as [|row rows IH]; intros i lines.
  - cbn [map table_rows imap]. now rewrite app_nil_r.
  - cbn [map table_rows imap]. rewrite IH, <- app_assoc. cbn [app].
    rewrite Z.add_0_r. do 3 f_equal.
    apply imap_ext. intros j r _. cbn. do 3 f_equal. lia.
Qed.

(** How [flatten_field] dispatches on a record of a given type. *)
Lemma flatten_field_password (d : dict) :
  dict_get d "fieldType" PNone = PStr "password" ->
  flatten_field str_repr d = Ok (shown_name str_repr d +:+ ": [REDACTED]").
Proof. intros H. unfold flatten_field. rewrite H. reflexivity. Qed.

Lemma flatten_field_checkbox (d : dict) :
  dict_get d "fieldType" PNone = PStr "checkbox" ->
  flatten_field str_repr d
  = Ok (shown_name str_repr d +:+ ": "
        +:+ (if truthy (dict_get d "value" PNone) then "Checked" else "Unchecked")).
Proof. intros H. unfold flatten_field. rewrite H. reflexivity. Qed.

(** C1 (as amended).  A record of type [password] flattens to its name
    followed by [: [REDACTED]]; the output is the same for any two
    password records with the same name, so replacing the value of the
    record leaves it unchanged: the value is never read. *)
Theorem flatten_password_redacted (d : dict) :
  eq_str (dict_get d "fieldType" PNone) "password" = true ->
  flatten_field str_repr d = Ok (shown_name str_repr d +:+ ": [REDACTED]")
  /\ (forall d' : dict,
        eq_str (dict_get d' "fieldType" PNone) "password" = true ->
        dict_get d' "fieldName" (PStr "UnknownField")
        = dict_get d "fieldName" (PStr "UnknownField") ->
        flatten_field str_repr d' = flatten_field str_repr d)
  /\ (forall v : pyval,
        flatten_field str_repr (dict_set d "value" v) = flatten_field str_repr d).
Proof.
  intros H. apply eq_str_true in H.
  split; [now apply flatten_field_password|]. split.
  - intros d' H' Hname. apply eq_str_true in H'.
    rewrite !flatten_field_password by assumption.
    unfold shown_name. now rewrite Hname.
  - intros v. rewrite !flatten_field_password;
      rewrite ?dict_get_set; try assumption; try reflexivity.
    unfold shown_name. rewrite dict_get_set. reflexivity.
Qed.

(** X24.  [flatten_field] returns a string exactly on the records
    [flattens] accepts: it raises only for an address whose dictionary
    has a truthy component that is not text, and for a table whose list
    has a row that is not a dictionary. *)
Theorem flatten_field_returns_iff (d : dict) :
  is_ok (flatten_field str_repr d) = flattens d.
Proof.
  unfold flatten_field, flattens.
  destruct (dict_get d "fieldType" PNone) as [| | | |s| |]; try reflexivity.
  cbn [eq_str].
  repeat match goal with
  | |- context [String.eqb s ?lit] =>
      destruct (String.eqb_spec s lit) as [->|?]; [try reflexivity|]
  end; try reflexivity.
  - destruct (dict_get d "value" PNone); try reflexivity.
    apply flatten_address_field_ok.
  - destruct (dict_get d "value" PNone); try reflexivity.
    apply flatten_table_field_ok.
  - destruct (dict_get d "value" PNone); reflexivity.
  - destruct (dict_get d "value" PNone); reflexivity.
Qed.

(** C3.  A record of type [checkbox] flattens to its name followed by
    [: Checked] when its value is truthy and by [: Unchecked] otherwise;
    the output ends with [Checked] exactly in the first case and with
    [Unchecked] exactly in the second. *)
Theorem flatten_checkbox_status (d : dict) :
  eq_str (dict_get d "fieldType" PNone) "checkbox" = true ->
  exists out : string,
    flatten_field str_repr d = Ok out
    /\ out = shown_name str_repr d +:+ ": "
             +:+ (if truthy (dict_get d "value" PNone)
                  then "Checked" else "Unchecked")
    /\ endswith out "Checked" = truthy (dict_get d "value" PNone)
    /\ endswith out "Unchecked" = negb (truthy (dict_get d "value" PNone)).
Proof.
  intros H. apply eq_str_true in H.
  eexists. split; [now apply flatten_field_checkbox|].
  split; [reflexivity|].
  destruct (truthy (dict_get d "value" PNone)); split.
  - rewrite <- append_assoc. now rewrite endswith_append.
  - change (": " +:+ "Checked") with (": Checked").
    now rewrite endswith_append.
  - change (": " +:+ "Unchecked") with (": Un" +:+ "checked").
    rewrite <- append_assoc. now rewrite endswith_append.
  - rewrite <- append_assoc. now rewrite endswith_append.
Qed.

(** C4 (as amended).  For a field name and a list of rows that are
    dictionaries, [flatten_table_field] returns the header [name:] and
    then, for the row at position [i] counted from 0, the text of
    [Row(i+1)] with the [key=value] pairs of that row joined by a comma
    and a space, all joined by newlines.  When neither the name nor the
    text of a row holds a newline, the lines of the returned text are
    these: one header line and [len(rows)] row lines behind two spaces,
    in the order of the rows. *)
Theorem flatten_table_field_lines (field_name : pyval) (rows : list dict) :
  let header := py_str str_repr field_name +:+ ":" in
  let row_line (i : nat) (row : dict) :=
    "  Row" +:+ pretty (Z.of_nat (S i)) +:+ ": ["
    +:+ join ", " (map (fun kv => fst kv +:+ "=" +:+ py_str str_repr (snd kv)) row)
    +:+ "]" in
  exists out : string,
    flatten_table_field str_repr field_name (map PDict rows) = Ok out
    /\ out = join nl (header :: imap row_line rows)
    /\ (has_newline (py_str str_repr field_name) = false ->
        Forall (fun row => has_newline (row_content str_repr row) = false) rows ->
        lines_of out = header :: imap row_line rows
        /\ length (lines_of out) = S (length rows)
        /\ (forall (i : nat) (row : dict),
              rows !! i = Some row -> lines_of out !! S i = Some (row_line i row))).
Proof.
  intros header row_line.
  assert (Hout : flatten_table_field str_repr field_name (map PDict rows)
                 = Ok (join nl (header :: imap row_line rows))).
  { unfold flatten_table_field. rewrite table_rows_dicts.
    cbn [mbind result_bind app]. do 3 f_equal.
    apply imap_ext. intros j r _. unfold row_line, row_content.
    do 3 f_equal. lia. }
  eexists. split; [exact Hout|]. split; [reflexivity|].
  intros Hname Hrows.
  assert (Hlines : lines_of (join nl (header :: imap row_line rows))
                   = header :: imap row_line rows).
  { apply lines_of_join; [discriminate|]. constructor.
    - unfold header. rewrite has_newline_append, Hname. reflexivity.
    - apply Forall_lookup. intros i line Hi.
      rewrite list_lookup_imap in Hi.
      destruct (rows !! i) as [row|] eqn:Hrow; [|discriminate].
      injection Hi as <-.
      assert (Hrow' : has_newline (row_content str_repr row) = false).
      { exact (proj1 (Forall_lookup _ _) Hrows i row Hrow). }
      unfold row_line. fold (row_content str_repr row).
      rewrite !has_newline_append, has_newline_pretty, Hrow'. reflexivity. }
  rewrite Hlines. split; [reflexivity|]. split.
  - cbn [length]. now rewrite length_imap.
  - intros i row Hi.
    change (imap row_line rows !! i = Some (row_line i row)).
    now rewrite list_lookup_imap, Hi.
Qed.

(** X25.  For a submission whose [fieldValues] is the list [entries]:
    when every entry flattens, [flatten_submission] returns the four
    header lines (result id; document and folder id; owner; timestamp),
    then [Field Values:], then the flattened text of each entry behind
    two spaces, in the order of the entries, all joined by newlines;
    when an entry raises, so does [flatten_submission]. *)
Theorem flatten_submission_layout (doc : dict) (entries : list pyval) :
  dict_get doc "fieldValues" (PList []) = PList entries ->
  (forall texts : list string,
     Forall2 (fun entry t => flatten_entry str_repr entry = Ok t) entries texts ->
     flatten_submission str_repr doc
     = Ok (join nl
             ([ "Submission (Result ID: "
                  +:+ py_str str_repr (dict_get doc "_id" (PStr EmptyString)) +:+ ")";
                "For Document: "
                  +:+ py_str str_repr (dict_get doc "document_id" (PStr EmptyString))
                  +:+ " in Folder: "
                  +:+ py_str str_repr (dict_get doc "folder_id" (PStr EmptyString))
                  +:+ ".";
                "Owned by user: "
                  +:+ py_str str_repr (dict_get doc "user_id" (PStr EmptyString))
                  +:+ ".";
                "Timestamp: "
                  +:+ py_str str_repr (dict_get doc "timestamp" (PStr EmptyString))
                  +:+ ".";
                "Field Values:" ]
              ++ map (fun t => "  " +:+ t) texts)%list))
  /\ (forall e : exn,
        for_each (flatten_entry str_repr) entries = Raise e ->
        flatten_submission str_repr doc = Raise e).
Proof.
  intros Hfields. split.
  - intros texts Hall. apply for_each_Forall2 in Hall.
    unfold flatten_submission. rewrite Hfields. cbn [py_iter mbind result_bind].
    rewrite Hall. reflexivity.
  - intros e He. unfold flatten_submission. rewrite Hfields.
    cbn [py_iter mbind result_bind]. rewrite He. reflexivity.
Qed.

End FlattenProperties.

(** The flattening theorems at concrete records. *)

Lemma flatten_password_redacted_witness :
  let d := [("fieldType", PStr "password"); ("fieldName", PStr "Pin");
            ("value", PStr "1234")] in
  eq_str (dict_get d "fieldType" PNone) "password" = true
  /\ flatten_field ascii_repr d = Ok "Pin: [REDACTED]"
  /\ flatten_field ascii_repr (dict_set d "value" (PStr "9999"))
     = flatten_field ascii_repr d.
Proof.
  intros d.
  pose proof (flatten_password_redacted ascii_repr d eq_refl) as [Hout [_ Hsame]].
  split; [reflexivity|]. split; [exact Hout | exact (Hsame (PStr "9999"))].
Defined.

(** A password whose text is part of the fixed output occurs in it. *)
Lemma password_value_occurs_in_output :
  let d := [("fieldType", PStr "password"); ("fieldName", PStr "Password");
            ("value", PStr "REDACTED")] in
  eq_str (dict_get d "fieldType" PNone) "password" = true
  /\ flatten_field ascii_repr d = Ok "Password: [REDACTED]"
  /\ str_contains (py_str ascii_repr (dict_get d "value" PNone))
                  "Password: [REDACTED]" = true.
Proof. intros d. repeat split. Qed.

(** C2.  The failing input: an address whose zip code is the number
    12345.  [flatten_field] raises the [TypeError] of [", ".join] on it
    and returns no line, whereas the zip code 0 is left out without an
    error and a location prints its numbers.  A table with a row that
    is not a dictionary raises as well. *)
Lemma flatten_field_raises_on_malformed :
  flatten_field ascii_repr
    [("fieldType", PStr "address"); ("fieldName", PStr "Home");
     ("value", PDict [("city", PStr "Springfield"); ("zip", PInt 12345)])]
  = Raise TypeError
  /\ flatten_field ascii_repr
       [("fieldType", PStr "address"); ("fieldName", PStr "Home");
        ("value", PDict [("city", PStr "Springfield"); ("zip", PInt 0)])]
     = Ok "Home: Springfield"
  /\ flatten_field ascii_repr
       [("fieldType", PStr "location"); ("fieldName", PStr "Site");
        ("value", PDict [("lat", PInt 35); ("lon", PInt 12345)])]
     = Ok "Site: (Lat=35, Lon=12345)"
  /\ flatten_field ascii_repr
       [("fieldType", PStr "table"); ("fieldName", PStr "Items");
        ("value", PList [PStr "Paper Clips"])]
     = Raise AttributeError.
Proof. repeat split; reflexivity. Qed.

Lemma flatten_checkbox_status_witness :
  let d := [("fieldType", PStr "checkbox"); ("fieldName", PStr "NewsletterOpt");
            ("value", PBool true)] in
  eq_str (dict_get d "fieldType" PNone) "checkbox" = true
  /\ exists out : string,
       flatten_field ascii_repr d = Ok out
       /\ out = "NewsletterOpt: Checked"
       /\ endswith out "Checked" = true
       /\ endswith out "Unchecked" = false.
Proof.
  intros d. split; [reflexivity|].
  exact (flatten_checkbox_status ascii_repr d eq_refl).
Defined.

Lemma flatten_table_field_lines_witness :
  let rows := [[("item", PStr "Markers"); ("qty", PInt 3)];
               [("item", PStr "Paper"); ("qty", PInt 10)]] in
  exists out : string,
    flatten_table_field ascii_repr (PStr "Items") (map PDict rows) = Ok out
    /\ lines_of out = ["Items:"; "  Row1: [item=Markers, qty=3]";
                       "  Row2: [item=Paper, qty=10]"]
    /\ length (lines_of out) = 3%nat.
Proof.
  intros rows.
  destruct (flatten_table_field_lines ascii_repr (PStr "Items") rows)
    as (out & Hout & _ & Hlines).
  exists out. split; [exact Hout|].
  destruct Hlines as (Hl & Hn & _).
  - reflexivity.
  - repeat constructor.
  - split; [exact Hl | exact Hn].
Defined.

(** A cell that holds a newline: the text of one row has three lines,
    and the last one is neither a row line nor behind two spaces. *)
Lemma flatten_table_field_cell_with_newline :
  let rows := [PDict [("note", PStr ("first" +:+ nl +:+ "second"))]] in
  exists out : string,
    flatten_table_field ascii_repr (PStr "Items") rows = Ok out
    /\ lines_of out = ["Items:"; "  Row1: [note=first"; "second]"]
    /\ length (lines_of out) <> S (length rows).
Proof.
  intros rows. eexists. split; [reflexivity|]. split; [reflexivity|].
  vm_compute. discriminate.
Qed.

(** C5.  The failing input: a submission with such an address among
    its fields.  [flatten_submission] raises the [TypeError] of the
    address and returns no text block. *)
Lemma flatten_submission_raises_on_malformed :
  flatten_submission ascii_repr
    [("_id", PStr "result123"); ("user_id", PStr "userXYZ");
     ("folder_id", PStr "folderABC"); ("document_id", PStr "doc789");
     ("timestamp", PStr "2025-04-15T10:00:00Z");
     ("fieldValues",
       PList [PDict [("fieldType", PStr "address"); ("fieldName", PStr "Home");
                     ("value", PDict [("zip", PInt 12345)])]])]
  = Raise TypeError.
Proof. reflexivity. Qed.

Lemma flatten_submission_layout_witness :
  let entries :=
    [PDict [("fieldType", PStr "text"); ("fieldName", PStr "FirstName");
            ("value", PStr "Alice")];
     PDict [("fieldType", PStr "checkbox"); ("fieldName", PStr "NewsletterOpt");
            ("value", PBool true)]] in
  let doc :=
    [("_id", PStr "result123"); ("user_id", PStr "userXYZ");
     ("folder_id", PStr "folderABC"); ("document_id", PStr "doc789");
     ("timestamp", PStr "2025-04-15T10:00:00Z");
     ("fieldValues", PList entries)] in
  dict_get doc "fieldValues" (PList []) = PList entries
  /\ Forall2 (fun entry t => flatten_entry ascii_repr entry = Ok t) entries
       ["FirstName: Alice"; "NewsletterOpt: Checked"]
  /\ flatten_submission ascii_repr doc
     = Ok (join nl
             [ "Submission (Result ID: result123)";
               "For Document: doc789 in Folder: folderABC.";
               "Owned by user: userXYZ.";
               "Timestamp: 2025-04-15T10:00:00Z.";
               "Field Values:";
               "  FirstName: Alice";
               "  NewsletterOpt: Checked" ]).
Proof.
  intros entries doc.
  assert (Hall : Forall2 (fun entry t => flatten_entry ascii_repr entry = Ok t)
                   entries ["FirstName: Alice"; "NewsletterOpt: Checked"])
    by (repeat constructor).
  split; [reflexivity|]. split; [exact Hall|].
  exact (proj1 (flatten_submission_layout ascii_repr doc entries eq_refl) _ Hall).
Defined.

(** ** Properties of the index, search and query helpers *)

(** Running a sequence: the first step, then the rest on its result. *)
Lemma run_bind {A B : Type} (m : io A) (k : A -> io B) (w : world) :
  (m ≫= k) w
  = match m w with
    | (Ok a, w') => k a w'
    | (Raise e, w') => (Raise e, w')
    end.
Proof. reflexivity. Qed.

Lemma run_logging (l : level) (msg : string) (w : world) :
  logging l msg w = (Ok tt, World (files w) (log w ++ [(l, msg)]) (stdout w)).
Proof. reflexivity. Qed.

Lemma run_print (msg : string) (w : world) :
  print msg w = (Ok tt, World (files w) (log w) (stdout w ++ [msg])).
Proof. reflexivity. Qed.

Section RuntimeProperties.

Variable str_repr : string -> string.
Variable exn_text : exn -> string.
Variable json_loads : string -> result pyval.
Variable json_dumps : pyval -> string.
Variable str_strip : string -> string.

(** *** [delete_index] *)

Lemma delete_index_deleted (srv : services) (self : AzureSearchRESTHelper)
    (resp : response) (w : world) :
  http_send srv (delete_request self) = Ok resp ->
  status_code resp = 204 ->
  delete_index str_repr json_loads srv self w
  = (Ok tt,
     World (files w)
       (log w ++ [(INFO, "Index '" +:+ az_index_name self
                         +:+ "' deleted successfully.")])
       (stdout w ++ ["Index '" +:+ az_index_name self
                     +:+ "' deleted successfully."])).
Proof.
  intros Hsend Hst. unfold delete_index. fold (delete_request self).
  rewrite Hsend, run_bind. unfold lift. rewrite Hst. reflexivity.
Qed.

Lemma delete_index_absent (srv : services) (self : AzureSearchRESTHelper)
    (resp : response) (w : world) :
  http_send srv (delete_request self) = Ok resp ->
  status_code resp = 404 ->
  delete_index str_repr json_loads srv self w
  = (Ok tt,
     World (files w)
       (log w ++ [(WARNING, "Index '" +:+ az_index_name self
                            +:+ "' does not exist.")])
       (stdout w ++ ["Index '" +:+ az_index_name self +:+ "' does not exist."])).
Proof.
  intros Hsend Hst. unfold delete_index. fold (delete_request self).
  rewrite Hsend, run_bind. unfold lift. rewrite Hst. reflexivity.
Qed.

(** Every other status makes [delete_index] raise; when the error
    message can be taken from the response, the exception and the log
    carry it. *)
Lemma delete_index_other_status (srv : services) (self : AzureSearchRESTHelper)
    (resp : response) (w : world) :
  http_send srv (delete_request self) = Ok resp ->
  status_code resp <> 204 -> status_code resp <> 404 ->
  is_ok (fst (delete_index str_repr json_loads srv self w)) = false
  /\ forall m : pyval,
       error_message_of json_loads resp (text resp) = Ok m ->
       let msg := "Failed to delete index '" +:+ az_index_name self +:+ "': "
                  +:+ py_str str_repr m in
       delete_index str_repr json_loads srv self w
       = (Raise (Exception msg),
          World (files w) (log w ++ [(ERROR, msg)]) (stdout w)).
Proof.
  intros Hsend H204 H404. unfold delete_index. fold (delete_request self).
  rewrite Hsend, run_bind. unfold lift.
  destruct (Z.eqb_spec (status_code resp) 204) as [|_]; [contradiction|].
  destruct (Z.eqb_spec (status_code resp) 404) as [|_]; [contradiction|].
  rewrite run_bind. split.
  - destruct (error_message_of json_loads resp (text resp)); reflexivity.
  - intros m ->. reflexivity.
Qed.

(** Where the error message comes from. *)
Lemma error_message_of_not_json (resp : response) (fallback detail : string) :
  json_loads (text resp) = Raise (JSONDecodeError detail) ->
  error_message_of json_loads resp fallback = Ok (PStr fallback).
Proof. intros H. unfold error_message_of. now rewrite H. Qed.

Lemma error_message_of_object (resp : response) (fallback : string)
    (body err : dict) :
  json_loads (text resp) = Ok (PDict body) ->
  dict_get body "error" (PDict []) = PDict err ->
  error_message_of json_loads resp fallback
  = Ok (dict_get err "message" (PStr fallback)).
Proof.
  intros H He. unfold error_message_of. rewrite H. cbn. now rewrite He.
Qed.

Lemma error_message_of_not_object (resp : response) (fallback : string)
    (body : dict) (err : pyval) :
  json_loads (text resp) = Ok (PDict body) ->
  dict_get body "error" (PDict []) = err ->
  is_dict err = false ->
  error_message_of json_loads resp fallback = Raise AttributeError.
Proof.
  intros H He Hd. unfold error_message_of. rewrite H. cbn. rewrite He.
  destruct err; try reflexivity. discriminate.
Qed.

(** X26.  [delete_index] returns on status 204, and on status 404
    after logging a warning; on every other status it raises.  The
    exception then carries the message of the server when the body is
    not JSON (the message is the body text) and when the body is a JSON
    object whose [error] is absent or an object (the message is its
    [message], or the body text). *)
Theorem delete_index_by_status (srv : services) (self : AzureSearchRESTHelper)
    (resp : response) (w : world) :
  http_send srv (delete_request self) = Ok resp ->
  let failed (m : pyval) : result unit * world :=
    let msg := "Failed to delete index '" +:+ az_index_name self +:+ "': "
               +:+ py_str str_repr m in
    (Raise (Exception msg), World (files w) (log w ++ [(ERROR, msg)]) (stdout w)) in
  (status_code resp = 204 ->
   fst (delete_index str_repr json_loads srv self w) = Ok tt)
  /\ (status_code resp = 404 ->
      fst (delete_index str_repr json_loads srv self w) = Ok tt
      /\ log (snd (delete_index str_repr json_loads srv self w))
         = (log w ++ [(WARNING, "Index '" +:+ az_index_name self
                                +:+ "' does not exist.")])%list)
  /\ (status_code resp <> 204 -> status_code resp <> 404 ->
      is_ok (fst (delete_index str_repr json_loads srv self w)) = false
      /\ (forall detail : string,
            json_loads (text resp) = Raise (JSONDecodeError detail) ->
            delete_index str_repr json_loads srv self w
            = failed (PStr (text resp)))
      /\ (forall body err : dict,
            json_loads (text resp) = Ok (PDict body) ->
            dict_get body "error" (PDict []) = PDict err ->
            delete_index str_repr json_loads srv self w
            = failed (dict_get err "message" (PStr (text resp))))).
Proof.
  intros Hsend failed. split; [|split].
  - intros Hst. now rewrite (delete_index_deleted srv self resp w Hsend Hst).
  - intros Hst. now rewrite (delete_index_absent srv self resp w Hsend Hst).
  - intros H204 H404.
    destruct (delete_index_other_status srv self resp w Hsend H204 H404)
      as [Hraise Hmsg].
    split; [exact Hraise|]. split.
    + intros detail Hbad. apply Hmsg.
      now apply error_message_of_not_json with (detail := detail).
    + intros body err Hbody Herr. apply Hmsg.
      now apply error_message_of_object with (body := body).
Qed.

(** *** [vector_search] *)

Lemma search_body_without_filter (embedding : pyval) (top_k : Z) :
  search_body embedding top_k None
  = [ ("search", PStr "*");
      ("vectorQueries",
        PList [ PDict [ ("kind", PStr "vector");
                        ("vector", embedding);
                        ("fields", PStr "contentVector");
                        ("k", PInt top_k);
                        ("exhaustive", PBool false) ] ]);
      ("select", PStr "id, userId, folderId, documentId, type, content, metadata");
      ("top", PInt top_k) ].
Proof. reflexivity. Qed.

(** C7 (as amended).  With an owner identifier that is not empty, the
    body of the search request is the body without identifier followed
    by the one entry [filter], whose value is [userId eq '<id>']; with
    no identifier, or with the empty one, the body has no [filter] key;
    and the body is what [vector_search] sends. *)
Theorem search_body_owner_filter (embedding : pyval) (top_k : Z) :
  (forall user_id : string,
     user_id <> EmptyString ->
     search_body embedding top_k (Some user_id)
     = (search_body embedding top_k None
        ++ [("filter", PStr ("userId eq '" +:+ user_id +:+ "'"))])%list
     /\ dict_lookup (search_body embedding top_k (Some user_id)) "filter"
        = Some (PStr ("userId eq '" +:+ user_id +:+ "'")))
  /\ dict_has (search_body embedding top_k None) "filter" = false
  /\ search_body embedding top_k (Some EmptyString)
     = search_body embedding top_k None
  /\ (forall (srv srv' : services) (self : SearchHelper)
             (user_id : option string) (w : world),
        http_send srv (search_request self embedding top_k user_id)
        = http_send srv' (search_request self embedding top_k user_id) ->
        vector_search str_repr exn_text json_loads srv self embedding top_k user_id w
        = vector_search str_repr exn_text json_loads srv' self embedding top_k
            user_id w).
Proof.
  split; [|split; [reflexivity | split; [reflexivity|]]].
  - intros user_id Hne.
    assert (Ht : truthy_env (Some user_id) = true).
    { cbn. destruct (String.eqb_spec user_id EmptyString); [contradiction|].
      reflexivity. }
    unfold search_body. rewrite Ht. split; reflexivity.
  - intros srv srv' self user_id w Hsend. unfold vector_search.
    fold (search_request self embedding top_k user_id). rewrite Hsend.
    reflexivity.
Qed.

(** *** Steps that leave [files] as it is *)

Lemma keeps_ret {A : Type} (a : A) : keeps_files (mret a : io A).
Proof. intros w. reflexivity. Qed.

Lemma keeps_raise {A : Type} (e : exn) : keeps_files (raise e : io A).
Proof. intros w. reflexivity. Qed.

Lemma keeps_lift {A : Type} (r : result A) : keeps_files (lift r).
Proof. intros w. reflexivity. Qed.

Lemma keeps_logging (l : level) (msg : string) : keeps_files (logging l msg).
Proof. intros w. reflexivity. Qed.

Lemma keeps_print (msg : string) : keeps_files (print msg).
Proof. intros w. reflexivity. Qed.

Lemma keeps_read_file (path : string) : keeps_files (read_file path).
Proof. intros w. unfold read_file. destruct (files w !! path); reflexivity. Qed.

Lemma keeps_path_exists (path : string) : keeps_files (path_exists path).
Proof. intros w. reflexivity. Qed.

Lemma keeps_bind {A B : Type} (m : io A) (k : A -> io B) :
  keeps_files m -> (forall a, keeps_files (k a)) -> keeps_files (m ≫= k).
Proof.
  intros Hm Hk w. rewrite run_bind. specialize (Hm w).
  destruct (m w) as [[a|e] w']; cbn [snd] in *.
  - now rewrite (Hk a w').
  - exact Hm.
Qed.

Lemma keeps_try_except {A : Type} (m : io A) (h : exn -> io A) :
  keeps_files m -> (forall e, keeps_files (h e)) -> keeps_files (try_except m h).
Proof.
  intros Hm Hh w. unfold try_except. specialize (Hm w).
  destruct (m w) as [[a|e] w']; cbn [snd] in *.
  - exact Hm.
  - now rewrite (Hh e w').
Qed.

Lemma keeps_attempt {A : Type} (m : io A) : keeps_files m -> keeps_files (attempt m).
Proof.
  intros Hm w. unfold attempt. specialize (Hm w).
  destruct (m w) as [r w']. exact Hm.
Qed.

Lemma returns_keeps {A : Type} (m : io A) (w w' : world) (a : A) :
  keeps_files m -> returns m w a w' -> files w' = files w.
Proof. intros Hm H. specialize (Hm w). rewrite H in Hm. exact Hm. Qed.

(** Breaks a computation into its steps; what is left are the branches
    of its conditionals. *)
Ltac keeps_step :=
  first
    [ apply keeps_ret | apply keeps_raise | apply keeps_lift
    | apply keeps_logging | apply keeps_print | apply keeps_read_file
    | apply keeps_path_exists
    | apply keeps_bind; [|intros ?]
    | apply keeps_try_except; [|intros ?]
    | apply keeps_attempt
    | match goal with
      | |- keeps_files (match ?x with _ => _ end) => destruct x
      | |- keeps_files (let (_, _) := ?x in _) => destruct x
      end ].

Ltac keeps := repeat keeps_step.

Lemma keeps_load_conversation_history :
  keeps_files (load_conversation_history exn_text json_loads).
Proof. unfold load_conversation_history. keeps. Qed.

Lemma keeps_get_user_query (file_path : string) :
  keeps_files (get_user_query exn_text str_strip file_path).
Proof. unfold get_user_query. keeps. Qed.

Lemma keeps_load_submission (file_path : string) :
  keeps_files (load_submission exn_text json_loads file_path).
Proof. unfold load_submission. keeps. Qed.

Lemma keeps_EmbeddingHelper_init (srv : services) :
  keeps_files (EmbeddingHelper_init srv).
Proof. unfold EmbeddingHelper_init. keeps. Qed.

Lemma keeps_SearchHelper_init (srv : services) :
  keeps_files (SearchHelper_init srv).
Proof. unfold SearchHelper_init. keeps. Qed.

Lemma keeps_get_embedding (srv : services) (self : EmbeddingHelper) (text : string) :
  keeps_files (get_embedding exn_text srv self text).
Proof. unfold get_embedding. keeps. Qed.

Lemma keeps_vector_search (srv : services) (self : SearchHelper)
    (embedding : pyval) (top_k : Z) (user_id : option string) :
  keeps_files (vector_search str_repr exn_text json_loads srv self embedding
                 top_k user_id).
Proof. unfold vector_search. keeps. Qed.

Lemma keeps_delete_index (srv : services) (self : AzureSearchRESTHelper) :
  keeps_files (delete_index str_repr json_loads srv self).
Proof. unfold delete_index. keeps. Qed.

Lemma keeps_display_documents (docs : list pyval) (idx : Z) :
  keeps_files (display_documents str_repr idx docs).
Proof.
  revert idx. induction docs as [|doc docs IH]; intros idx;
    cbn [display_documents]; keeps. apply IH.
Qed.

Lemma keeps_process_results (srv : services) (results : pyval)
    (user_query : string) (conversation_history : pyval) :
  keeps_files (process_results_with_openai_chat exn_text str_strip srv results
                 user_query conversation_history).
Proof. unfold process_results_with_openai_chat, chat_failed. keeps. Qed.

(** *** The file loaders *)

(** C9 (as amended).  The loaders on a missing file and on a file that
    is not JSON.  [load_submission] raises in both cases: the error of
    [open], which carries the path, or the error of the decoder, after
    logging a line with the path.  [get_user_query] raises a
    [FileNotFoundError] whose message has the path.
    [load_conversation_history] raises in neither case: it logs and
    returns the empty list. *)
Theorem file_loaders_on_bad_files (w : world) (file_path : string) :
  (files w !! file_path = None ->
   load_submission exn_text json_loads file_path w
   = (Raise (OSFileNotFound file_path),
      World (files w)
        (log w ++ [(ERROR, "Submission file '" +:+ file_path +:+ "' not found.")])
        (stdout w)))
  /\ (forall content detail : string,
        files w !! file_path = Some content ->
        json_loads content = Raise (JSONDecodeError detail) ->
        load_submission exn_text json_loads file_path w
        = (Raise (JSONDecodeError detail),
           World (files w)
             (log w ++ [(ERROR, "Error decoding JSON from '" +:+ file_path
                                +:+ "': " +:+ exn_text (JSONDecodeError detail))])
             (stdout w)))
  /\ (files w !! file_path = None ->
      get_user_query exn_text str_strip file_path w
      = (Raise (FileNotFoundError ("Query file '" +:+ file_path +:+ "' not found.")),
         World (files w)
           (log w ++ [(ERROR, "Query file '" +:+ file_path +:+ "' not found.")])
           (stdout w))
      /\ str_contains file_path ("Query file '" +:+ file_path +:+ "' not found.")
         = true)
  /\ (files w !! CONVERSATION_HISTORY_FILE = None ->
      load_conversation_history exn_text json_loads w
      = (Ok (PList []),
         World (files w)
           (log w ++ [(INFO, "No conversation history file found. Starting fresh.")])
           (stdout w)))
  /\ (forall (content : string) (e : exn),
        files w !! CONVERSATION_HISTORY_FILE = Some content ->
        json_loads content = Raise e ->
        load_conversation_history exn_text json_loads w
        = (Ok (PList []),
           World (files w)
             (log w ++ [(ERROR, "Error loading conversation history: "
                                +:+ exn_str exn_text e)])
             (stdout w))).
Proof.
  split; [|split; [|split; [|split]]].
  - intros Hnone. unfold load_submission, try_except.
    rewrite run_bind. unfold read_file. rewrite Hnone. reflexivity.
  - intros content detail Hsome Hbad. unfold load_submission, try_except.
    rewrite run_bind. unfold read_file. rewrite Hsome.
    rewrite run_bind. unfold lift. rewrite Hbad. reflexivity.
  - intros Hnone. split.
    + unfold get_user_query, try_except.
      rewrite run_bind. unfold read_file. rewrite Hnone. reflexivity.
    + apply (str_contains_append file_path "Query file '" "' not found.").
  - intros Hnone. unfold load_conversation_history, try_except.
    rewrite run_bind. unfold path_exists. rewrite Hnone.
    rewrite bool_decide_eq_false_2 by (intros [x Hx]; discriminate).
    reflexivity.
  - intros content e Hsome Hbad. unfold load_conversation_history, try_except.
    rewrite run_bind. unfold path_exists. rewrite Hsome.
    rewrite bool_decide_eq_true_2 by eauto.
    rewrite run_bind. unfold read_file. rewrite Hsome.
    rewrite run_bind. unfold lift. rewrite Hbad. reflexivity.
Qed.

(** *** The conversation history *)

Lemma save_conversation_history_writes (history : pyval) (w : world) :
  save_conversation_history exn_text json_dumps history w
  = (Ok tt,
     World (<[CONVERSATION_HISTORY_FILE := json_dumps history]> (files w))
       (log w ++ [(INFO, "Conversation history saved to '"
                         +:+ CONVERSATION_HISTORY_FILE +:+ "'.")])
       (stdout w)).
Proof. reflexivity. Qed.

Lemma load_conversation_history_reads (content : string) (history : pyval)
    (w : world) :
  files w !! CONVERSATION_HISTORY_FILE = Some content ->
  json_loads content = Ok history ->
  load_conversation_history exn_text json_loads w
  = (Ok history,
     World (files w)
       (log w ++ [(INFO, "Loaded conversation history from '"
                         +:+ CONVERSATION_HISTORY_FILE +:+ "'.")])
       (stdout w)).
Proof.
  intros Hsome Hgood. unfold load_conversation_history, try_except.
  rewrite run_bind. unfold path_exists. rewrite Hsome.
  rewrite bool_decide_eq_true_2 by eauto.
  rewrite run_bind. unfold read_file. rewrite Hsome.
  rewrite run_bind. unfold lift. rewrite Hgood. reflexivity.
Qed.

(** A history that the JSON writer and reader give back unchanged is
    read back unchanged: after [save_conversation_history history] the
    file holds the text of the writer, and [load_conversation_history]
    returns [history], whatever the file held before. *)
Lemma round_trip_of_codec (history : pyval) (w : world) :
  json_loads (json_dumps history) = Ok history ->
  exists w1 w2 : world,
    returns (save_conversation_history exn_text json_dumps history) w tt w1
    /\ files w1 !! CONVERSATION_HISTORY_FILE = Some (json_dumps history)
    /\ returns (load_conversation_history exn_text json_loads) w1 history w2.
Proof.
  intros Hcodec. eexists. eexists. split; [|split].
  - apply save_conversation_history_writes.
  - cbn [files]. apply lookup_insert_eq.
  - apply load_conversation_history_reads with (content := json_dumps history).
    + cbn [files]. apply lookup_insert_eq.
    + exact Hcodec.
Qed.

(** *** The query orchestrator *)

(** [process_results_with_openai_chat] always returns.  On a history
    that is a list it leaves the list with the user query appended, and
    with the answer after it when the chat completion succeeded; a
    history that is not a list is left as it is. *)
Lemma process_results_outcome (srv : services) (results : pyval)
    (user_query : string) (history : pyval) (w : world) :
  exists (answer : string) (history' : pyval) (w' : world),
    returns (process_results_with_openai_chat exn_text str_strip srv results
               user_query history) w (answer, history') w'
    /\ (forall l : list pyval,
          history = PList l ->
          match chat_answer str_strip srv results
                  (PList (l ++ [message "user" user_query])) with
          | Ok a =>
              answer = a
              /\ history' = PList (l ++ [message "user" user_query;
                                         message "assistant" a])
          | Raise _ =>
              answer = "I'm sorry, I couldn't generate a response at this time."
              /\ history' = PList (l ++ [message "user" user_query])
          end)
    /\ ((forall l : list pyval, history <> PList l) -> history' = history).
Proof.
  unfold returns, process_results_with_openai_chat.
  destruct history as [| | | | |l|];
    try (cbn [append_method]; unfold chat_failed;
         do 3 eexists; split; [reflexivity|]; split;
         [intros l; discriminate | reflexivity]).
  cbn [append_method].
  destruct (chat_answer str_strip srv results
              (PList (l ++ [message "user" user_query]))) as [a|e] eqn:Hchat.
  - cbn [append_method]. do 3 eexists. split; [reflexivity|]. split.
    + intros l' [= <-]. rewrite Hchat, <- app_assoc. split; reflexivity.
    + intros Hno. now destruct (Hno l).
  - unfold chat_failed. do 3 eexists. split; [reflexivity|]. split.
    + intros l' [= <-]. rewrite Hchat. split; reflexivity.
    + intros Hno. now destruct (Hno l).
Qed.

(** C8 (as amended).  When the helpers are configured, the query is
    read, the embedding and the search succeed and the documents found
    are printed, [main] returns after writing the history file: the file
    holds the history that [process_results_with_openai_chat] leaves,
    whether the chat completion succeeded or failed, and no other file
    is changed, the log file apart.  A history that was a list then
    holds the user query,
    followed by the answer when the chat completion succeeded. *)
Theorem main_saves_history_after_search (srv : services)
    (w w1 w2 w3 w4 w5 w6 w7 : world)
    (embedder : EmbeddingHelper) (searcher : SearchHelper)
    (history : pyval) (user_query : string) (embedding documents : pyval)
    (docs : list pyval) :
  returns (load_env;; EmbeddingHelper_init srv) w embedder w1 ->
  returns (SearchHelper_init srv) w1 searcher w2 ->
  returns (load_conversation_history exn_text json_loads) w2 history w3 ->
  returns (get_user_query exn_text str_strip "RAG/query.txt") w3 user_query w4 ->
  returns (get_embedding exn_text srv embedder user_query) w4 embedding w5 ->
  returns (search_results ←
             vector_search str_repr exn_text json_loads srv searcher embedding 5
               (Some (getenv_default srv "CURRENT_USER_ID" "userXYZ"));
           lift (get_method search_results "value" (PList [])))
          w5 documents w6 ->
  truthy documents = true ->
  py_iter documents = Ok docs ->
  returns (print (nl +:+ "Top Relevant Documents:");;
           display_documents str_repr 1 docs) w6 tt w7 ->
  exists (answer : string) (history' : pyval) (w8 : world),
    returns (process_results_with_openai_chat exn_text str_strip srv documents
               user_query history) w7 (answer, history') w8
    /\ fst (main str_repr exn_text json_loads json_dumps str_strip srv w) = Ok tt
    /\ files (snd (main str_repr exn_text json_loads json_dumps str_strip srv w))
       = <[CONVERSATION_HISTORY_FILE := json_dumps history']> (files w)
    /\ (forall l : list pyval,
          history = PList l ->
          match chat_answer str_strip srv documents
                  (PList (l ++ [message "user" user_query])) with
          | Ok a => history' = PList (l ++ [message "user" user_query;
                                            message "assistant" a])
          | Raise _ => history' = PList (l ++ [message "user" user_query])
          end).
Proof.
  intros Hinit Hsearcher Hload Hquery Hembed Hsearch Htruthy Hiter Hshow.
  destruct (process_results_outcome srv documents user_query history w7)
    as (answer & history' & w8 & Hchat & Hlist & _).
  exists answer, history', w8. split; [exact Hchat|].
  assert (Hhistory : forall l : list pyval,
             history = PList l ->
             match chat_answer str_strip srv documents
                     (PList (l ++ [message "user" user_query])) with
             | Ok a => history' = PList (l ++ [message "user" user_query;
                                               message "assistant" a])
             | Raise _ => history' = PList (l ++ [message "user" user_query])
             end).
  { intros l Hl. specialize (Hlist l Hl).
    destruct (chat_answer str_strip srv documents
                (PList (l ++ [message "user" user_query]))); tauto. }
  assert (Hfiles : files w8 = files w).
  { transitivity (files w7);
      [eapply returns_keeps; [apply keeps_process_results | exact Hchat]|].
    transitivity (files w6);
      [eapply returns_keeps; [|exact Hshow]; keeps;
       apply keeps_display_documents|].
    transitivity (files w5);
      [eapply returns_keeps; [|exact Hsearch]; keeps;
       apply keeps_vector_search|].
    transitivity (files w4);
      [eapply returns_keeps; [apply keeps_get_embedding | exact Hembed]|].
    transitivity (files w3);
      [eapply returns_keeps; [apply keeps_get_user_query | exact Hquery]|].
    transitivity (files w2);
      [eapply returns_keeps; [apply keeps_load_conversation_history
                             | exact Hload]|].
    transitivity (files w1);
      [eapply returns_keeps; [apply keeps_SearchHelper_init | exact Hsearcher]|].
    eapply returns_keeps; [|exact Hinit].
    unfold load_env. keeps. apply keeps_EmbeddingHelper_init. }
  unfold returns in *.
  rewrite run_bind in Hinit. rewrite run_bind in Hshow.
  unfold load_env in Hinit. rewrite run_logging in Hinit.
  rewrite run_print in Hshow. cbv beta iota in Hinit, Hshow.
  assert (Hmain : exists w9 : world,
             main str_repr exn_text json_loads json_dumps str_strip srv w
             = (Ok tt, w9)
             /\ files w9 = <[CONVERSATION_HISTORY_FILE := json_dumps history']>
                             (files w8)).
  { eexists. split.
    - unfold main, load_env. rewrite run_bind, run_logging. cbv beta iota.
      rewrite run_bind, Hinit. cbv beta iota.
      rewrite run_bind, Hsearcher. cbv beta iota.
      rewrite run_bind, Hload. cbv beta iota.
      rewrite run_bind. unfold attempt at 1. rewrite Hquery. cbv beta iota.
      rewrite run_bind. unfold attempt at 1. rewrite Hembed. cbv beta iota.
      rewrite run_bind. unfold attempt at 1. rewrite Hsearch. cbv beta iota.
      rewrite Htruthy. cbn [negb].
      rewrite run_bind, run_print. cbv beta iota.
      rewrite run_bind. unfold lift at 1. rewrite Hiter. cbv beta iota.
      rewrite run_bind, Hshow. cbv beta iota.
      rewrite run_bind. unfold try_except at 1.
      rewrite run_bind, Hchat. cbv beta iota.
      rewrite run_bind, run_print. cbv beta iota.
      unfold mret at 1, io_ret at 1. cbn [snd].
      rewrite save_conversation_history_writes. reflexivity.
    - reflexivity. }
  destruct Hmain as (w9 & -> & Hw9). cbn [fst snd]. rewrite Hw9, Hfiles.
  split; [reflexivity | split; [reflexivity | exact Hhistory]].
Qed.

End RuntimeProperties.

(** ** The JSON writer and reader on a conversation history *)

(** What [plain_json_dumps] writes for a list of messages,
    [plain_json_loads] reads back: string literals character by
    character, then a message, then the list. *)

Lemma chars_append (a b : string) :
  list_ascii_of_string (a +:+ b)
  = (list_ascii_of_string a ++ list_ascii_of_string b)%list.
Proof.
  induction a as [|c a IH]; [reflexivity|].
  rewrite append_cons. cbn [list_ascii_of_string app]. now rewrite IH.
Qed.

Lemma concat_nil_cons (x : string) (l : list string) :
  String.concat EmptyString (x :: l) = x +:+ String.concat EmptyString l.
Proof.
  destruct l as [|y l]; cbn [String.concat].
  - now rewrite append_nil_r.
  - now rewrite append_nil.
Qed.

Lemma read_string_char (c : ascii) (rest acc : list ascii) :
  read_string (list_ascii_of_string (json_char c) ++ rest) acc
  = read_string rest (c :: acc).
Proof.
  destruct c as [[] [] [] [] [] [] [] []]; reflexivity.
Qed.

Lemma read_string_body (s : string) (rest acc : list ascii) :
  read_string
    (list_ascii_of_string (String.concat EmptyString (map json_char (list_ascii_of_string s)))
     ++ "034"%char :: rest) acc
  = Some (string_of_list_ascii (rev acc ++ list_ascii_of_string s), rest).
Proof.
  revert acc. induction s as [|c s IH]; intros acc.
  - cbn. now rewrite app_nil_r.
  - cbn [list_ascii_of_string map]. rewrite concat_nil_cons, chars_append.
    rewrite <- app_assoc, read_string_char, IH.
    cbn [rev]. now rewrite <- app_assoc.
Qed.

(** A string literal, with what follows it. *)
Lemma chars_json_string (s : string) (rest : list ascii) :
  (list_ascii_of_string (json_string s) ++ rest)%list
  = ("034"%char
     :: list_ascii_of_string (String.concat EmptyString (map json_char (list_ascii_of_string s)))
     ++ "034"%char :: rest)%list.
Proof.
  unfold json_string. cbn [list_ascii_of_string app].
  rewrite chars_append, <- app_assoc. reflexivity.
Qed.

Lemma read_string_literal (s : string) (rest : list ascii) :
  read_string
    (list_ascii_of_string (String.concat EmptyString (map json_char (list_ascii_of_string s)))
     ++ "034"%char :: rest) []
  = Some (s, rest).
Proof.
  rewrite read_string_body. cbn [rev app].
  now rewrite string_of_list_ascii_of_string.
Qed.

(** How the readers start on a given character. *)
Lemma read_value_quote (fuel : nat) (rest : list ascii) :
  read_value (S fuel) ("034"%char :: rest)
  = match read_string rest [] with
    | Some (s, rest') => Some (PStr s, rest')
    | None => None
    end.
Proof. reflexivity. Qed.

Lemma read_value_brace (fuel : nat) (rest : list ascii) :
  read_value (S fuel) ("{"%char :: rest)
  = match skip_space rest with
    | c' :: rest' =>
        if Ascii.eqb c' "}" then Some (PDict [], rest')
        else match read_members fuel rest with
             | Some (d, rest'') => Some (PDict d, rest'')
             | None => None
             end
    | [] => None
    end.
Proof. reflexivity. Qed.

Lemma read_value_bracket (fuel : nat) (rest : list ascii) :
  read_value (S fuel) ("["%char :: rest)
  = match skip_space rest with
    | c' :: rest' =>
        if Ascii.eqb c' "]" then Some (PList [], rest')
        else match read_items fuel rest with
             | Some (l, rest'') => Some (PList l, rest'')
             | None => None
             end
    | [] => None
    end.
Proof. reflexivity. Qed.

Lemma read_value_space (fuel : nat) (c : ascii) (rest : list ascii) :
  is_json_space c = true -> read_value fuel (c :: rest) = read_value fuel rest.
Proof.
  intros Hc. destruct fuel as [|fuel]; [reflexivity|].
  cbn [read_value skip_space]. now rewrite Hc.
Qed.

Lemma read_items_step (fuel : nat) (cs : list ascii) :
  read_items (S fuel) cs
  = match read_value fuel cs with
    | Some (v, rest) =>
        match skip_space rest with
        | c :: rest' =>
            if Ascii.eqb c "]" then Some ([v], rest')
            else if Ascii.eqb c "," then
              match read_items fuel rest' with
              | Some (l, rest'') => Some (v :: l, rest'')
              | None => None
              end
            else None
        | [] => None
        end
    | None => None
    end.
Proof. reflexivity. Qed.

Lemma read_members_space (fuel : nat) (c : ascii) (rest : list ascii) :
  is_json_space c = true -> read_members fuel (c :: rest) = read_members fuel rest.
Proof.
  intros Hc. destruct fuel as [|fuel]; [reflexivity|].
  cbn [read_members skip_space]. now rewrite Hc.
Qed.

Lemma read_members_quote (fuel : nat) (rest : list ascii) :
  read_members (S fuel) ("034"%char :: rest)
  = match read_string rest [] with
    | Some (k, rest1) =>
        match skip_space rest1 with
        | colon :: rest2 =>
            if Ascii.eqb colon ":" then
              match read_value fuel rest2 with
              | Some (v, rest3) =>
                  match skip_space rest3 with
                  | c :: rest4 =>
                      if Ascii.eqb c "}" then Some ([(k, v)], rest4)
                      else if Ascii.eqb c "," then
                        match read_members fuel rest4 with
                        | Some (d, rest5) => Some (dict_first k v d, rest5)
                        | None => None
                        end
                      else None
                  | [] => None
                  end
              | None => None
              end
            else None
        | [] => None
        end
    | None => None
    end.
Proof. reflexivity. Qed.

Lemma skip_space_space (c : ascii) (rest : list ascii) :
  is_json_space c = true -> skip_space (c :: rest) = skip_space rest.
Proof. intros Hc. cbn [skip_space]. now rewrite Hc. Qed.

Lemma skip_space_stop (c : ascii) (rest : list ascii) :
  is_json_space c = false -> skip_space (c :: rest) = c :: rest.
Proof. intros Hc. cbn [skip_space]. now rewrite Hc. Qed.

Lemma read_value_string (fuel : nat) (s : string) (rest : list ascii) :
  read_value (S fuel) (list_ascii_of_string (json_string s) ++ rest) = Some (PStr s, rest).
Proof.
  rewrite chars_json_string, read_value_quote. now rewrite read_string_literal.
Qed.

(** The text of a message inside the list of the history. *)
Lemma chars_message (role content : string) (rest : list ascii) :
  (list_ascii_of_string (dumps_at 1 (message role content)) ++ rest)%list
  = ("{"%char :: list_ascii_of_string (nl +:+ indent 2)
     ++ list_ascii_of_string (json_string "role") ++ ":"%char :: " "%char
     :: list_ascii_of_string (json_string role) ++ ","%char :: list_ascii_of_string (nl +:+ indent 2)
     ++ list_ascii_of_string (json_string "content") ++ ":"%char :: " "%char
     :: list_ascii_of_string (json_string content) ++ list_ascii_of_string (nl +:+ indent 1)
     ++ "}"%char :: rest)%list.
Proof.
  unfold message. cbn [dumps_at map join String.concat].
  rewrite !chars_append, <- !app_assoc. reflexivity.
Qed.

(** Blank text before a value is skipped. *)
Lemma skip_space_blank (ws cs : list ascii) :
  forallb is_json_space ws = true -> skip_space (ws ++ cs) = skip_space cs.
Proof.
  induction ws as [|c ws IH]; [reflexivity|].
  cbn [forallb app]. intros [Hc Hws]%andb_true_iff.
  rewrite skip_space_space by exact Hc. now apply IH.
Qed.

Lemma read_value_blank (fuel : nat) (ws cs : list ascii) :
  forallb is_json_space ws = true ->
  read_value fuel (ws ++ cs) = read_value fuel cs.
Proof.
  induction ws as [|c ws IH]; [reflexivity|].
  cbn [forallb app]. intros [Hc Hws]%andb_true_iff.
  rewrite read_value_space by exact Hc. now apply IH.
Qed.

Lemma read_members_blank (fuel : nat) (ws cs : list ascii) :
  forallb is_json_space ws = true ->
  read_members fuel (ws ++ cs) = read_members fuel cs.
Proof.
  induction ws as [|c ws IH]; [reflexivity|].
  cbn [forallb app]. intros [Hc Hws]%andb_true_iff.
  rewrite read_members_space by exact Hc. now apply IH.
Qed.

Lemma blank_indent (depth : nat) :
  forallb is_json_space (list_ascii_of_string (nl +:+ indent depth)) = true.
Proof.
  change (nl +:+ indent depth) with (String "010" (indent depth)).
  cbn [list_ascii_of_string forallb]. change (is_json_space "010") with true.
  cbn [andb]. induction depth as [|d IH]; [reflexivity|].
  cbn [indent]. rewrite chars_append, forallb_app, IH. reflexivity.
Qed.

Lemma read_value_message (fuel : nat) (role content : string) (rest : list ascii) :
  read_value (4 + fuel) (list_ascii_of_string (dumps_at 1 (message role content)) ++ rest)
  = Some (message role content, rest).
Proof.
  rewrite chars_message. change (4 + fuel)%nat with (S (S (S (S fuel)))).
  rewrite read_value_brace.
  rewrite skip_space_blank by apply blank_indent.
  rewrite (chars_json_string "role"), skip_space_stop by reflexivity.
  change (Ascii.eqb "034" "}") with false. cbv iota.
  rewrite read_members_blank by apply blank_indent.
  rewrite read_members_quote, read_string_literal.
  rewrite skip_space_stop by reflexivity.
  change (Ascii.eqb ":" ":") with true. cbv iota.
  rewrite read_value_space by reflexivity. rewrite read_value_string.
  rewrite skip_space_stop by reflexivity.
  change (Ascii.eqb "," "}") with false.
  change (Ascii.eqb "," ",") with true. cbv iota.
  rewrite read_members_blank by apply blank_indent.
  rewrite (chars_json_string "content"), read_members_quote, read_string_literal.
  rewrite skip_space_stop by reflexivity.
  change (Ascii.eqb ":" ":") with true. cbv iota.
  rewrite read_value_space by reflexivity. rewrite read_value_string.
  rewrite skip_space_blank by apply blank_indent.
  rewrite skip_space_stop by reflexivity.
  change (Ascii.eqb "}" "}") with true. cbv iota.
  reflexivity.
Qed.

Lemma join_cons (sep x y : string) (l : list string) :
  join sep (x :: y :: l) = x +:+ sep +:+ join sep (y :: l).
Proof. reflexivity. Qed.

Lemma read_items_messages (ms : list (string * string)) :
  forall (m : string * string) (fuel : nat) (ws tail rest : list ascii),
    forallb is_json_space ws = true ->
    skip_space tail = "]"%char :: rest ->
    read_items (length ms + 5 + fuel)
      (ws ++ list_ascii_of_string (join item_sep
                      (map (dumps_at 1)
                         (map (fun m => message (fst m) (snd m)) (m :: ms))))
          ++ tail)
    = Some (map (fun m => message (fst m) (snd m)) (m :: ms), rest).
Proof.
  induction ms as [|m' ms IH]; intros m fuel ws tail rest Hws Htail.
  - cbn [length map join String.concat].
    change (0 + 5 + fuel)%nat with (S (4 + fuel)).
    rewrite read_items_step, read_value_blank by exact Hws.
    rewrite read_value_message, Htail.
    change (Ascii.eqb "]" "]") with true. reflexivity.
  - cbn [map]. rewrite join_cons, !chars_append, <- !app_assoc.
    replace (length (m' :: ms) + 5 + fuel)%nat
      with (S (4 + (length ms + 1 + fuel))) by (cbn [length]; lia).
    rewrite read_items_step, read_value_blank by exact Hws.
    rewrite read_value_message.
    change (list_ascii_of_string item_sep) with (","%char :: list_ascii_of_string (nl +:+ indent 1)).
    rewrite <- app_comm_cons.
    rewrite skip_space_stop by reflexivity.
    change (Ascii.eqb "," "]") with false.
    change (Ascii.eqb "," ",") with true. cbv iota.
    replace (4 + (length ms + 1 + fuel))%nat with (length ms + 5 + fuel)%nat by lia.
    specialize (IH m' fuel (list_ascii_of_string (nl +:+ indent 1)) tail rest (blank_indent 1)
                  Htail).
    cbn [map] in IH. rewrite IH. reflexivity.
Qed.

Lemma length_join_messages (ms : list (string * string)) (m : string * string) :
  (length ms
   <= length (list_ascii_of_string (join item_sep
                       (map (dumps_at 1)
                          (map (fun m => message (fst m) (snd m)) (m :: ms))))))%nat.
Proof.
  revert m. induction ms as [|m' ms IH]; intros m; [cbn [length]; lia|].
  cbn [map]. rewrite join_cons, !chars_append, !length_app.
  specialize (IH m'). cbn [map] in IH.
  change (length (list_ascii_of_string item_sep)) with 6%nat. cbn [length]. lia.
Qed.

(** The JSON writer and reader give a history back. *)
Lemma plain_json_round_trip (msgs : list (string * string)) :
  plain_json_loads (plain_json_dumps (history_of msgs)) = Ok (history_of msgs).
Proof.
  destruct msgs as [|m ms]; [reflexivity|].
  unfold plain_json_loads, plain_json_dumps, history_of.
  set (items := map (fun m => message (fst m) (snd m)) (m :: ms)).
  assert (Htext : list_ascii_of_string (dumps_at 0 (PList items))
                  = ("["%char :: list_ascii_of_string (nl +:+ indent 1)
                     ++ list_ascii_of_string (join item_sep (map (dumps_at 1) items))
                     ++ list_ascii_of_string (nl +:+ indent 0) ++ ["]"%char])%list).
  { unfold items. cbn [map dumps_at].
    rewrite !chars_append, <- !app_assoc. reflexivity. }
  rewrite Htext.
  set (body := list_ascii_of_string (join item_sep (map (dumps_at 1) items))).
  assert (Hlen : (length ms <= length body)%nat)
    by apply length_join_messages.
  assert (Hfirst : exists more, body = "{"%char :: more).
  { unfold body, items. cbn [map]. destruct ms as [|m' ms].
    - cbn [map join String.concat]. eexists.
      rewrite <- (app_nil_r (list_ascii_of_string _)), chars_message. reflexivity.
    - cbn [map]. rewrite join_cons, chars_append.
      rewrite chars_message. eexists. reflexivity. }
  remember (length ("["%char :: list_ascii_of_string (nl +:+ indent 1) ++ body
                    ++ list_ascii_of_string (nl +:+ indent 0) ++ ["]"%char])) as n eqn:Hn.
  assert (Hfuel : (2 * n + 2 = S (length ms + 5 + (2 * n - length ms - 4)))%nat).
  { subst n. cbn [length]. rewrite !length_app. cbn [length]. lia. }
  rewrite Hfuel, read_value_bracket.
  rewrite skip_space_blank by apply blank_indent.
  destruct Hfirst as [more Hmore]. rewrite Hmore at 1.
  rewrite <- app_comm_cons, skip_space_stop by reflexivity.
  change (Ascii.eqb "{" "]") with false. cbv iota.
  unfold body, items.
  rewrite (read_items_messages ms m _ (list_ascii_of_string (nl +:+ indent 1))
             (list_ascii_of_string (nl +:+ indent 0) ++ ["]"%char]) [] (blank_indent 1))
    by reflexivity.
  reflexivity.
Qed.



(** ** The helpers at concrete processes *)

(** C6.  The failing input: a reply with status 500 whose JSON body
    has text under [error].  [delete_index] raises the [AttributeError]
    of [.get] on that text; nothing is logged and the text of the
    server is not in the exception. *)
Lemma delete_index_loses_error_text :
  let reply := Response 500 "Internal Server Error"
                 (plain_json_dumps (PDict [("error", PStr "index is locked")])) in
  let srv := example_services reply (Ok example_embedding) (Ok PNone) in
  plain_json_loads (text reply) = Ok (PDict [("error", PStr "index is locked")])
  /\ delete_index ascii_repr plain_json_loads srv example_index example_world
     = (Raise AttributeError, example_world).
Proof. split; vm_compute; reflexivity. Qed.

Lemma delete_index_by_status_witness :
  let gone := example_services (Response 404 "Not Found" "no such index")
                (Ok example_embedding) (Ok PNone) in
  let broken := example_services (Response 503 "Service Unavailable" "try later")
                  (Ok example_embedding) (Ok PNone) in
  (fst (delete_index ascii_repr plain_json_loads gone example_index example_world)
   = Ok tt
   /\ log (snd (delete_index ascii_repr plain_json_loads gone example_index
                  example_world))
      = [(WARNING, "Index 'knowledge-index' does not exist.")])
  /\ delete_index ascii_repr plain_json_loads broken example_index example_world
     = (Raise (Exception "Failed to delete index 'knowledge-index': try later"),
        World (files example_world)
          [(ERROR, "Failed to delete index 'knowledge-index': try later")] []).
Proof.
  intros gone broken. split.
  - exact (proj1 (proj2 (delete_index_by_status ascii_repr plain_json_loads gone
                           example_index (Response 404 "Not Found" "no such index")
                           example_world eq_refl)) eq_refl).
  - assert (H204 : status_code (Response 503 "Service Unavailable" "try later")
                   <> 204) by discriminate.
    assert (H404 : status_code (Response 503 "Service Unavailable" "try later")
                   <> 404) by discriminate.
    assert (Hbad : plain_json_loads "try later"
                   = Raise (JSONDecodeError "Expecting value"))
      by (vm_compute; reflexivity).
    exact (proj1 (proj2 (proj2 (proj2 (delete_index_by_status ascii_repr
                    plain_json_loads broken example_index
                    (Response 503 "Service Unavailable" "try later")
                    example_world eq_refl)) H204 H404)) _ Hbad).
Defined.

(** With the empty owner identifier the body has no filter. *)
Lemma search_body_empty_owner_unfiltered :
  dict_has (search_body example_embedding 5 (Some EmptyString)) "filter" = false
  /\ dict_lookup (search_body example_embedding 5 (Some EmptyString)) "filter"
     = None.
Proof. split; reflexivity. Qed.

Lemma search_body_owner_filter_witness :
  "userXYZ" <> EmptyString
  /\ search_body example_embedding 5 (Some "userXYZ")
     = (search_body example_embedding 5 None
        ++ [("filter", PStr "userId eq 'userXYZ'")])%list
  /\ dict_lookup (search_body example_embedding 5 (Some "userXYZ")) "filter"
     = Some (PStr "userId eq 'userXYZ'").
Proof.
  assert (Hne : "userXYZ" <> EmptyString) by discriminate.
  split; [exact Hne|].
  exact (proj1 (search_body_owner_filter ascii_repr plain_exn_text
                  plain_json_loads example_embedding 5) "userXYZ" Hne).
Defined.

(** With no history file, and with one that is not JSON,
    [load_conversation_history] returns the empty list. *)
Lemma load_conversation_history_returns_default :
  fst (load_conversation_history plain_exn_text plain_json_loads example_world)
  = Ok (PList [])
  /\ fst (load_conversation_history plain_exn_text plain_json_loads
            (World {[ CONVERSATION_HISTORY_FILE := "[{" ]} [] []))
     = Ok (PList []).
Proof. split; vm_compute; reflexivity. Qed.

Lemma file_loaders_on_bad_files_witness :
  let w := World {[ "RAG/submission.json" := "[{" ]} [] [] in
  files example_world !! "RAG/submission.json" = None
  /\ files w !! "RAG/submission.json" = Some "[{"
  /\ plain_json_loads "[{" = Raise (JSONDecodeError "Expecting value")
  /\ fst (load_submission plain_exn_text plain_json_loads "RAG/submission.json"
            example_world)
     = Raise (OSFileNotFound "RAG/submission.json")
  /\ fst (load_submission plain_exn_text plain_json_loads "RAG/submission.json" w)
     = Raise (JSONDecodeError "Expecting value")
  /\ fst (get_user_query plain_exn_text ascii_strip "RAG/submission.json"
            example_world)
     = Raise (FileNotFoundError "Query file 'RAG/submission.json' not found.").
Proof.
  intros w.
  assert (Hnone : files example_world !! "RAG/submission.json" = None)
    by (vm_compute; reflexivity).
  assert (Hsome : files w !! "RAG/submission.json" = Some "[{")
    by (vm_compute; reflexivity).
  assert (Hbad : plain_json_loads "[{" = Raise (JSONDecodeError "Expecting value"))
    by (vm_compute; reflexivity).
  pose proof (file_loaders_on_bad_files plain_exn_text plain_json_loads
                ascii_strip example_world "RAG/submission.json")
    as (Hmissing & _ & Hquery & _).
  pose proof (file_loaders_on_bad_files plain_exn_text plain_json_loads
                ascii_strip w "RAG/submission.json")
    as (_ & Hmalformed & _).
  split; [exact Hnone|]. split; [exact Hsome|]. split; [exact Hbad|].
  split; [exact (f_equal fst (Hmissing Hnone))|].
  split; [exact (f_equal fst (Hmalformed _ _ Hsome Hbad))|].
  exact (f_equal fst (proj1 (Hquery Hnone))).
Defined.

(** When the embedding service is down, and when the search service
    answers with status 500, [main] returns and the history file has not
    been written. *)
Lemma main_returns_without_saving :
  let run srv := main ascii_repr plain_exn_text plain_json_loads
                   plain_json_dumps ascii_strip srv example_world in
  let embedding_down :=
    example_services one_document
      (Raise (ServiceError "embedding service is down")) (Ok (PStr "Markers.")) in
  let search_down :=
    example_services (Response 500 "Internal Server Error" "unavailable")
      (Ok example_embedding) (Ok (PStr "Markers.")) in
  (fst (run embedding_down) = Ok tt
   /\ files (snd (run embedding_down)) !! CONVERSATION_HISTORY_FILE = None)
  /\ (fst (run search_down) = Ok tt
      /\ files (snd (run search_down)) !! CONVERSATION_HISTORY_FILE = None).
Proof. intros run embedding_down search_down. repeat split; vm_compute; reflexivity. Qed.

(** When only the chat completion fails, [main] returns and the history
    file has been written. *)
Lemma main_saves_history_after_search_witness :
  let srv := example_services one_document (Ok example_embedding)
               (Raise (ServiceError "chat service is down")) in
  fst (main ascii_repr plain_exn_text plain_json_loads plain_json_dumps
         ascii_strip srv example_world) = Ok tt
  /\ files (snd (main ascii_repr plain_exn_text plain_json_loads
                   plain_json_dumps ascii_strip srv example_world))
     = <[CONVERSATION_HISTORY_FILE :=
           plain_json_dumps (PList [message "user" "What did Alice order?"])]>
         (files example_world).
Proof.
  intros srv.
  pose (embedder := EmbeddingHelperOf "https://openai.example"
                      "2023-03-15-preview" "key-1" "text-embedding-ada-002").
  pose (searcher := SearchHelperOf "https://search.example" "key-2"
                      "knowledge-index" "2024-07-01").
  pose (document := PDict [("id", PStr "result123"); ("type", PStr "result");
                           ("content", PStr "Alice ordered markers.");
                           ("metadata", PStr EmptyString)]).
  pose (w1 := snd ((load_env;; EmbeddingHelper_init srv) example_world)).
  pose (w2 := snd (SearchHelper_init srv w1)).
  pose (w3 := snd (load_conversation_history plain_exn_text plain_json_loads w2)).
  pose (w4 := snd (get_user_query plain_exn_text ascii_strip "RAG/query.txt" w3)).
  pose (w5 := snd (get_embedding plain_exn_text srv embedder
                     "What did Alice order?" w4)).
  pose (w6 := snd ((search_results ←
                      vector_search ascii_repr plain_exn_text plain_json_loads
                        srv searcher example_embedding 5
                        (Some (getenv_default srv "CURRENT_USER_ID" "userXYZ"));
                    lift (get_method search_results "value" (PList []))) w5)).
  pose (w7 := snd ((print (nl +:+ "Top Relevant Documents:");;
                    display_documents ascii_repr 1 [document]) w6)).
  destruct (main_saves_history_after_search ascii_repr plain_exn_text
              plain_json_loads plain_json_dumps ascii_strip srv
              example_world w1 w2 w3 w4 w5 w6 w7 embedder searcher (PList [])
              "What did Alice order?" example_embedding (PList [document])
              [document])
    as (answer & history' & w8 & _ & Hreturn & Hfiles & Hhistory);
    try (vm_compute; reflexivity).
  specialize (Hhistory [] eq_refl). cbn in Hhistory. subst history'.
  split; [exact Hreturn | exact Hfiles].
Defined.

(** ** More of [flatten_helper.py] *)

Section FlattenMore.

Variable str_repr : string -> string.

Lemma filter_truthy_texts (l : list string) :
  List.filter truthy (map PStr l) = map PStr (List.filter nonempty l).
Proof.
  induction l as [|s l IH]; [reflexivity|].
  cbn [map List.filter truthy]. unfold nonempty at 1.
  destruct (negb (String.eqb s EmptyString)); cbn [map]; now rewrite IH.
Qed.

Lemma join_values_go_texts (l : list string) :
  join_values_go (map PStr l) = Ok l.
Proof.
  induction l as [|s l IH]; [reflexivity|].
  cbn [map join_values_go]. now rewrite IH.
Qed.

(** X1.  An address whose five components are text (a missing one
    counts as empty) flattens to its name and the components that are
    not empty, in the order line1, line2, city, state, zip, with a comma
    and a space between them; other keys of the address do not
    matter. *)
Theorem flatten_address_field_joins (field_name : pyval) (a : dict)
    (line1 line2 city state zip_code : string) :
  dict_get a "line1" (PStr EmptyString) = PStr line1 ->
  dict_get a "line2" (PStr EmptyString) = PStr line2 ->
  dict_get a "city" (PStr EmptyString) = PStr city ->
  dict_get a "state" (PStr EmptyString) = PStr state ->
  dict_get a "zip" (PStr EmptyString) = PStr zip_code ->
  flatten_address_field str_repr field_name a
  = Ok (py_str str_repr field_name +:+ ": "
        +:+ join ", " (List.filter nonempty [line1; line2; city; state; zip_code])).
Proof.
  intros H1 H2 H3 H4 H5. unfold flatten_address_field.
  rewrite H1, H2, H3, H4, H5.
  change [PStr line1; PStr line2; PStr city; PStr state; PStr zip_code]
    with (map PStr [line1; line2; city; state; zip_code]).
  rewrite filter_truthy_texts. unfold join_values.
  rewrite join_values_go_texts. reflexivity.
Qed.

(** X2.  A value of the wrong type for its field type gives a
    placeholder, not an exception: an address, a signature or a location
    whose value is not a dictionary, and a table whose value is not a
    list. *)
Theorem flatten_field_placeholders (d : dict) :
  let field_type := dict_get d "fieldType" PNone in
  let value := dict_get d "value" PNone in
  (eq_str field_type "address" = true -> is_dict value = false ->
   flatten_field str_repr d
   = Ok (shown_name str_repr d +:+ ": [Invalid address data]"))
  /\ (eq_str field_type "table" = true -> is_list value = false ->
      flatten_field str_repr d
      = Ok (shown_name str_repr d +:+ ": [Invalid table data]"))
  /\ (eq_str field_type "signature" = true -> is_dict value = false ->
      flatten_field str_repr d
      = Ok (shown_name str_repr d +:+ ": [Signature provided]"))
  /\ (eq_str field_type "location" = true -> is_dict value = false ->
      flatten_field str_repr d
      = Ok (shown_name str_repr d +:+ ": [Location data]")).
Proof.
  intros field_type value. unfold field_type, value.
  repeat split; intros Ht Hv; apply eq_str_true in Ht;
    unfold flatten_field; rewrite Ht;
    destruct (dict_get d "value" PNone); try discriminate; reflexivity.
Qed.

(** X3.  A location whose value is a dictionary gives the fallback
    exactly when [lat] or [lon] is missing or null; otherwise both are
    printed, whatever their truth value. *)
Theorem flatten_location_fallback_iff (d v : dict) :
  eq_str (dict_get d "fieldType" PNone) "location" = true ->
  dict_get d "value" PNone = PDict v ->
  let lat := dict_get v "lat" PNone in
  let lon := dict_get v "lon" PNone in
  (flatten_field str_repr d = Ok (shown_name str_repr d +:+ ": [Location data]")
   <-> is_none lat || is_none lon = true)
  /\ (is_none lat || is_none lon = false ->
      flatten_field str_repr d
      = Ok (shown_name str_repr d +:+ ": (Lat=" +:+ py_str str_repr lat
            +:+ ", Lon=" +:+ py_str str_repr lon +:+ ")")).
Proof.
  intros Ht Hv lat lon. apply eq_str_true in Ht.
  assert (Hout : flatten_field str_repr d
                 = Ok (flatten_location_field str_repr
                         (dict_get d "fieldName" (PStr "UnknownField")) v)).
  { unfold flatten_field. rewrite Ht, Hv. reflexivity. }
  rewrite Hout. unfold flatten_location_field. fold lat lon.
  replace (negb (is_none lat) && negb (is_none lon))
    with (negb (is_none lat || is_none lon))
    by (destruct (is_none lat), (is_none lon); reflexivity).
  destruct (is_none lat || is_none lon); cbn [negb]; split.
  - split; reflexivity.
  - discriminate.
  - split; [|discriminate].
    intros [= H]. fold (shown_name str_repr d) in H.
    apply (inj (String.append _)) in H.
    rewrite !append_cons in H. discriminate.
  - reflexivity.
Qed.

(** X4.  For a field type that is none of checkbox, password, address,
    table, signature and location (so for text, number, date, an unknown
    type, a type that is not text, or no type at all) the record
    flattens to its name and [str] of its value; nothing is raised. *)
Theorem flatten_field_plain (d : dict) :
  (forall k : string,
     In k ["checkbox"; "password"; "address"; "table"; "signature"; "location"] ->
     eq_str (dict_get d "fieldType" PNone) k = false) ->
  flatten_field str_repr d
  = Ok (shown_name str_repr d +:+ ": "
        +:+ py_str str_repr (dict_get d "value" PNone)).
Proof.
  intros Hnot. unfold flatten_field.
  rewrite (Hnot "checkbox"), (Hnot "password"), (Hnot "address"),
    (Hnot "table"), (Hnot "signature"), (Hnot "location")
    by (cbn; tauto).
  destruct (eq_str (dict_get d "fieldType" PNone) "text");
    [reflexivity|].
  destruct (eq_str (dict_get d "fieldType" PNone) "number");
    [reflexivity|].
  destruct (eq_str (dict_get d "fieldType" PNone) "date"); reflexivity.
Qed.

Lemma for_each_middle {A B : Type} (f : A -> result B) (l1 l2 : list A) (x x' : A) :
  f x' = f x -> for_each f (l1 ++ x' :: l2) = for_each f (l1 ++ x :: l2).
Proof.
  intros H. induction l1 as [|a l1 IH]; cbn [app for_each].
  - now rewrite H.
  - now rewrite IH.
Qed.

Lemma for_each_first_failure {A B : Type} (f : A -> result B)
    (good rest : list A) (bad : A) (bs : list B) (e : exn) :
  Forall2 (fun a b => f a = Ok b) good bs ->
  f bad = Raise e ->
  for_each f (good ++ bad :: rest) = Raise e.
Proof.
  intros Hgood Hbad. induction Hgood as [|a b good bs Hab _ IH]; cbn [app for_each].
  - now rewrite Hbad.
  - now rewrite Hab, IH.
Qed.

Lemma submission_header_other_key (doc : dict) (v : pyval) :
  submission_header str_repr (dict_set doc "fieldValues" v)
  = submission_header str_repr doc.
Proof. unfold submission_header. now rewrite !dict_get_set. Qed.

Lemma flatten_entry_password_value (d : dict) (v : pyval) :
  eq_str (dict_get d "fieldType" PNone) "password" = true ->
  flatten_entry str_repr (PDict (dict_set d "value" v))
  = flatten_entry str_repr (PDict d).
Proof.
  intros H. apply eq_str_true in H. cbn [flatten_entry].
  rewrite !flatten_field_password; rewrite ?dict_get_set; try assumption;
    try reflexivity.
  unfold shown_name. now rewrite dict_get_set.
Qed.

(** X5.  The flattened text of a submission does not depend on the
    value of a password field: putting any other value into a password
    record of [fieldValues] gives the same result. *)
Theorem flatten_submission_hides_passwords (doc : dict)
    (before after : list pyval) (d : dict) (v : pyval) :
  dict_get doc "fieldValues" (PList []) = PList (before ++ PDict d :: after) ->
  eq_str (dict_get d "fieldType" PNone) "password" = true ->
  flatten_submission str_repr
    (dict_set doc "fieldValues"
       (PList (before ++ PDict (dict_set d "value" v) :: after)))
  = flatten_submission str_repr doc.
Proof.
  intros Hfields Hpw. unfold flatten_submission.
  rewrite submission_header_other_key, dict_get_set, Hfields.
  cbn [String.eqb Ascii.eqb Bool.eqb py_iter mbind result_bind].
  now rewrite (for_each_middle (flatten_entry str_repr) before after _ _
                 (flatten_entry_password_value d v Hpw)).
Qed.

(** X6.  [flatten_submission] raises what the first entry that cannot
    be flattened raises, whatever follows it: in particular an entry
    that is not a dictionary gives an [AttributeError]; and a
    [fieldValues] that is null, a boolean or a number gives a
    [TypeError]. *)
Theorem flatten_submission_failures (doc : dict) :
  (forall (good rest : list pyval) (bad : pyval) (texts : list string) (e : exn),
     dict_get doc "fieldValues" (PList []) = PList (good ++ bad :: rest) ->
     Forall2 (fun entry t => flatten_entry str_repr entry = Ok t) good texts ->
     flatten_entry str_repr bad = Raise e ->
     flatten_submission str_repr doc = Raise e)
  /\ (forall bad : pyval, is_dict bad = false ->
        flatten_entry str_repr bad = Raise AttributeError)
  /\ (is_list (dict_get doc "fieldValues" (PList [])) = false ->
      is_dict (dict_get doc "fieldValues" (PList [])) = false ->
      is_str (dict_get doc "fieldValues" (PList [])) = false ->
      flatten_submission str_repr doc = Raise TypeError).
Proof.
  split; [|split].
  - intros good rest bad texts e Hfields Hgood Hbad.
    unfold flatten_submission. rewrite Hfields. cbn [py_iter mbind result_bind].
    now rewrite (for_each_first_failure _ good rest bad texts e Hgood Hbad).
  - intros bad Hbad. destruct bad; try reflexivity. discriminate.
  - intros Hl Hd Hs. unfold flatten_submission.
    destruct (dict_get doc "fieldValues" (PList [])); try discriminate;
      reflexivity.
Qed.

End FlattenMore.

Lemma flatten_address_field_joins_witness :
  let a := [("line1", PStr "123 Main St"); ("city", PStr "Springfield");
            ("state", PStr "IL"); ("country", PStr "US")] in
  flatten_address_field ascii_repr (PStr "FieldName") a
  = Ok "FieldName: 123 Main St, Springfield, IL".
Proof.
  intros a.
  exact (flatten_address_field_joins ascii_repr (PStr "FieldName") a
           "123 Main St" EmptyString "Springfield" "IL" EmptyString
           eq_refl eq_refl eq_refl eq_refl eq_refl).
Defined.

Lemma flatten_field_placeholders_witness :
  flatten_field ascii_repr
    [("fieldType", PStr "address"); ("fieldName", PStr "Home");
     ("value", PStr "123 Main St")]
  = Ok "Home: [Invalid address data]"
  /\ flatten_field ascii_repr
       [("fieldType", PStr "table"); ("fieldName", PStr "Items")]
     = Ok "Items: [Invalid table data]".
Proof.
  split.
  - exact (proj1 (flatten_field_placeholders ascii_repr
                    [("fieldType", PStr "address"); ("fieldName", PStr "Home");
                     ("value", PStr "123 Main St")]) eq_refl eq_refl).
  - exact (proj1 (proj2 (flatten_field_placeholders ascii_repr
                    [("fieldType", PStr "table"); ("fieldName", PStr "Items")]))
             eq_refl eq_refl).
Defined.

Lemma flatten_location_fallback_iff_witness :
  let equator := [("fieldType", PStr "location"); ("fieldName", PStr "Site");
                  ("value", PDict [("lat", PInt 0); ("lon", PFloat "139.6917")])] in
  flatten_field ascii_repr equator = Ok "Site: (Lat=0, Lon=139.6917)".
Proof.
  intros equator.
  exact (proj2 (flatten_location_fallback_iff ascii_repr equator
                  [("lat", PInt 0); ("lon", PFloat "139.6917")] eq_refl eq_refl)
           eq_refl).
Defined.

Lemma flatten_field_plain_witness :
  flatten_field ascii_repr [("fieldType", PStr "rating"); ("value", PInt 5)]
  = Ok "UnknownField: 5".
Proof.
  apply (flatten_field_plain ascii_repr
           [("fieldType", PStr "rating"); ("value", PInt 5)]).
  intros k Hk. cbn in Hk.
  repeat (destruct Hk as [<-|Hk]; [reflexivity|]). destruct Hk.
Defined.

Lemma flatten_submission_hides_passwords_witness :
  let pin (v : string) :=
    PDict [("fieldType", PStr "password"); ("fieldName", PStr "Pin");
           ("value", PStr v)] in
  let name := PDict [("fieldType", PStr "text"); ("fieldName", PStr "FirstName");
                     ("value", PStr "Alice")] in
  flatten_submission ascii_repr
    [("_id", PStr "result123"); ("fieldValues", PList [name; pin "9999"])]
  = flatten_submission ascii_repr
      [("_id", PStr "result123"); ("fieldValues", PList [name; pin "1234"])].
Proof.
  intros pin name.
  exact (flatten_submission_hides_passwords ascii_repr
           [("_id", PStr "result123"); ("fieldValues", PList [name; pin "1234"])]
           [name] []
           [("fieldType", PStr "password"); ("fieldName", PStr "Pin");
            ("value", PStr "1234")]
           (PStr "9999") eq_refl eq_refl).
Defined.

Lemma flatten_submission_failures_witness :
  let name := PDict [("fieldType", PStr "text"); ("fieldName", PStr "FirstName");
                     ("value", PStr "Alice")] in
  flatten_submission ascii_repr
    [("fieldValues", PList [name; PStr "stray"; name])]
  = Raise AttributeError
  /\ flatten_submission ascii_repr [("fieldValues", PNone)] = Raise TypeError.
Proof.
  intros name. split.
  - apply (proj1 (flatten_submission_failures ascii_repr
                    [("fieldValues", PList [name; PStr "stray"; name])])
             [name] [name] (PStr "stray") ["FirstName: Alice"] AttributeError).
    + reflexivity.
    + repeat constructor.
    + reflexivity.
  - exact (proj2 (proj2 (flatten_submission_failures ascii_repr
                           [("fieldValues", PNone)])) eq_refl eq_refl eq_refl).
Defined.

(** ** More of the index, search and indexing helpers *)

(** Steps that cannot raise. *)
Lemma never_ret {A : Type} (a : A) : never_raises (mret a : io A).
Proof. intros w. reflexivity. Qed.

Lemma never_logging (l : level) (msg : string) : never_raises (logging l msg).
Proof. intros w. reflexivity. Qed.

Lemma never_print (msg : string) : never_raises (print msg).
Proof. intros w. reflexivity. Qed.

Lemma never_bind {A B : Type} (m : io A) (k : A -> io B) :
  never_raises m -> (forall a, never_raises (k a)) -> never_raises (m ≫= k).
Proof.
  intros Hm Hk w. rewrite run_bind. specialize (Hm w).
  destruct (m w) as [[a|e] w']; [apply Hk | discriminate].
Qed.

Lemma never_try_except {A : Type} (m : io A) (h : exn -> io A) :
  (forall e, never_raises (h e)) -> never_raises (try_except m h).
Proof.
  intros Hh w. unfold try_except.
  destruct (m w) as [[a|e] w']; [reflexivity | apply Hh].
Qed.

Lemma never_attempt {A : Type} (m : io A) : never_raises (attempt m).
Proof. intros w. unfold attempt. destruct (m w). reflexivity. Qed.

Lemma never_raises_unit (m : io unit) (w : world) :
  never_raises m -> fst (m w) = Ok tt.
Proof.
  intros H. specialize (H w). destruct (m w) as [[[]|e] w']; [reflexivity|].
  discriminate.
Qed.

(** Steps that only add records to the log. *)
Lemma grows_same_log {A : Type} (m : io A) :
  (forall w : world, log (snd (m w)) = log w) -> grows m.
Proof. intros H w. exists []. now rewrite app_nil_r. Qed.

Lemma grows_ret {A : Type} (a : A) : grows (mret a : io A).
Proof. now apply grows_same_log. Qed.

Lemma grows_raise {A : Type} (e : exn) : grows (raise e : io A).
Proof. now apply grows_same_log. Qed.

Lemma grows_lift {A : Type} (r : result A) : grows (lift r).
Proof. now apply grows_same_log. Qed.

Lemma grows_logging (l : level) (msg : string) : grows (logging l msg).
Proof. intros w. now exists [(l, msg)]. Qed.

Lemma grows_print (msg : string) : grows (print msg).
Proof. now apply grows_same_log. Qed.

Lemma grows_read_file (path : string) : grows (read_file path).
Proof.
  apply grows_same_log. intros w. unfold read_file.
  destruct (files w !! path); reflexivity.
Qed.

Lemma grows_write_file (path content : string) : grows (write_file path content).
Proof. now apply grows_same_log. Qed.

Lemma grows_path_exists (path : string) : grows (path_exists path).
Proof. now apply grows_same_log. Qed.

Lemma grows_bind {A B : Type} (m : io A) (k : A -> io B) :
  grows m -> (forall a, grows (k a)) -> grows (m ≫= k).
Proof.
  intros Hm Hk w. rewrite run_bind. destruct (Hm w) as [r1 H1].
  destruct (m w) as [[a|e] w']; cbn [snd] in *.
  - destruct (Hk a w') as [r2 H2]. exists (r1 ++ r2)%list.
    now rewrite H2, H1, app_assoc.
  - now exists r1.
Qed.

Lemma grows_try_except {A : Type} (m : io A) (h : exn -> io A) :
  grows m -> (forall e, grows (h e)) -> grows (try_except m h).
Proof.
  intros Hm Hh w. unfold try_except. destruct (Hm w) as [r1 H1].
  destruct (m w) as [[a|e] w']; cbn [snd] in *.
  - now exists r1.
  - destruct (Hh e w') as [r2 H2]. exists (r1 ++ r2)%list.
    now rewrite H2, H1, app_assoc.
Qed.

Lemma grows_attempt {A : Type} (m : io A) : grows m -> grows (attempt m).
Proof.
  intros Hm w. unfold attempt. specialize (Hm w).
  destruct (m w) as [r w']. exact Hm.
Qed.

(** Files that are the same are the same apart from the log files. *)
Lemma same_data_of_files (w w' : world) : files w' = files w -> same_data w w'.
Proof. intros H path _. now rewrite H. Qed.

Lemma only_logs_intro {A : Type} (m : io A) :
  keeps_files m -> grows m -> only_logs m.
Proof.
  intros Hfiles Hlog w. split; [apply same_data_of_files, Hfiles | apply Hlog].
Qed.

(** A run that ends in a given state, told by what it leaves. *)
Lemma run_ends {A : Type} (run : result A * world) (w : world) (r : result A)
    (held : gmap string string) (records : list (level * string))
    (printed : list string) :
  run = (r, World held records printed) ->
  held = files w ->
  exists w' : world,
    run = (r, w') /\ same_data w w'
    /\ log w' = records /\ stdout w' = printed.
Proof.
  intros -> ->. eexists. split; [reflexivity|].
  split; [now apply same_data_of_files | split; reflexivity].
Qed.

Section RuntimeMore.

Variable str_repr : string -> string.
Variable exn_text : exn -> string.
Variable json_loads : string -> result pyval.
Variable json_dumps : pyval -> string.
Variable str_strip : string -> string.

Ltac files_step :=
  first
    [ apply keeps_ret | apply keeps_raise | apply keeps_lift
    | apply keeps_logging | apply keeps_print | apply keeps_read_file
    | apply keeps_path_exists | apply keeps_delete_index
    | apply keeps_EmbeddingHelper_init | apply keeps_get_embedding
    | apply keeps_load_submission
    | apply keeps_bind; [|intros ?]
    | apply keeps_try_except; [|intros ?]
    | apply keeps_attempt
    | match goal with
      | |- keeps_files (match ?x with _ => _ end) => destruct x
      end ].

Ltac files_kept := repeat files_step.

Ltac log_step :=
  first
    [ apply grows_ret | apply grows_raise | apply grows_lift
    | apply grows_logging | apply grows_print | apply grows_read_file
    | apply grows_write_file | apply grows_path_exists
    | apply grows_bind; [|intros ?]
    | apply grows_try_except; [|intros ?]
    | apply grows_attempt
    | match goal with
      | |- grows (match ?x with _ => _ end) => destruct x
      end ].

Ltac log_grows := repeat log_step.

Lemma keeps_AzureSearchRESTHelper_init (srv : services) (file : string) :
  keeps_files (AzureSearchRESTHelper_init exn_text json_loads srv file).
Proof. unfold AzureSearchRESTHelper_init. files_kept. Qed.

Lemma keeps_create_or_update_index (srv : services) (self : AzureSearchRESTHelper) :
  keeps_files (create_or_update_index str_repr json_loads srv self).
Proof. unfold create_or_update_index. files_kept. Qed.

(** *** The index manager *)

(** X7.  Constructing the index helper: it raises a [ValueError] when
    the endpoint or the key is unset or empty, before it looks at the
    definition file; a [FileNotFoundError] naming the file when the file
    is missing; a [ValueError] naming the file when the file is not
    JSON; and otherwise returns the helper with the decoded definition,
    the index name of the environment or [knowledge-index], and API
    version 2024-07-01. *)
Theorem azure_helper_init_outcomes (srv : services) (file : string) (w : world) :
  let configured := truthy_env (getenv srv "ACS_ENDPOINT")
                    && truthy_env (getenv srv "ACS_API_KEY") in
  let init := AzureSearchRESTHelper_init exn_text json_loads srv file in
  (configured = false ->
   let msg := "Azure Cognitive Search configuration is incomplete. Please check your local.env file." in
   init w = (Raise (ValueError msg),
             World (files w) (log w ++ [(ERROR, msg)]) (stdout w)))
  /\ (configured = true -> files w !! file = None ->
      fst (init w)
      = Raise (FileNotFoundError ("Index definition file '" +:+ file
                                  +:+ "' not found.")))
  /\ (forall content detail : string,
        configured = true -> files w !! file = Some content ->
        json_loads content = Raise (JSONDecodeError detail) ->
        fst (init w)
        = Raise (ValueError ("Error decoding JSON from '" +:+ file +:+ "': "
                             +:+ exn_text (JSONDecodeError detail))))
  /\ (forall (content : string) (definition : pyval),
        configured = true -> files w !! file = Some content ->
        json_loads content = Ok definition ->
        fst (init w)
        = Ok (AzureHelper (default EmptyString (getenv srv "ACS_ENDPOINT"))
                (default EmptyString (getenv srv "ACS_API_KEY"))
                (getenv_default srv "ACS_INDEX_NAME" "knowledge-index")
                "2024-07-01" file definition)).
Proof.
  intros configured init. unfold init, AzureSearchRESTHelper_init.
  fold configured. split; [|split; [|split]].
  - intros ->. reflexivity.
  - intros -> Hnone. cbn [negb]. unfold try_except.
    rewrite run_bind. unfold read_file. rewrite Hnone. reflexivity.
  - intros content detail -> Hsome Hbad. cbn [negb]. unfold try_except.
    rewrite run_bind. unfold read_file. rewrite Hsome.
    rewrite run_bind. unfold lift. rewrite Hbad. reflexivity.
  - intros content definition -> Hsome Hgood. cbn [negb]. unfold try_except.
    rewrite run_bind. unfold read_file. rewrite Hsome.
    rewrite run_bind. unfold lift. rewrite Hgood. reflexivity.
Qed.

(** X8.  [create_or_update_index] returns on status 200 and on status
    201, after logging and printing that the index was created or
    updated; on every other status, 204 included, it raises, with the
    body text as message when the body is not JSON; and an error of the
    transport is passed on as it is, with nothing logged. *)
Theorem create_or_update_index_by_status (srv : services)
    (self : AzureSearchRESTHelper) (w : world) :
  let create := create_or_update_index str_repr json_loads srv self in
  (forall resp : response,
     http_send srv (create_request self) = Ok resp ->
     status_code resp = 200 \/ status_code resp = 201 ->
     create w
     = (Ok tt,
        World (files w)
          (log w ++ [(INFO, "Index '" +:+ az_index_name self
                            +:+ "' created/updated successfully.")])
          (stdout w ++ ["Index '" +:+ az_index_name self
                        +:+ "' created/updated successfully."])))
  /\ (forall resp : response,
        http_send srv (create_request self) = Ok resp ->
        status_code resp <> 200 -> status_code resp <> 201 ->
        is_ok (fst (create w)) = false
        /\ forall detail : string,
             json_loads (text resp) = Raise (JSONDecodeError detail) ->
             let msg := "Failed to create/update index '" +:+ az_index_name self
                        +:+ "': " +:+ text resp in
             create w
             = (Raise (Exception msg),
                World (files w) (log w ++ [(ERROR, msg)]) (stdout w)))
  /\ (forall e : exn,
        http_send srv (create_request self) = Raise e ->
        create w = (Raise e, w)).
Proof.
  intros create. unfold create, create_or_update_index.
  fold (create_request self). split; [|split].
  - intros resp Hsend Hst. rewrite Hsend, run_bind. unfold lift.
    destruct Hst as [-> | ->]; reflexivity.
  - intros resp Hsend H200 H201. rewrite Hsend, run_bind. unfold lift.
    destruct (Z.eqb_spec (status_code resp) 200) as [|_]; [contradiction|].
    destruct (Z.eqb_spec (status_code resp) 201) as [|_]; [contradiction|].
    cbn [orb]. rewrite run_bind. split.
    + destruct (error_message_of json_loads resp (text resp)); reflexivity.
    + intros detail Hbad.
      rewrite (error_message_of_not_json json_loads resp (text resp) detail Hbad).
      reflexivity.
  - intros e Hsend. rewrite Hsend, run_bind. reflexivity.
Qed.

Lemma grows_AzureSearchRESTHelper_init (srv : services) (file : string) :
  grows (AzureSearchRESTHelper_init exn_text json_loads srv file).
Proof. unfold AzureSearchRESTHelper_init. log_grows. Qed.

Lemma grows_create_or_update_index (srv : services) (self : AzureSearchRESTHelper) :
  grows (create_or_update_index str_repr json_loads srv self).
Proof. unfold create_or_update_index. log_grows. Qed.

Lemma grows_delete_index (srv : services) (self : AzureSearchRESTHelper) :
  grows (delete_index str_repr json_loads srv self).
Proof. unfold delete_index. log_grows. Qed.


(** *** The search, embedding and indexing helpers *)

Lemma dict_get_lookup (d : dict) (key : string) (v default : pyval) :
  dict_lookup d key = Some v -> dict_get d key default = v.
Proof.
  induction d as [|[k x] d IH]; cbn [dict_lookup dict_get]; [discriminate|].
  destruct (String.eqb k key); [now intros [= ->] | exact IH].
Qed.

Lemma raise_for_status_error (url : string) (resp : response) :
  is_error_status (status_code resp) = true ->
  exists msg : string, raise_for_status url resp = Raise (HTTPError msg).
Proof.
  unfold is_error_status, raise_for_status.
  destruct (Z.leb_spec 400 (status_code resp)),
           (Z.ltb_spec (status_code resp) 500),
           (Z.leb_spec 500 (status_code resp)),
           (Z.ltb_spec (status_code resp) 600);
    cbn [andb]; intros Hst; try discriminate; try lia; eauto.
Qed.

Lemma raise_for_status_ok (url : string) (resp : response) :
  is_error_status (status_code resp) = false ->
  raise_for_status url resp = Ok tt.
Proof.
  unfold is_error_status, raise_for_status.
  destruct (Z.leb_spec 400 (status_code resp)),
           (Z.ltb_spec (status_code resp) 500),
           (Z.leb_spec 500 (status_code resp)),
           (Z.ltb_spec (status_code resp) 600);
    cbn [andb]; intros Hst; try discriminate; try lia; reflexivity.
Qed.

(** X10.  The outcomes of [vector_search].  An error of the transport
    is logged and passed on as it is.  On a status from 400 to 599 the
    search never returns; when the body is a JSON object with a
    [message] under [error], it raises an [Exception] with that message.
    On any other status, when the body is a JSON object whose [value]
    (the empty list if absent) has a length, it returns the decoded body
    as it is and logs the number of documents. *)
Theorem vector_search_outcomes (srv : services) (self : SearchHelper)
    (embedding : pyval) (top_k : Z) (user_id : option string) (w : world) :
  let search := vector_search str_repr exn_text json_loads srv self embedding
                  top_k user_id in
  let request := search_request self embedding top_k user_id in
  (forall msg : string,
     http_send srv request = Raise (ServiceError msg) ->
     search w
     = (Raise (ServiceError msg),
        World (files w)
          (log w ++ [(ERROR, "Error during vector search: "
                             +:+ exn_text (ServiceError msg))])
          (stdout w)))
  /\ (forall resp : response,
        http_send srv request = Ok resp ->
        is_error_status (status_code resp) = true ->
        is_ok (fst (search w)) = false
        /\ forall (body err : dict) (m : pyval),
             json_loads (text resp) = Ok (PDict body) ->
             dict_get body "error" (PDict []) = PDict err ->
             dict_lookup err "message" = Some m ->
             fst (search w)
             = Raise (Exception ("HTTP error during vector search: "
                                 +:+ py_str str_repr m)))
  /\ (forall (resp : response) (body : dict) (n : Z),
        http_send srv request = Ok resp ->
        is_error_status (status_code resp) = false ->
        json_loads (text resp) = Ok (PDict body) ->
        py_len (dict_get body "value" (PList [])) = Ok n ->
        search w
        = (Ok (PDict body),
           World (files w)
             (log w ++ [(INFO, "Vector search successful. Retrieved "
                               +:+ pretty n +:+ " documents.")])
             (stdout w))).
Proof.
  intros search request. unfold search, vector_search.
  fold (search_request self embedding top_k user_id). fold request.
  split; [|split].
  - intros msg ->. reflexivity.
  - intros resp -> Hst.
    destruct (raise_for_status_error (req_url request) resp Hst) as [msg Hmsg].
    change (sh_endpoint self +:+ "/indexes('" +:+ sh_index_name self
            +:+ "')/docs/search.post.search?api-version=" +:+ sh_api_version self)
      with (req_url request).
    rewrite Hmsg. cbn [mbind result_bind]. rewrite run_bind. unfold lift.
    split.
    + destruct (error_message_of json_loads resp msg); reflexivity.
    + intros body err m Hbody Herr Hm.
      rewrite (error_message_of_object json_loads resp msg body err Hbody Herr).
      rewrite (dict_get_lookup err "message" m (PStr msg) Hm). reflexivity.
  - intros resp body n -> Hst Hbody Hlen.
    change (sh_endpoint self +:+ "/indexes('" +:+ sh_index_name self
            +:+ "')/docs/search.post.search?api-version=" +:+ sh_api_version self)
      with (req_url request).
    rewrite (raise_for_status_ok _ resp Hst). cbn [mbind result_bind].
    rewrite Hbody. cbn [mbind result_bind get_method]. rewrite Hlen.
    reflexivity.
Qed.

(** X11.  What each helper needs from the environment.  The search
    helper and the indexing helper need a non-empty [ACS_ENDPOINT] and
    [ACS_API_KEY]; the search helper falls back to the index
    [knowledge-index] when [ACS_INDEX_NAME] is unset, whereas the
    indexing helper then raises; the embedding helper needs a non-empty
    [AZURE_OPENAI_ENDPOINT] and [AZURE_OPENAI_API_KEY], and its engine
    must not be set to the empty name. *)
Theorem helpers_configuration (srv : services) (w : world) :
  is_ok (fst (SearchHelper_init srv w))
  = truthy_env (getenv srv "ACS_ENDPOINT") && truthy_env (getenv srv "ACS_API_KEY")
    && nonempty (getenv_default srv "ACS_INDEX_NAME" "knowledge-index")
  /\ is_ok (fst (IndexingHelper_init srv w))
     = truthy_env (getenv srv "ACS_ENDPOINT")
       && truthy_env (getenv srv "ACS_API_KEY")
       && truthy_env (getenv srv "ACS_INDEX_NAME")
  /\ is_ok (fst (EmbeddingHelper_init srv w))
     = truthy_env (getenv srv "AZURE_OPENAI_ENDPOINT")
       && truthy_env (getenv srv "AZURE_OPENAI_API_KEY")
       && nonempty (getenv_default srv "AZURE_OPENAI_ENGINE"
                      "text-embedding-ada-002")
  /\ (getenv srv "ACS_INDEX_NAME" = None ->
      truthy_env (getenv srv "ACS_ENDPOINT")
      && truthy_env (getenv srv "ACS_API_KEY") = true ->
      (exists self : SearchHelper,
         fst (SearchHelper_init srv w) = Ok self
         /\ sh_index_name self = "knowledge-index")
      /\ fst (IndexingHelper_init srv w)
         = Raise (ValueError "Azure Cognitive Search configuration is incomplete. Please check your .env file.")).
Proof.
  split; [|split; [|split]].
  - unfold SearchHelper_init, truthy_env, nonempty.
    destruct (getenv srv "ACS_ENDPOINT") as [e|],
             (getenv srv "ACS_API_KEY") as [k|]; cbn [truthy andb];
      try reflexivity.
    + destruct (negb (String.eqb e EmptyString)
                && negb (String.eqb k EmptyString)
                && negb (String.eqb (getenv_default srv "ACS_INDEX_NAME"
                                       "knowledge-index") EmptyString));
        reflexivity.
    + now rewrite andb_false_r.
  - unfold IndexingHelper_init.
    destruct (truthy_env (getenv srv "ACS_ENDPOINT")
              && truthy_env (getenv srv "ACS_API_KEY")
              && truthy_env (getenv srv "ACS_INDEX_NAME")); reflexivity.
  - unfold EmbeddingHelper_init, truthy_env, nonempty.
    destruct (getenv srv "AZURE_OPENAI_ENDPOINT") as [b|],
             (getenv srv "AZURE_OPENAI_API_KEY") as [k|]; cbn [truthy andb];
      try reflexivity.
    + destruct (negb (String.eqb b EmptyString)
                && negb (String.eqb k EmptyString)
                && negb (String.eqb (getenv_default srv "AZURE_OPENAI_ENGINE"
                                       "text-embedding-ada-002") EmptyString));
        reflexivity.
    + now rewrite andb_false_r.
  - intros Hname Hconf. split.
    + unfold SearchHelper_init, getenv_default. rewrite Hname.
      unfold truthy_env in Hconf.
      destruct (getenv srv "ACS_ENDPOINT") as [e|]; [|discriminate].
      destruct (getenv srv "ACS_API_KEY") as [k|];
        [|now rewrite andb_false_r in Hconf].
      rewrite Hconf. cbn. eauto.
    + unfold IndexingHelper_init. rewrite Hname, Hconf. reflexivity.
Qed.

Lemma index_document_returns (srv : services) (self : IndexingHelper)
    (doc_id user_id folder_id document_id : pyval) (doc_type content_text : string)
    (embedding_vector : pyval) (metadata : string) (resp : response) (w : world) :
  http_send srv (index_request self doc_id user_id folder_id document_id
                   doc_type content_text embedding_vector metadata) = Ok resp ->
  is_error_status (status_code resp) = false ->
  index_document str_repr exn_text srv self doc_id user_id folder_id document_id
    doc_type content_text embedding_vector metadata w
  = (Ok tt,
     World (files w) (log w)
       (stdout w ++ ["Successfully indexed document ID: "
                     +:+ py_str str_repr doc_id])).
Proof.
  intros Hsend Hst. unfold index_document.
  fold (index_request self doc_id user_id folder_id document_id doc_type
          content_text embedding_vector metadata).
  unfold try_except. rewrite Hsend. rewrite run_bind. unfold lift at 1.
  rewrite run_bind. unfold lift at 1.
  rewrite (raise_for_status_ok _ resp Hst). reflexivity.
Qed.

(** X12.  The outcomes of [index_document], which posts one document
    with the action [upload].  On every status outside 400 to 599 it
    returns after printing that the document was indexed; on a status
    from 400 to 599 it prints the failure and raises the [HTTPError] of
    [raise_for_status]; an error of the transport is printed and passed
    on as it is.  Nothing is logged. *)
Theorem index_document_outcomes (srv : services) (self : IndexingHelper)
    (doc_id user_id folder_id document_id : pyval) (doc_type content_text : string)
    (embedding_vector : pyval) (metadata : string) (w : world) :
  let upload := index_document str_repr exn_text srv self doc_id user_id
                  folder_id document_id doc_type content_text embedding_vector
                  metadata in
  let request := index_request self doc_id user_id folder_id document_id
                   doc_type content_text embedding_vector metadata in
  let failure (e : exn) :=
    (Raise e : result unit,
     World (files w) (log w)
       (stdout w ++ ["Failed to index document ID: " +:+ py_str str_repr doc_id
                     +:+ ". Error: " +:+ exn_str exn_text e])) in
  (forall resp : response,
     http_send srv request = Ok resp ->
     is_error_status (status_code resp) = false ->
     upload w
     = (Ok tt,
        World (files w) (log w)
          (stdout w ++ ["Successfully indexed document ID: "
                        +:+ py_str str_repr doc_id])))
  /\ (forall resp : response,
        http_send srv request = Ok resp ->
        is_error_status (status_code resp) = true ->
        exists msg : string, upload w = failure (HTTPError msg))
  /\ (forall msg : string,
        http_send srv request = Raise (ServiceError msg) ->
        upload w = failure (ServiceError msg)).
Proof.
  intros upload request failure. unfold upload, index_document.
  fold (index_request self doc_id user_id folder_id document_id doc_type
          content_text embedding_vector metadata). fold request.
  unfold try_except. split; [|split].
  - intros resp Hsend Hst.
    exact (index_document_returns srv self doc_id user_id folder_id document_id
             doc_type content_text embedding_vector metadata resp w Hsend Hst).
  - intros resp -> Hst. rewrite run_bind. unfold lift at 1.
    rewrite run_bind. unfold lift at 1.
    destruct (raise_for_status_error (index_url_of self) resp Hst) as [msg ->].
    exists msg. reflexivity.
  - intros msg ->. reflexivity.
Qed.

(** *** The query orchestrator *)

(** X13.  [process_results_with_openai_chat] returns from every state
    and changes no file but the log file.  On a history that is a list
    it appends the user query, and the answer after it exactly when the
    steps up to the stripped answer succeed; otherwise the answer
    returned is the apology and the history keeps the user query
    without an answer. *)
Theorem chat_step_always_returns (srv : services) (results : pyval)
    (user_query : string) (history : pyval) (w : world) :
  exists (answer : string) (history' : pyval) (w' : world),
    returns (process_results_with_openai_chat exn_text str_strip srv results
               user_query history) w (answer, history') w'
    /\ same_data w w'
    /\ forall l : list pyval,
         history = PList l ->
         (answer = "I'm sorry, I couldn't generate a response at this time."
          /\ history' = PList (l ++ [message "user" user_query])
          /\ is_ok (chat_answer str_strip srv results
                      (PList (l ++ [message "user" user_query]))) = false)
         \/ (exists a : string,
               chat_answer str_strip srv results
                 (PList (l ++ [message "user" user_query])) = Ok a
               /\ answer = a
               /\ history' = PList (l ++ [message "user" user_query;
                                          message "assistant" a])).
Proof.
  destruct (process_results_outcome exn_text str_strip srv results user_query
              history w) as (answer & history' & w' & Hrun & Hlist & _).
  exists answer, history', w'. split; [exact Hrun|]. split.
  - apply same_data_of_files.
    eapply returns_keeps; [apply keeps_process_results | exact Hrun].
  - intros l Hl. specialize (Hlist l Hl).
    destruct (chat_answer str_strip srv results
                (PList (l ++ [message "user" user_query]))) as [a|e].
    + right. exists a. destruct Hlist as [Ha Hh].
      split; [reflexivity | split; [exact Ha | exact Hh]].
    + left. destruct Hlist as [Ha Hh].
      split; [exact Ha | split; [exact Hh | reflexivity]].
Qed.

(** Steps that leave the other files alone. *)
Lemma others_of_keeps {A : Type} (m : io A) :
  keeps_files m -> keeps_other_files m.
Proof. intros H w path _ _. now rewrite H. Qed.

Lemma others_bind {A B : Type} (m : io A) (k : A -> io B) :
  keeps_other_files m -> (forall a, keeps_other_files (k a)) ->
  keeps_other_files (m ≫= k).
Proof.
  intros Hm Hk w path Hpath Hlog. rewrite run_bind.
  specialize (Hm w path Hpath Hlog).
  destruct (m w) as [[a|e] w']; cbn [snd] in *.
  - now rewrite (Hk a w' path Hpath Hlog).
  - exact Hm.
Qed.

Lemma others_try_except {A : Type} (m : io A) (h : exn -> io A) :
  keeps_other_files m -> (forall e, keeps_other_files (h e)) ->
  keeps_other_files (try_except m h).
Proof.
  intros Hm Hh w path Hpath Hlog. unfold try_except.
  specialize (Hm w path Hpath Hlog).
  destruct (m w) as [[a|e] w']; cbn [snd] in *.
  - exact Hm.
  - now rewrite (Hh e w' path Hpath Hlog).
Qed.

Lemma others_save_conversation_history (history : pyval) :
  keeps_other_files (save_conversation_history exn_text json_dumps history).
Proof.
  intros w path Hpath _. rewrite save_conversation_history_writes.
  cbn [snd files]. now apply lookup_insert_ne.
Qed.

(** X14.  The query orchestrator changes no file but the conversation
    history and the log file: after [main], returned or raised, every
    path that is neither the history file nor a log file holds what it
    held before. *)
Theorem main_keeps_other_files (srv : services) :
  keeps_other_files
    (main str_repr exn_text json_loads json_dumps str_strip srv).
Proof.
  unfold main.
  repeat first
    [ apply others_save_conversation_history
    | apply others_of_keeps;
      first [ apply keeps_EmbeddingHelper_init | apply keeps_SearchHelper_init
            | apply keeps_load_conversation_history
            | apply keeps_display_documents
            | apply keeps_attempt; files_kept;
              first [ apply keeps_get_user_query | apply keeps_vector_search ]
            | apply keeps_try_except;
              [ files_kept; apply keeps_process_results | intros ?; files_kept ]
            | unfold load_env; files_kept; fail ]
    | apply others_bind; [|intros ?]
    | match goal with
      | |- keeps_other_files (match ?x with _ => _ end) => destruct x
      end ].
Qed.

(** X15.  [load_conversation_history] returns from every state,
    whatever the history file holds, and changes no file but the log
    file, to which it appends. *)
Theorem load_conversation_history_total :
  never_raises (load_conversation_history exn_text json_loads)
  /\ only_logs (load_conversation_history exn_text json_loads).
Proof.
  split.
  - unfold load_conversation_history. apply never_try_except.
    intros e. apply never_bind; [apply never_logging | intros ?; apply never_ret].
  - apply only_logs_intro; [apply keeps_load_conversation_history|].
    unfold load_conversation_history. log_grows.
Qed.

Ltac run_step H := rewrite run_bind, H; cbv beta iota.

Ltac run_attempt H :=
  rewrite run_bind; unfold attempt at 1; rewrite H; cbv beta iota.

(** The run of [main] up to the search: the state it reaches and the
    files, which are those of the start. *)
Lemma main_until_search (srv : services) (w w1 w2 w3 w4 w5 w6 : world)
    (embedder : EmbeddingHelper) (searcher : SearchHelper)
    (history : pyval) (user_query : string) (embedding documents : pyval) :
  returns (load_env;; EmbeddingHelper_init srv) w embedder w1 ->
  returns (SearchHelper_init srv) w1 searcher w2 ->
  returns (load_conversation_history exn_text json_loads) w2 history w3 ->
  returns (get_user_query exn_text str_strip "RAG/query.txt") w3 user_query w4 ->
  returns (get_embedding exn_text srv embedder user_query) w4 embedding w5 ->
  returns (search_results ←
             vector_search str_repr exn_text json_loads srv searcher embedding 5
               (Some (getenv_default srv "CURRENT_USER_ID" "userXYZ"));
           lift (get_method search_results "value" (PList [])))
          w5 documents w6 ->
  files w6 = files w
  /\ main str_repr exn_text json_loads json_dumps str_strip srv w
     = (if negb (truthy documents) then print "No relevant documents found."
        else
          print (nl +:+ "Top Relevant Documents:");;
          docs ← lift (py_iter documents);
          display_documents str_repr 1 docs;;
          history' ← try_except
            (answered ← process_results_with_openai_chat exn_text str_strip srv
                          documents user_query history;
             print (nl +:+ "Answer:" +:+ nl +:+ fst answered);;
             mret (snd answered))
            (fun e =>
               logging ERROR
                 ("Failed to generate answer with OpenAI Chat Completion: "
                  +:+ exn_str exn_text e);;
               print "Error generating answer. Please try again later.";;
               mret history);
          save_conversation_history exn_text json_dumps history') w6.
Proof.
  intros Hinit Hsearcher Hload Hquery Hembed Hsearch. split.
  - transitivity (files w5);
      [eapply returns_keeps; [|exact Hsearch]; files_kept;
       apply keeps_vector_search|].
    transitivity (files w4);
      [eapply returns_keeps; [apply keeps_get_embedding | exact Hembed]|].
    transitivity (files w3);
      [eapply returns_keeps; [apply keeps_get_user_query | exact Hquery]|].
    transitivity (files w2);
      [eapply returns_keeps; [apply keeps_load_conversation_history
                             | exact Hload]|].
    transitivity (files w1);
      [eapply returns_keeps; [apply keeps_SearchHelper_init | exact Hsearcher]|].
    eapply returns_keeps; [|exact Hinit].
    unfold load_env. files_kept.
  - unfold returns in *.
    rewrite run_bind in Hinit. unfold load_env in Hinit.
    rewrite run_logging in Hinit. cbv beta iota in Hinit.
    unfold main, load_env. rewrite run_bind, run_logging. cbv beta iota.
    run_step Hinit. run_step Hsearcher. run_step Hload.
    run_attempt Hquery. run_attempt Hembed. run_attempt Hsearch.
    reflexivity.
Qed.

(** The run of [main] when the search returns no documents. *)
Lemma main_without_documents_run (srv : services) (w w1 w2 w3 w4 w5 w6 : world)
    (embedder : EmbeddingHelper) (searcher : SearchHelper)
    (history : pyval) (user_query : string) (embedding documents : pyval) :
  returns (load_env;; EmbeddingHelper_init srv) w embedder w1 ->
  returns (SearchHelper_init srv) w1 searcher w2 ->
  returns (load_conversation_history exn_text json_loads) w2 history w3 ->
  returns (get_user_query exn_text str_strip "RAG/query.txt") w3 user_query w4 ->
  returns (get_embedding exn_text srv embedder user_query) w4 embedding w5 ->
  returns (search_results ←
             vector_search str_repr exn_text json_loads srv searcher embedding 5
               (Some (getenv_default srv "CURRENT_USER_ID" "userXYZ"));
           lift (get_method search_results "value" (PList [])))
          w5 documents w6 ->
  truthy documents = false ->
  let final : result unit * world :=
    (Ok tt,
     World (files w) (log w6) (stdout w6 ++ ["No relevant documents found."])) in
  main str_repr exn_text json_loads json_dumps str_strip srv w = final
  /\ forall chat : string -> list pyval -> result pyval,
       main str_repr exn_text json_loads json_dumps str_strip
         (with_network srv (http_send srv) chat) w = final.
Proof.
  intros Hinit Hsearcher Hload Hquery Hembed Hsearch Hfalsy final. split.
  - destruct (main_until_search srv w w1 w2 w3 w4 w5 w6 embedder searcher
                history user_query embedding documents Hinit Hsearcher Hload
                Hquery Hembed Hsearch) as [Hfiles ->].
    rewrite Hfalsy. cbn [negb]. rewrite run_print, Hfiles. reflexivity.
  - intros chat.
    destruct (main_until_search (with_network srv (http_send srv) chat)
                w w1 w2 w3 w4 w5 w6 embedder searcher history user_query
                embedding documents Hinit Hsearcher Hload Hquery Hembed Hsearch)
      as [Hfiles ->].
    rewrite Hfalsy. cbn [negb]. rewrite run_print, Hfiles. reflexivity.
Qed.

(** X16.  When the search returns no documents (an empty or absent
    [value]), [main] prints that none were found and returns: the
    history file is not written, no file but the log file is changed,
    nothing is logged after the search, and the chat service plays no
    part in the outcome. *)
Theorem main_without_documents (srv : services) (w w1 w2 w3 w4 w5 w6 : world)
    (embedder : EmbeddingHelper) (searcher : SearchHelper)
    (history : pyval) (user_query : string) (embedding documents : pyval) :
  returns (load_env;; EmbeddingHelper_init srv) w embedder w1 ->
  returns (SearchHelper_init srv) w1 searcher w2 ->
  returns (load_conversation_history exn_text json_loads) w2 history w3 ->
  returns (get_user_query exn_text str_strip "RAG/query.txt") w3 user_query w4 ->
  returns (get_embedding exn_text srv embedder user_query) w4 embedding w5 ->
  returns (search_results ←
             vector_search str_repr exn_text json_loads srv searcher embedding 5
               (Some (getenv_default srv "CURRENT_USER_ID" "userXYZ"));
           lift (get_method search_results "value" (PList [])))
          w5 documents w6 ->
  truthy documents = false ->
  exists w' : world,
    main str_repr exn_text json_loads json_dumps str_strip srv w = (Ok tt, w')
    /\ same_data w w'
    /\ files w' !! CONVERSATION_HISTORY_FILE = files w !! CONVERSATION_HISTORY_FILE
    /\ log w' = log w6
    /\ stdout w' = (stdout w6 ++ ["No relevant documents found."])%list
    /\ forall chat : string -> list pyval -> result pyval,
         main str_repr exn_text json_loads json_dumps str_strip
           (with_network srv (http_send srv) chat) w = (Ok tt, w').
Proof.
  intros Hinit Hsearcher Hload Hquery Hembed Hsearch Hfalsy.
  destruct (main_without_documents_run srv w w1 w2 w3 w4 w5 w6 embedder searcher
              history user_query embedding documents Hinit Hsearcher Hload
              Hquery Hembed Hsearch Hfalsy) as [Hrun Hchat].
  eexists. split; [exact Hrun|].
  split; [now apply same_data_of_files|].
  split; [reflexivity|]. split; [reflexivity|]. split; [reflexivity|].
  exact Hchat.
Qed.

(** X17.  An exception in the loop that prints the retrieved
    documents (a document without [id], [type], [content] or
    [metadata], or one that is not a dictionary) is not caught: [main]
    raises it where the loop raised it, so that the history file is
    not written and no file but the log file is changed. *)
Theorem main_display_failure (srv : services) (w w1 w2 w3 w4 w5 w6 w7 : world)
    (embedder : EmbeddingHelper) (searcher : SearchHelper)
    (history : pyval) (user_query : string) (embedding documents : pyval)
    (docs : list pyval) (e : exn) :
  returns (load_env;; EmbeddingHelper_init srv) w embedder w1 ->
  returns (SearchHelper_init srv) w1 searcher w2 ->
  returns (load_conversation_history exn_text json_loads) w2 history w3 ->
  returns (get_user_query exn_text str_strip "RAG/query.txt") w3 user_query w4 ->
  returns (get_embedding exn_text srv embedder user_query) w4 embedding w5 ->
  returns (search_results ←
             vector_search str_repr exn_text json_loads srv searcher embedding 5
               (Some (getenv_default srv "CURRENT_USER_ID" "userXYZ"));
           lift (get_method search_results "value" (PList [])))
          w5 documents w6 ->
  truthy documents = true ->
  py_iter documents = Ok docs ->
  (print (nl +:+ "Top Relevant Documents:");;
   display_documents str_repr 1 docs) w6 = (Raise e, w7) ->
  main str_repr exn_text json_loads json_dumps str_strip srv w = (Raise e, w7)
  /\ same_data w w7
  /\ files w7 !! CONVERSATION_HISTORY_FILE = files w !! CONVERSATION_HISTORY_FILE.
Proof.
  intros Hinit Hsearcher Hload Hquery Hembed Hsearch Htruthy Hiter Hshow.
  destruct (main_until_search srv w w1 w2 w3 w4 w5 w6 embedder searcher history
              user_query embedding documents Hinit Hsearcher Hload Hquery Hembed
              Hsearch) as [Hfiles ->].
  assert (Hfiles7 : files w7 = files w).
  { rewrite <- Hfiles.
    assert (Hkeeps : keeps_files (print (nl +:+ "Top Relevant Documents:");;
                                  display_documents str_repr 1 docs))
      by (files_kept; apply keeps_display_documents).
    specialize (Hkeeps w6). now rewrite Hshow in Hkeeps. }
  split; [|split; [now apply same_data_of_files | now rewrite Hfiles7]].
  rewrite Htruthy. cbn [negb].
  rewrite run_bind in Hshow. rewrite run_print in Hshow.
  cbv beta iota in Hshow.
  rewrite run_bind, run_print. cbv beta iota.
  rewrite run_bind. unfold lift at 1. rewrite Hiter. cbv beta iota.
  rewrite run_bind, Hshow. reflexivity.
Qed.

(** *** The entry point of [main.py] *)

Lemma keeps_IndexingHelper_init (srv : services) :
  keeps_files (IndexingHelper_init srv).
Proof. unfold IndexingHelper_init. files_kept. Qed.

Lemma keeps_index_document (srv : services) (self : IndexingHelper)
    (doc_id user_id folder_id document_id : pyval) (doc_type content_text : string)
    (embedding_vector : pyval) (metadata : string) :
  keeps_files (index_document str_repr exn_text srv self doc_id user_id folder_id
                 document_id doc_type content_text embedding_vector metadata).
Proof. unfold index_document. files_kept. Qed.

Lemma keeps_embed_summary (srv : services) (text_summary : string) :
  keeps_files (embed_summary exn_text srv text_summary).
Proof. unfold embed_summary. files_kept. Qed.

Lemma keeps_index_submission (srv : services) (submission : pyval)
    (text_summary : string) (embedding_vector : pyval) :
  keeps_files (index_submission str_repr exn_text srv submission text_summary
                 embedding_vector).
Proof.
  unfold index_submission. files_kept;
    first [apply keeps_IndexingHelper_init | apply keeps_index_document].
Qed.

Lemma grows_index_submission (srv : services) (submission : pyval)
    (text_summary : string) (embedding_vector : pyval) :
  grows (index_submission str_repr exn_text srv submission text_summary
           embedding_vector).
Proof.
  unfold index_submission, IndexingHelper_init, index_document. log_grows.
Qed.

Lemma grows_embed_summary (srv : services) (text_summary : string) :
  grows (embed_summary exn_text srv text_summary).
Proof. unfold embed_summary, EmbeddingHelper_init, get_embedding. log_grows. Qed.


(** X19.  When the submission file cannot be loaded, or what it holds
    cannot be flattened, [main] of [main.py] logs and prints the error
    with its text and returns; the outcome is the same for every
    environment and for every reply of the services. *)
Theorem submission_main_stops_early (srv : services) (w : world) :
  (forall (e : exn) (w1 : world),
     load_submission exn_text json_loads SUBMISSION_FILE w = (Raise e, w1) ->
     submission_main str_repr exn_text json_loads srv w
     = (Ok tt,
        World (files w1)
          (log w1 ++ [(ERROR, "Error loading submission: "
                              +:+ exn_str exn_text e)])
          (stdout w1 ++ ["Error loading submission: " +:+ exn_str exn_text e])))
  /\ (forall (submission : pyval) (e : exn) (w1 : world),
        returns (load_submission exn_text json_loads SUBMISSION_FILE) w
          submission w1 ->
        flatten_loaded str_repr submission = Raise e ->
        submission_main str_repr exn_text json_loads srv w
        = (Ok tt,
           World (files w1)
             (log w1 ++ [(ERROR, "Error flattening submission: "
                                 +:+ exn_str exn_text e)])
             (stdout w1 ++ ["Error flattening submission: "
                            +:+ exn_str exn_text e]))).
Proof.
  split.
  - intros e w1 Hload. unfold submission_main.
    run_attempt Hload. reflexivity.
  - intros submission e w1 Hload Hflat. unfold returns in Hload.
    unfold submission_main. run_attempt Hload. rewrite Hflat. reflexivity.
Qed.

(** The run of [main] of [main.py] up to the indexing step. *)
Lemma submission_main_until_index (srv : services) (w w1 w2 : world)
    (submission : pyval) (text_summary : string) (embedding_vector : pyval) :
  returns (load_submission exn_text json_loads SUBMISSION_FILE) w submission w1 ->
  flatten_loaded str_repr submission = Ok text_summary ->
  returns (embed_summary exn_text srv text_summary) (announced text_summary w1)
    embedding_vector w2 ->
  files w2 = files w
  /\ submission_main str_repr exn_text json_loads srv w
     = try_except
         (index_submission str_repr exn_text srv submission text_summary
            embedding_vector)
         (fun e =>
            logging ERROR ("Error indexing document: " +:+ exn_str exn_text e);;
            print ("Error indexing document: " +:+ exn_str exn_text e)) w2.
Proof.
  intros Hload Hflat Hembed. split.
  - transitivity (files (announced text_summary w1));
      [eapply returns_keeps; [apply keeps_embed_summary | exact Hembed]|].
    cbn [announced files].
    eapply returns_keeps; [apply keeps_load_submission | exact Hload].
  - unfold returns, announced in *. unfold submission_main.
    run_attempt Hload. rewrite Hflat.
    rewrite run_bind, run_logging. cbv beta iota.
    rewrite run_bind, run_logging. cbv beta iota.
    rewrite run_bind, run_print. cbv beta iota.
    rewrite run_bind, run_print. cbv beta iota.
    rewrite run_bind, run_print. cbv beta iota.
    cbn [files log stdout]. rewrite <- !app_assoc. cbn [app].
    run_attempt Hembed. reflexivity.
Qed.

(** The run of [main] of [main.py] on a submission without one of its
    identifiers. *)
Lemma incomplete_submission_run (srv : services) (w w1 w2 w3 : world)
    (d : dict) (text_summary : string) (embedding_vector : pyval)
    (helper : IndexingHelper) :
  returns (load_submission exn_text json_loads SUBMISSION_FILE) w (PDict d) w1 ->
  flatten_submission str_repr d = Ok text_summary ->
  returns (embed_summary exn_text srv text_summary) (announced text_summary w1)
    embedding_vector w2 ->
  returns (IndexingHelper_init srv) w2 helper w3 ->
  has_identifiers d = false ->
  forall (send : http_request -> result response)
         (chat : string -> list pyval -> result pyval),
    let missing := "Missing one or more required fields: '_id', 'user_id', 'folder_id', 'document_id'." in
    let failed := "Error indexing document: Incomplete submission data." in
    submission_main str_repr exn_text json_loads (with_network srv send chat) w
    = (Ok tt,
       World (files w) (log w3 ++ [(ERROR, missing); (ERROR, failed)])
         (stdout w3 ++ [missing; failed])).
Proof.
  intros Hload Hflat Hembed Hhelper Hids send chat missing failed.
  destruct (submission_main_until_index (with_network srv send chat) w w1 w2
              (PDict d) text_summary embedding_vector Hload Hflat Hembed)
    as [Hfiles ->].
  assert (Hfiles3 : files w3 = files w).
  { rewrite <- Hfiles.
    eapply returns_keeps; [apply keeps_IndexingHelper_init | exact Hhelper]. }
  unfold returns in Hhelper. unfold try_except, index_submission.
  change (IndexingHelper_init (with_network srv send chat))
    with (IndexingHelper_init srv).
  run_step Hhelper. unfold get_method, lift.
  do 4 (rewrite run_bind; cbv beta iota).
  fold (has_identifiers d). rewrite Hids. cbn [negb].
  rewrite run_bind, run_logging. cbv beta iota.
  rewrite run_bind, run_print. cbv beta iota.
  unfold raise. rewrite run_bind, run_logging. cbv beta iota.
  rewrite run_print. cbn [files log stdout exn_str].
  rewrite <- !app_assoc, Hfiles3. reflexivity.
Qed.

(** X20.  A submission without one of [_id], [user_id], [folder_id]
    and [document_id] (missing, null or empty) ends in an error: once
    it is flattened and embedded and the indexing helper is configured,
    [main] logs and prints that fields are missing and that indexing
    failed with [Incomplete submission data.], and returns; no file but
    the log file is changed, and the replies of the search service play
    no part in the outcome. *)
Theorem incomplete_submission_rejected (srv : services) (w w1 w2 w3 : world)
    (d : dict) (text_summary : string) (embedding_vector : pyval)
    (helper : IndexingHelper) :
  returns (load_submission exn_text json_loads SUBMISSION_FILE) w (PDict d) w1 ->
  flatten_submission str_repr d = Ok text_summary ->
  returns (embed_summary exn_text srv text_summary) (announced text_summary w1)
    embedding_vector w2 ->
  returns (IndexingHelper_init srv) w2 helper w3 ->
  has_identifiers d = false ->
  let missing := "Missing one or more required fields: '_id', 'user_id', 'folder_id', 'document_id'." in
  let failed := "Error indexing document: Incomplete submission data." in
  exists w' : world,
    same_data w w'
    /\ log w' = (log w3 ++ [(ERROR, missing); (ERROR, failed)])%list
    /\ stdout w' = (stdout w3 ++ [missing; failed])%list
    /\ forall (send : http_request -> result response)
              (chat : string -> list pyval -> result pyval),
         submission_main str_repr exn_text json_loads (with_network srv send chat) w
         = (Ok tt, w').
Proof.
  intros Hload Hflat Hembed Hhelper Hids missing failed.
  eexists. split; [|split; [|split]]; cycle 3.
  - intros send chat.
    exact (incomplete_submission_run srv w w1 w2 w3 d text_summary
             embedding_vector helper Hload Hflat Hembed Hhelper Hids send chat).
  - now apply same_data_of_files.
  - reflexivity.
  - reflexivity.
Qed.

(** The run of [main] of [main.py] on a complete submission that the
    service accepts. *)
Lemma submission_main_uploads_run (srv : services) (w w1 w2 w3 : world)
    (d : dict) (text_summary : string) (embedding_vector : pyval)
    (helper : IndexingHelper) (resp : response) :
  returns (load_submission exn_text json_loads SUBMISSION_FILE) w (PDict d) w1 ->
  flatten_submission str_repr d = Ok text_summary ->
  returns (embed_summary exn_text srv text_summary) (announced text_summary w1)
    embedding_vector w2 ->
  returns (IndexingHelper_init srv) w2 helper w3 ->
  has_identifiers d = true ->
  http_send srv
    (index_request helper (dict_get d "_id" PNone) (dict_get d "user_id" PNone)
       (dict_get d "folder_id" PNone) (dict_get d "document_id" PNone)
       "result" text_summary embedding_vector EmptyString) = Ok resp ->
  is_error_status (status_code resp) = false ->
  let done := "Successfully indexed document ID: "
              +:+ py_str str_repr (dict_get d "_id" PNone) in
  submission_main str_repr exn_text json_loads srv w
  = (Ok tt,
     World (files w) (log w3 ++ [(INFO, done)]) (stdout w3 ++ [done; done])).
Proof.
  intros Hload Hflat Hembed Hhelper Hids Hsend Hst done.
  destruct (submission_main_until_index srv w w1 w2 (PDict d) text_summary
              embedding_vector Hload Hflat Hembed) as [Hfiles ->].
  assert (Hfiles3 : files w3 = files w).
  { rewrite <- Hfiles.
    eapply returns_keeps; [apply keeps_IndexingHelper_init | exact Hhelper]. }
  pose proof (index_document_returns srv helper
                (dict_get d "_id" PNone) (dict_get d "user_id" PNone)
                (dict_get d "folder_id" PNone) (dict_get d "document_id" PNone)
                "result" text_summary embedding_vector EmptyString resp w3
                Hsend Hst) as Hupload.
  unfold returns in Hhelper. unfold try_except, index_submission.
  run_step Hhelper. unfold get_method, lift.
  do 4 (rewrite run_bind; cbv beta iota).
  fold (has_identifiers d). rewrite Hids. cbn [negb].
  rewrite run_bind, Hupload. cbv beta iota.
  rewrite run_bind, run_logging. cbv beta iota.
  rewrite run_print. cbn [files log stdout].
  rewrite <- !app_assoc, Hfiles3. reflexivity.
Qed.

(** X21.  A complete submission is indexed from its flattened text:
    when the file decodes to a dictionary with the four identifiers,
    flattening and embedding succeed, the indexing helper is configured
    and the reply of the service to the request that carries the
    flattened text, the embedding, the type [result] and empty metadata
    has a status outside 400 to 599, [main] returns after printing the
    success line twice and logging it once; no file but the log file is
    changed. *)
Theorem submission_main_uploads (srv : services) (w w1 w2 w3 : world)
    (d : dict) (text_summary : string) (embedding_vector : pyval)
    (helper : IndexingHelper) (resp : response) :
  returns (load_submission exn_text json_loads SUBMISSION_FILE) w (PDict d) w1 ->
  flatten_submission str_repr d = Ok text_summary ->
  returns (embed_summary exn_text srv text_summary) (announced text_summary w1)
    embedding_vector w2 ->
  returns (IndexingHelper_init srv) w2 helper w3 ->
  has_identifiers d = true ->
  http_send srv
    (index_request helper (dict_get d "_id" PNone) (dict_get d "user_id" PNone)
       (dict_get d "folder_id" PNone) (dict_get d "document_id" PNone)
       "result" text_summary embedding_vector EmptyString) = Ok resp ->
  is_error_status (status_code resp) = false ->
  let done := "Successfully indexed document ID: "
              +:+ py_str str_repr (dict_get d "_id" PNone) in
  exists w' : world,
    submission_main str_repr exn_text json_loads srv w = (Ok tt, w')
    /\ same_data w w'
    /\ log w' = (log w3 ++ [(INFO, done)])%list
    /\ stdout w' = (stdout w3 ++ [done; done])%list.
Proof.
  intros Hload Hflat Hembed Hhelper Hids Hsend Hst done.
  exact (run_ends _ w _ _ _ _
           (submission_main_uploads_run srv w w1 w2 w3 d text_summary
              embedding_vector helper resp Hload Hflat Hembed Hhelper Hids
              Hsend Hst)
           eq_refl).
Qed.

(** *** How the query orchestrator ends when a step fails *)

Lemma run_keeps {A : Type} (m : io A) (w w' : world) (r : result A) :
  keeps_files m -> m w = (r, w') -> files w' = files w.
Proof. intros Hm H. specialize (Hm w). rewrite H in Hm. exact Hm. Qed.

(** X22.  A helper that cannot be constructed stops the query
    orchestrator with an exception: the [ValueError] of the embedding
    helper or of the search helper leaves [main] as it is, before the
    history or the query is read. *)
Theorem main_configuration_failure (srv : services) (w : world) :
  (forall (e : exn) (w1 : world),
     (load_env;; EmbeddingHelper_init srv) w = (Raise e, w1) ->
     main str_repr exn_text json_loads json_dumps str_strip srv w = (Raise e, w1))
  /\ (forall (embedder : EmbeddingHelper) (e : exn) (w1 w2 : world),
        returns (load_env;; EmbeddingHelper_init srv) w embedder w1 ->
        SearchHelper_init srv w1 = (Raise e, w2) ->
        main str_repr exn_text json_loads json_dumps str_strip srv w
        = (Raise e, w2)).
Proof.
  split.
  - intros e w1 Hinit. rewrite run_bind in Hinit. unfold load_env in Hinit.
    rewrite run_logging in Hinit. cbv beta iota in Hinit.
    unfold main, load_env. rewrite run_bind, run_logging. cbv beta iota.
    rewrite run_bind, Hinit. reflexivity.
  - intros embedder e w1 w2 Hinit Hsearcher. unfold returns in Hinit.
    rewrite run_bind in Hinit. unfold load_env in Hinit.
    rewrite run_logging in Hinit. cbv beta iota in Hinit.
    unfold main, load_env. rewrite run_bind, run_logging. cbv beta iota.
    run_step Hinit. rewrite run_bind, Hsearcher. reflexivity.
Qed.

(** The run of [main] when reading the query, the embedding or the
    search raises. *)
Lemma main_stops_on_failure_run (srv : services) (w w1 w2 w3 : world)
    (embedder : EmbeddingHelper) (searcher : SearchHelper) (history : pyval) :
  returns (load_env;; EmbeddingHelper_init srv) w embedder w1 ->
  returns (SearchHelper_init srv) w1 searcher w2 ->
  returns (load_conversation_history exn_text json_loads) w2 history w3 ->
  let run := main str_repr exn_text json_loads json_dumps str_strip srv w in
  (forall (e : exn) (w4 : world),
     get_user_query exn_text str_strip "RAG/query.txt" w3 = (Raise e, w4) ->
     run = (Ok tt,
            World (files w) (log w4)
              (stdout w4 ++ ["Error loading user query: "
                             +:+ exn_str exn_text e])))
  /\ (forall (user_query : string) (e : exn) (w4 w5 : world),
        returns (get_user_query exn_text str_strip "RAG/query.txt") w3
          user_query w4 ->
        get_embedding exn_text srv embedder user_query w4 = (Raise e, w5) ->
        run = (Ok tt,
               World (files w)
                 (log w5 ++ [(ERROR, "Failed to generate embedding: "
                                     +:+ exn_str exn_text e)])
                 (stdout w5
                  ++ ["Error generating embedding. Please try again later."])))
  /\ (forall (user_query : string) (embedding : pyval) (e : exn)
             (w4 w5 w6 : world),
        returns (get_user_query exn_text str_strip "RAG/query.txt") w3
          user_query w4 ->
        returns (get_embedding exn_text srv embedder user_query) w4 embedding w5 ->
        (search_results ←
           vector_search str_repr exn_text json_loads srv searcher embedding 5
             (Some (getenv_default srv "CURRENT_USER_ID" "userXYZ"));
         lift (get_method search_results "value" (PList []))) w5 = (Raise e, w6) ->
        run = (Ok tt,
               World (files w)
                 (log w6 ++ [(ERROR, "Vector search failed: "
                                     +:+ exn_str exn_text e)])
                 (stdout w6 ++ ["Error performing search: "
                                +:+ exn_str exn_text e]))).
Proof.
  intros Hinit Hsearcher Hload run.
  assert (Hfiles3 : files w3 = files w).
  { transitivity (files w2);
      [eapply returns_keeps; [apply keeps_load_conversation_history
                             | exact Hload]|].
    transitivity (files w1);
      [eapply returns_keeps; [apply keeps_SearchHelper_init | exact Hsearcher]|].
    eapply returns_keeps; [|exact Hinit]. unfold load_env. files_kept. }
  unfold returns in Hinit, Hsearcher, Hload.
  rewrite run_bind in Hinit. unfold load_env in Hinit.
  rewrite run_logging in Hinit. cbv beta iota in Hinit.
  assert (Hstart : run
                   = (loaded ← attempt (get_user_query exn_text str_strip
                                          "RAG/query.txt");
                      match loaded with
                      | Raise e =>
                          print ("Error loading user query: "
                                 +:+ exn_str exn_text e)
                      | Ok user_query =>
                          embedded ← attempt (get_embedding exn_text srv embedder
                                                user_query);
                          match embedded with
                          | Raise e =>
                              logging ERROR ("Failed to generate embedding: "
                                             +:+ exn_str exn_text e);;
                              print "Error generating embedding. Please try again later."
                          | Ok embedding =>
                              searched ← attempt
                                (search_results ←
                                   vector_search str_repr exn_text json_loads srv
                                     searcher embedding 5
                                     (Some (getenv_default srv "CURRENT_USER_ID"
                                              "userXYZ"));
                                 lift (get_method search_results "value"
                                         (PList [])));
                              match searched with
                              | Raise e =>
                                  logging ERROR ("Vector search failed: "
                                                 +:+ exn_str exn_text e);;
                                  print ("Error performing search: "
                                         +:+ exn_str exn_text e)
                              | Ok documents =>
                                  if negb (truthy documents)
                                  then print "No relevant documents found."
                                  else
                                    print (nl +:+ "Top Relevant Documents:");;
                                    docs ← lift (py_iter documents);
                                    display_documents str_repr 1 docs;;
                                    history' ← try_except
                                      (answered ←
                                         process_results_with_openai_chat exn_text
                                           str_strip srv documents user_query
                                           history;
                                       print (nl +:+ "Answer:" +:+ nl
                                              +:+ fst answered);;
                                       mret (snd answered))
                                      (fun e =>
                                         logging ERROR
                                           ("Failed to generate answer with OpenAI Chat Completion: "
                                            +:+ exn_str exn_text e);;
                                         print "Error generating answer. Please try again later.";;
                                         mret history);
                                    save_conversation_history exn_text json_dumps
                                      history'
                              end
                          end
                      end) w3).
  { unfold run, main, load_env. rewrite run_bind, run_logging. cbv beta iota.
    run_step Hinit. run_step Hsearcher. run_step Hload. reflexivity. }
  rewrite Hstart. split; [|split].
  - intros e w4 Hquery. run_attempt Hquery. rewrite run_print.
    rewrite (run_keeps _ _ _ _ (keeps_get_user_query exn_text str_strip _) Hquery).
    now rewrite Hfiles3.
  - intros user_query e w4 w5 Hquery Hembed. unfold returns in Hquery.
    run_attempt Hquery. run_attempt Hembed.
    rewrite run_bind, run_logging. cbv beta iota. rewrite run_print.
    cbn [files log stdout].
    rewrite (run_keeps _ _ _ _ (keeps_get_embedding exn_text _ _ _) Hembed).
    rewrite (run_keeps _ _ _ _ (keeps_get_user_query exn_text str_strip _) Hquery).
    now rewrite Hfiles3.
  - intros user_query embedding e w4 w5 w6 Hquery Hembed Hsearch.
    unfold returns in Hquery, Hembed.
    run_attempt Hquery. run_attempt Hembed. run_attempt Hsearch.
    rewrite run_bind, run_logging. cbv beta iota. rewrite run_print.
    cbn [files log stdout].
    assert (Hkeeps : keeps_files
              (search_results ←
                 vector_search str_repr exn_text json_loads srv searcher
                   embedding 5
                   (Some (getenv_default srv "CURRENT_USER_ID" "userXYZ"));
               lift (get_method search_results "value" (PList []))))
      by (files_kept; apply keeps_vector_search).
    rewrite (run_keeps _ _ _ _ Hkeeps Hsearch).
    rewrite (run_keeps _ _ _ _ (keeps_get_embedding exn_text _ _ _) Hembed).
    rewrite (run_keeps _ _ _ _ (keeps_get_user_query exn_text str_strip _) Hquery).
    now rewrite Hfiles3.
Qed.

(** X23.  A failure before the chat step ends the run without saving.
    When reading the query, the embedding or the search raises, [main]
    prints a message (and logs the last two), returns normally, and
    leaves the history file and every other file but the log file as
    it was. *)
Theorem main_stops_on_failure (srv : services) (w w1 w2 w3 : world)
    (embedder : EmbeddingHelper) (searcher : SearchHelper) (history : pyval) :
  returns (load_env;; EmbeddingHelper_init srv) w embedder w1 ->
  returns (SearchHelper_init srv) w1 searcher w2 ->
  returns (load_conversation_history exn_text json_loads) w2 history w3 ->
  let ends (records : list (level * string)) (printed : list string) :=
    exists w' : world,
      main str_repr exn_text json_loads json_dumps str_strip srv w = (Ok tt, w')
      /\ same_data w w'
      /\ log w' = records /\ stdout w' = printed in
  (forall (e : exn) (w4 : world),
     get_user_query exn_text str_strip "RAG/query.txt" w3 = (Raise e, w4) ->
     ends (log w4)
       (stdout w4 ++ ["Error loading user query: " +:+ exn_str exn_text e])%list)
  /\ (forall (user_query : string) (e : exn) (w4 w5 : world),
        returns (get_user_query exn_text str_strip "RAG/query.txt") w3
          user_query w4 ->
        get_embedding exn_text srv embedder user_query w4 = (Raise e, w5) ->
        ends (log w5 ++ [(ERROR, "Failed to generate embedding: "
                                 +:+ exn_str exn_text e)])%list
          (stdout w5
           ++ ["Error generating embedding. Please try again later."])%list)
  /\ (forall (user_query : string) (embedding : pyval) (e : exn)
             (w4 w5 w6 : world),
        returns (get_user_query exn_text str_strip "RAG/query.txt") w3
          user_query w4 ->
        returns (get_embedding exn_text srv embedder user_query) w4 embedding w5 ->
        (search_results ←
           vector_search str_repr exn_text json_loads srv searcher embedding 5
             (Some (getenv_default srv "CURRENT_USER_ID" "userXYZ"));
         lift (get_method search_results "value" (PList []))) w5 = (Raise e, w6) ->
        ends (log w6 ++ [(ERROR, "Vector search failed: "
                                 +:+ exn_str exn_text e)])%list
          (stdout w6 ++ ["Error performing search: "
                         +:+ exn_str exn_text e])%list).
Proof.
  intros Hinit Hsearcher Hload ends.
  destruct (main_stops_on_failure_run srv w w1 w2 w3 embedder searcher history
              Hinit Hsearcher Hload) as (Hquery & Hembed & Hsearch).
  split; [|split].
  - intros e w4 H. exact (run_ends _ w _ _ _ _ (Hquery e w4 H) eq_refl).
  - intros user_query e w4 w5 H4 H5.
    exact (run_ends _ w _ _ _ _ (Hembed user_query e w4 w5 H4 H5) eq_refl).
  - intros user_query embedding e w4 w5 w6 H4 H5 H6.
    exact (run_ends _ w _ _ _ _ (Hsearch user_query embedding e w4 w5 w6 H4 H5 H6)
             eq_refl).
Qed.

End RuntimeMore.

(** ** The helpers and entry points at concrete processes, continued *)

Lemma azure_helper_init_outcomes_witness :
  let bare := Services (fun _ => None) (fun _ => Raise (ServiceError "offline"))
                (fun _ _ => Ok PNone) (fun _ _ => Ok PNone) in
  let configured := example_services one_document (Ok PNone) (Ok PNone) in
  fst (AzureSearchRESTHelper_init plain_exn_text plain_json_loads bare
         "index_definition.json" example_world)
  = Raise (ValueError "Azure Cognitive Search configuration is incomplete. Please check your local.env file.")
  /\ fst (AzureSearchRESTHelper_init plain_exn_text plain_json_loads configured
            "index_definition.json" example_world)
     = Raise (FileNotFoundError
                "Index definition file 'index_definition.json' not found.")
  /\ fst (AzureSearchRESTHelper_init plain_exn_text plain_json_loads configured
            "RAG/query.txt" example_world)
     = Raise (ValueError
                "Error decoding JSON from 'RAG/query.txt': Expecting value").
Proof.
  intros bare configured.
  assert (Hnone : files example_world !! "index_definition.json" = None)
    by (vm_compute; reflexivity).
  assert (Hsome : files example_world !! "RAG/query.txt"
                  = Some ("What did Alice order?" +:+ nl))
    by (vm_compute; reflexivity).
  assert (Hbad : plain_json_loads ("What did Alice order?" +:+ nl)
                 = Raise (JSONDecodeError "Expecting value"))
    by (vm_compute; reflexivity).
  split; [|split].
  - exact (f_equal fst
             (proj1 (azure_helper_init_outcomes plain_exn_text plain_json_loads
                       bare "index_definition.json" example_world) eq_refl)).
  - exact (proj1 (proj2 (azure_helper_init_outcomes plain_exn_text
                           plain_json_loads configured "index_definition.json"
                           example_world)) eq_refl Hnone).
  - exact (proj1 (proj2 (proj2 (azure_helper_init_outcomes plain_exn_text
                                  plain_json_loads configured "RAG/query.txt"
                                  example_world)))
             _ _ eq_refl Hsome Hbad).
Defined.

Lemma create_or_update_index_by_status_witness :
  let created := example_services (Response 201 "Created" "{}")
                   (Ok PNone) (Ok PNone) in
  let emptied := example_services (Response 204 "No Content" EmptyString)
                   (Ok PNone) (Ok PNone) in
  fst (create_or_update_index ascii_repr plain_json_loads created example_index
         example_world) = Ok tt
  /\ create_or_update_index ascii_repr plain_json_loads emptied example_index
       example_world
     = (Raise (Exception "Failed to create/update index 'knowledge-index': "),
        World (files example_world)
          [(ERROR, "Failed to create/update index 'knowledge-index': ")] []).
Proof.
  intros created emptied. split.
  - exact (f_equal fst
             (proj1 (create_or_update_index_by_status ascii_repr plain_json_loads
                       created example_index example_world)
                (Response 201 "Created" "{}") eq_refl (or_intror eq_refl))).
  - assert (H200 : status_code (Response 204 "No Content" EmptyString) <> 200)
      by discriminate.
    assert (H201 : status_code (Response 204 "No Content" EmptyString) <> 201)
      by discriminate.
    assert (Hbad : plain_json_loads EmptyString
                   = Raise (JSONDecodeError "Expecting value"))
      by (vm_compute; reflexivity).
    exact (proj2 (proj1 (proj2 (create_or_update_index_by_status ascii_repr
                                  plain_json_loads emptied example_index
                                  example_world))
                    (Response 204 "No Content" EmptyString) eq_refl H200 H201)
             _ Hbad).
Defined.

Lemma vector_search_outcomes_witness :
  let searcher := SearchHelperOf "https://search.example" "key-2"
                    "knowledge-index" "2024-07-01" in
  let document := PDict [("id", PStr "result123"); ("type", PStr "result");
                         ("content", PStr "Alice ordered markers.");
                         ("metadata", PStr EmptyString)] in
  let refused :=
    Response 403 "Forbidden"
      (plain_json_dumps
         (PDict [("error", PDict [("code", PStr "Forbidden");
                                  ("message", PStr "Invalid api-key")])])) in
  fst (vector_search ascii_repr plain_exn_text plain_json_loads
         (example_services one_document (Ok PNone) (Ok PNone)) searcher
         example_embedding 5 (Some "userXYZ") example_world)
  = Ok (PDict [("value", PList [document])])
  /\ fst (vector_search ascii_repr plain_exn_text plain_json_loads
            (example_services refused (Ok PNone) (Ok PNone)) searcher
            example_embedding 5 (Some "userXYZ") example_world)
     = Raise (Exception "HTTP error during vector search: Invalid api-key").
Proof.
  intros searcher document refused. split.
  - assert (Hst : is_error_status (status_code one_document) = false)
      by reflexivity.
    assert (Hbody : plain_json_loads (text one_document)
                    = Ok (PDict [("value", PList [document])]))
      by (vm_compute; reflexivity).
    exact (f_equal fst
             (proj2 (proj2 (vector_search_outcomes ascii_repr plain_exn_text
                              plain_json_loads
                              (example_services one_document (Ok PNone) (Ok PNone))
                              searcher example_embedding 5 (Some "userXYZ")
                              example_world))
                one_document [("value", PList [document])] 1
                eq_refl Hst Hbody eq_refl)).
  - assert (Hst : is_error_status (status_code refused) = true) by reflexivity.
    assert (Hbody : plain_json_loads (text refused)
                    = Ok (PDict [("error",
                            PDict [("code", PStr "Forbidden");
                                   ("message", PStr "Invalid api-key")])]))
      by (vm_compute; reflexivity).
    exact (proj2 (proj1 (proj2 (vector_search_outcomes ascii_repr plain_exn_text
                                  plain_json_loads
                                  (example_services refused (Ok PNone) (Ok PNone))
                                  searcher example_embedding 5 (Some "userXYZ")
                                  example_world))
                    refused eq_refl Hst)
             _ _ (PStr "Invalid api-key") Hbody eq_refl eq_refl).
Defined.

Lemma helpers_configuration_witness :
  let srv := example_services one_document (Ok PNone) (Ok PNone) in
  getenv srv "ACS_INDEX_NAME" = None
  /\ (exists self : SearchHelper,
        fst (SearchHelper_init srv example_world) = Ok self
        /\ sh_index_name self = "knowledge-index")
  /\ fst (IndexingHelper_init srv example_world)
     = Raise (ValueError "Azure Cognitive Search configuration is incomplete. Please check your .env file.").
Proof.
  intros srv. split; [reflexivity|].
  exact (proj2 (proj2 (proj2 (helpers_configuration srv example_world)))
           eq_refl eq_refl).
Defined.

Lemma index_document_outcomes_witness :
  let upload srv :=
    index_document ascii_repr plain_exn_text srv example_indexer
      (PStr "result123") (PStr "userXYZ") (PStr "folderABC") (PStr "doc789")
      "result" "Submission" example_embedding EmptyString example_world in
  upload (indexing_services (Ok (Response 200 "OK" "{}")) (Ok PNone))
  = (Ok tt,
     World (files example_world) []
       ["Successfully indexed document ID: result123"])
  /\ upload (indexing_services (Raise (ServiceError "connection refused"))
               (Ok PNone))
     = (Raise (ServiceError "connection refused"),
        World (files example_world) []
          ["Failed to index document ID: result123. Error: connection refused"]).
Proof.
  intros upload. split.
  - assert (Hst : is_error_status (status_code (Response 200 "OK" "{}")) = false)
      by reflexivity.
    exact (proj1 (index_document_outcomes ascii_repr plain_exn_text
                    (indexing_services (Ok (Response 200 "OK" "{}")) (Ok PNone))
                    example_indexer (PStr "result123") (PStr "userXYZ")
                    (PStr "folderABC") (PStr "doc789") "result" "Submission"
                    example_embedding EmptyString example_world)
             (Response 200 "OK" "{}") eq_refl Hst).
  - exact (proj2 (proj2 (index_document_outcomes ascii_repr plain_exn_text
                           (indexing_services
                              (Raise (ServiceError "connection refused"))
                              (Ok PNone))
                           example_indexer (PStr "result123") (PStr "userXYZ")
                           (PStr "folderABC") (PStr "doc789") "result"
                           "Submission" example_embedding EmptyString
                           example_world))
             "connection refused" eq_refl).
Defined.

Lemma chat_step_always_returns_witness :
  let srv := example_services one_document (Ok example_embedding)
               (Raise (ServiceError "chat service is down")) in
  exists (answer : string) (history' : pyval) (w' : world),
    returns (process_results_with_openai_chat plain_exn_text ascii_strip srv
               (PList []) "What did Alice order?" (PList [])) example_world
      (answer, history') w'
    /\ answer = "I'm sorry, I couldn't generate a response at this time."
    /\ history' = PList [message "user" "What did Alice order?"].
Proof.
  intros srv.
  destruct (chat_step_always_returns plain_exn_text ascii_strip srv (PList [])
              "What did Alice order?" (PList []) example_world)
    as (answer & history' & w' & Hrun & _ & Hlist).
  exists answer, history', w'. split; [exact Hrun|].
  destruct (Hlist [] eq_refl) as [(Ha & Hh & _) | (a & Hchat & _)].
  - split; [exact Ha | exact Hh].
  - discriminate Hchat.
Defined.

Lemma main_without_documents_witness :
  let nothing := Response 200 "OK" (plain_json_dumps (PDict [("value", PList [])])) in
  let srv := example_services nothing (Ok example_embedding) (Ok (PStr "Markers.")) in
  exists w' : world,
    main ascii_repr plain_exn_text plain_json_loads plain_json_dumps
      ascii_strip srv example_world = (Ok tt, w')
    /\ same_data example_world w'
    /\ files w' !! CONVERSATION_HISTORY_FILE = None
    /\ stdout w' = ["What did Alice order?"; "No relevant documents found."].
Proof.
  intros nothing srv.
  pose (embedder := EmbeddingHelperOf "https://openai.example"
                      "2023-03-15-preview" "key-1" "text-embedding-ada-002").
  pose (searcher := SearchHelperOf "https://search.example" "key-2"
                      "knowledge-index" "2024-07-01").
  pose (w1 := snd ((load_env;; EmbeddingHelper_init srv) example_world)).
  pose (w2 := snd (SearchHelper_init srv w1)).
  pose (w3 := snd (load_conversation_history plain_exn_text plain_json_loads w2)).
  pose (w4 := snd (get_user_query plain_exn_text ascii_strip "RAG/query.txt" w3)).
  pose (w5 := snd (get_embedding plain_exn_text srv embedder
                     "What did Alice order?" w4)).
  pose (w6 := snd ((search_results ←
                      vector_search ascii_repr plain_exn_text plain_json_loads
                        srv searcher example_embedding 5
                        (Some (getenv_default srv "CURRENT_USER_ID" "userXYZ"));
                    lift (get_method search_results "value" (PList []))) w5)).
  destruct (main_without_documents ascii_repr plain_exn_text plain_json_loads
              plain_json_dumps ascii_strip srv example_world w1 w2 w3 w4 w5 w6
              embedder searcher (PList []) "What did Alice order?"
              example_embedding (PList []))
    as (w' & Hrun & Hdata & Hhistory & _ & Hout & _);
    try (vm_compute; reflexivity).
  exists w'. split; [exact Hrun|]. split; [exact Hdata|]. split.
  - rewrite Hhistory. vm_compute. reflexivity.
  - rewrite Hout. vm_compute. reflexivity.
Defined.

Lemma main_display_failure_witness :
  let partial :=
    Response 200 "OK"
      (plain_json_dumps
         (PDict [("value",
            PList [PDict [("id", PStr "result123"); ("type", PStr "result");
                          ("content", PStr "Alice ordered markers.")]])])) in
  let srv := example_services partial (Ok example_embedding) (Ok (PStr "Markers.")) in
  exists w' : world,
    main ascii_repr plain_exn_text plain_json_loads plain_json_dumps
      ascii_strip srv example_world = (Raise (KeyError "metadata"), w')
    /\ same_data example_world w'
    /\ files w' !! CONVERSATION_HISTORY_FILE = None.
Proof.
  intros partial srv.
  pose (embedder := EmbeddingHelperOf "https://openai.example"
                      "2023-03-15-preview" "key-1" "text-embedding-ada-002").
  pose (searcher := SearchHelperOf "https://search.example" "key-2"
                      "knowledge-index" "2024-07-01").
  pose (document := PDict [("id", PStr "result123"); ("type", PStr "result");
                           ("content", PStr "Alice ordered markers.")]).
  pose (w1 := snd ((load_env;; EmbeddingHelper_init srv) example_world)).
  pose (w2 := snd (SearchHelper_init srv w1)).
  pose (w3 := snd (load_conversation_history plain_exn_text plain_json_loads w2)).
  pose (w4 := snd (get_user_query plain_exn_text ascii_strip "RAG/query.txt" w3)).
  pose (w5 := snd (get_embedding plain_exn_text srv embedder
                     "What did Alice order?" w4)).
  pose (w6 := snd ((search_results ←
                      vector_search ascii_repr plain_exn_text plain_json_loads
                        srv searcher example_embedding 5
                        (Some (getenv_default srv "CURRENT_USER_ID" "userXYZ"));
                    lift (get_method search_results "value" (PList []))) w5)).
  pose (w7 := snd ((print (nl +:+ "Top Relevant Documents:");;
                    display_documents ascii_repr 1 [document]) w6)).
  destruct (main_display_failure ascii_repr plain_exn_text plain_json_loads
              plain_json_dumps ascii_strip srv example_world w1 w2 w3 w4 w5 w6 w7
              embedder searcher (PList []) "What did Alice order?"
              example_embedding (PList [document]) [document]
              (KeyError "metadata"))
    as (Hmain & Hdata & Hhistory); try (vm_compute; reflexivity).
  exists w7. split; [exact Hmain|]. split; [exact Hdata|].
  rewrite Hhistory. vm_compute. reflexivity.
Defined.

Lemma submission_main_stops_early_witness :
  let srv := indexing_services (Ok (Response 200 "OK" "{}")) (Ok example_embedding) in
  let malformed :=
    [("_id", PStr "result123");
     ("fieldValues",
       PList [PDict [("fieldType", PStr "address"); ("fieldName", PStr "Home");
                     ("value", PDict [("zip", PInt 12345)])]])] in
  let exn_text :=
    exn_text_with "sequence item 0: expected str instance, int found" in
  stdout (snd (submission_main ascii_repr exn_text plain_json_loads srv
                 example_world))
  = ["Error loading submission: [Errno 2] No such file or directory: 'RAG/submission.json'"]
  /\ stdout (snd (submission_main ascii_repr exn_text plain_json_loads srv
                    (submission_world malformed)))
     = ["Error flattening submission: sequence item 0: expected str instance, int found"].
Proof.
  intros srv malformed exn_text. split.
  - pose (w1 := snd (load_submission exn_text plain_json_loads
                       SUBMISSION_FILE example_world)).
    rewrite (proj1 (submission_main_stops_early ascii_repr exn_text
                      plain_json_loads srv example_world)
               (OSFileNotFound "RAG/submission.json") w1);
      vm_compute; reflexivity.
  - pose (w1 := snd (load_submission exn_text plain_json_loads
                       SUBMISSION_FILE (submission_world malformed))).
    rewrite (proj2 (submission_main_stops_early ascii_repr exn_text
                      plain_json_loads srv (submission_world malformed))
               (PDict malformed) TypeError w1);
      vm_compute; reflexivity.
Defined.

Lemma incomplete_submission_rejected_witness :
  let srv := indexing_services (Ok (Response 200 "OK" "{}")) (Ok example_embedding) in
  let d := example_submission PNone in
  has_identifiers d = false
  /\ exists (w' : world) (before : list string),
       same_data (submission_world d) w'
       /\ stdout w'
          = (before
             ++ ["Missing one or more required fields: '_id', 'user_id', 'folder_id', 'document_id'.";
                 "Error indexing document: Incomplete submission data."])%list
       /\ forall (send : http_request -> result response)
                 (chat : string -> list pyval -> result pyval),
            submission_main ascii_repr plain_exn_text plain_json_loads
              (with_network srv send chat) (submission_world d) = (Ok tt, w').
Proof.
  intros srv d. split; [reflexivity|].
  pose (w1 := snd (load_submission plain_exn_text plain_json_loads
                     SUBMISSION_FILE (submission_world d))).
  pose (w2 := snd (embed_summary plain_exn_text srv (example_summary "None")
                     (announced (example_summary "None") w1))).
  pose (w3 := snd (IndexingHelper_init srv w2)).
  destruct (incomplete_submission_rejected ascii_repr plain_exn_text
              plain_json_loads srv (submission_world d) w1 w2 w3 d
              (example_summary "None") example_embedding example_indexer)
    as (w' & Hdata & _ & Hout & Hrun); try (vm_compute; reflexivity).
  exists w', (stdout w3). split; [exact Hdata|]. split; [exact Hout | exact Hrun].
Defined.

Lemma submission_main_uploads_witness :
  let srv := indexing_services (Ok (Response 200 "OK" "{}")) (Ok example_embedding) in
  let d := example_submission (PStr "result123") in
  exists (w' : world) (before : list string),
    submission_main ascii_repr plain_exn_text plain_json_loads srv
      (submission_world d) = (Ok tt, w')
    /\ same_data (submission_world d) w'
    /\ stdout w'
       = (before ++ ["Successfully indexed document ID: result123";
                     "Successfully indexed document ID: result123"])%list.
Proof.
  intros srv d.
  pose (w1 := snd (load_submission plain_exn_text plain_json_loads
                     SUBMISSION_FILE (submission_world d))).
  pose (w2 := snd (embed_summary plain_exn_text srv (example_summary "result123")
                     (announced (example_summary "result123") w1))).
  pose (w3 := snd (IndexingHelper_init srv w2)).
  destruct (submission_main_uploads ascii_repr plain_exn_text plain_json_loads srv
              (submission_world d) w1 w2 w3 d (example_summary "result123")
              example_embedding example_indexer (Response 200 "OK" "{}"))
    as (w' & Hrun & Hdata & _ & Hout); try (vm_compute; reflexivity).
  exists w', (stdout w3). split; [exact Hrun|]. split; [exact Hdata | exact Hout].
Defined.

Lemma main_configuration_failure_witness :
  let bare := Services (fun _ => None) (fun _ => Raise (ServiceError "offline"))
                (fun _ _ => Ok PNone) (fun _ _ => Ok PNone) in
  fst (main ascii_repr plain_exn_text plain_json_loads plain_json_dumps
         ascii_strip bare example_world)
  = Raise (ValueError "Azure OpenAI configuration is incomplete. Please check your local.env file.").
Proof.
  intros bare.
  pose (w1 := snd ((load_env;; EmbeddingHelper_init bare) example_world)).
  rewrite (proj1 (main_configuration_failure ascii_repr plain_exn_text
                    plain_json_loads plain_json_dumps ascii_strip bare
                    example_world)
             (ValueError "Azure OpenAI configuration is incomplete. Please check your local.env file.")
             w1);
    vm_compute; reflexivity.
Defined.

Lemma main_stops_on_failure_witness :
  let srv := example_services one_document
               (Raise (ServiceError "embedding service is down"))
               (Ok (PStr "Markers.")) in
  exists w' : world,
    main ascii_repr plain_exn_text plain_json_loads plain_json_dumps
      ascii_strip srv example_world = (Ok tt, w')
    /\ same_data example_world w'
    /\ files w' !! CONVERSATION_HISTORY_FILE = None
    /\ log w' = [ (INFO, "Loaded environment variables.");
                  (INFO, "Initialized SearchHelper.");
                  (INFO, "No conversation history file found. Starting fresh.");
                  (INFO, "User query loaded from 'RAG/query.txt': What did Alice order?");
                  (ERROR, "Failed to generate embedding: embedding service is down") ].
Proof.
  intros srv.
  pose (embedder := EmbeddingHelperOf "https://openai.example"
                      "2023-03-15-preview" "key-1" "text-embedding-ada-002").
  pose (searcher := SearchHelperOf "https://search.example" "key-2"
                      "knowledge-index" "2024-07-01").
  pose (w1 := snd ((load_env;; EmbeddingHelper_init srv) example_world)).
  pose (w2 := snd (SearchHelper_init srv w1)).
  pose (w3 := snd (load_conversation_history plain_exn_text plain_json_loads w2)).
  pose (w4 := snd (get_user_query plain_exn_text ascii_strip "RAG/query.txt" w3)).
  pose (w5 := snd (get_embedding plain_exn_text srv embedder
                     "What did Alice order?" w4)).
  assert (Hinit : returns (load_env;; EmbeddingHelper_init srv) example_world
                    embedder w1) by (vm_compute; reflexivity).
  assert (Hsearcher : returns (SearchHelper_init srv) w1 searcher w2)
    by (vm_compute; reflexivity).
  assert (Hload : returns (load_conversation_history plain_exn_text
                             plain_json_loads) w2 (PList []) w3)
    by (vm_compute; reflexivity).
  destruct (proj1 (proj2 (main_stops_on_failure ascii_repr plain_exn_text
                            plain_json_loads plain_json_dumps ascii_strip srv
                            example_world w1 w2 w3 embedder searcher (PList [])
                            Hinit Hsearcher Hload))
              "What did Alice order?"
              (ServiceError "embedding service is down") w4 w5)
    as (w' & Hrun & Hdata & Hlog & _); try (vm_compute; reflexivity).
  exists w'. split; [exact Hrun|]. split; [exact Hdata|]. split.
  - rewrite (Hdata CONVERSATION_HISTORY_FILE eq_refl). vm_compute. reflexivity.
  - rewrite Hlog. vm_compute. reflexivity.
Defined.
